(** * sfdoc: the publish pipeline (salesforce.py, tasks.py)

    A shallow embedding of the reconciliation and publishing pipeline of
    [sfdoc/publish]: the decision procedure [Salesforce.process_article],
    the duplicate detector and the staging loop of [_process_bundle], the
    publisher [_publish_drafts], and the three queue jobs [process_queue],
    [process_webhook] and [publish_drafts].

    The two remote systems (the Salesforce org and the S3 bucket) are not
    part of the program: every request the code sends is an element of
    [call], answered by an arbitrary environment, and recorded with its answer in
    a log.
    The local Django tables are lists of rows in the [World]. *)

From Stdlib Require Import List String Ascii ZArith Bool Lia.
From Stdlib Require Import Sorting.Sorted Permutation DecimalString.
Import ListNotations.

Local Open Scope string_scope.
Local Open Scope list_scope.
Local Open Scope Z_scope.

(** ** Python values used by the code *)

Module Py.

(** [s.lower()].  Python folds every cased letter of Unicode, by the
    tables of the runtime.  A string here is the text as the program holds
    it, and the folding is a function of the runtime about which nothing
    is assumed: what is proved holds of [str.lower] whatever it folds. *)
Class Str : Type := { lower : string -> string }.

(** [os.path.basename]: what follows the last slash.  [cur] is the suffix
    that starts after the last slash seen so far. *)
Fixpoint basename_from (cur p : string) : string :=
  match p with
  | EmptyString => cur
  | String c rest =>
      if Ascii.eqb c "/"%char then basename_from rest rest
      else basename_from cur rest
  end.

Definition basename (p : string) : string := basename_from p p.

(** [s.startswith(p)] *)
Definition startswith (s p : string) : bool := String.prefix p s.

(** [sub in s] for strings *)
Definition contains (s sub : string) : bool :=
  match String.index 0 sub s with Some _ => true | None => false end.

(** [s[:n]] *)
Definition take (n : nat) (s : string) : string := String.substring 0 n s.

Definition nl : string := String (ascii_of_nat 10) EmptyString.
Definition tab : string := String (ascii_of_nat 9) EmptyString.

(** [sorted(xs)] on strings: code point order. *)
Fixpoint insert_sorted (x : string) (xs : list string) : list string :=
  match xs with
  | [] => [x]
  | y :: ys => if String.leb x y then x :: y :: ys else y :: insert_sorted x ys
  end.

Fixpoint sorted (xs : list string) : list string :=
  match xs with
  | [] => []
  | x :: rest => insert_sorted x (sorted rest)
  end.

(** [x in xs] *)
Fixpoint mem (x : string) (xs : list string) : bool :=
  match xs with
  | [] => false
  | y :: ys => String.eqb x y || mem x ys
  end.

(** A [set] of strings, kept in insertion order: [s.add(x)]. *)
Definition set_add (x : string) (s : list string) : list string :=
  if mem x s then s else s ++ [x].

(** A [dict] with string keys, kept in insertion order. *)
Definition dict (V : Type) : Type := list (string * V).

Fixpoint dict_get {V} (d : dict V) (k : string) : option V :=
  match d with
  | [] => None
  | (k', v) :: rest => if String.eqb k k' then Some v else dict_get rest k
  end.

Definition dict_has {V} (d : dict V) (k : string) : bool :=
  match dict_get d k with Some _ => true | None => false end.

(** [d[k] = v] *)
Fixpoint dict_set {V} (d : dict V) (k : string) (v : V) : dict V :=
  match d with
  | [] => [(k, v)]
  | (k', v') :: rest =>
      if String.eqb k k' then (k', v) :: rest else (k', v') :: dict_set rest k v
  end.

Definition keys {V} (d : dict V) : list string := map fst d.
Definition values {V} (d : dict V) : list V := map snd d.

(** [if k not in d: d[k] = []] followed by [d[k].append(v)] *)
Definition dict_append (d : dict (list string)) (k v : string) : dict (list string) :=
  match dict_get d k with
  | None => d ++ [(k, [v])]
  | Some vs => dict_set d k (vs ++ [v])
  end.

#[local] Set Warnings "-register-all".

(** JSON documents as [json.loads] returns them. *)
Inductive json : Type :=
| JNull
| JBool (b : bool)
| JNum (n : Z)
| JStr (s : string)
| JArr (xs : list json)
| JObj (items : list (string * json)).

(** [v == 'literal'] *)
Definition eq_str (v : json) (s : string) : bool :=
  match v with
  | JStr t => String.eqb t s
  | _ => false
  end.

End Py.

(** ** Exceptions and results *)

Inductive exn : Type :=
| SfdocError (msg : string)
| SalesforceError (msg : string)
| KeyError (key : string)
| TypeError
| IndexError
| UnboundLocalError (name : string)
| JSONDecodeError
| DoesNotExist
| ClientError (msg : string).
(* [ClientError]: raised inside a client library (requests,
   simple_salesforce, boto3) while a request is being served. *)

Inductive Result (A : Type) : Type :=
| Ok (a : A)
| Raise (e : exn).
Arguments Ok {A} a.
Arguments Raise {A} e.

(** [str(e)] *)
Definition exn_text (e : exn) : string :=
  match e with
  | SfdocError msg => msg
  | SalesforceError msg => msg
  | KeyError k => ("'" ++ k ++ "'")%string
  | TypeError => "TypeError"
  | IndexError => "list index out of range"
  | UnboundLocalError name =>
      ("local variable '" ++ name ++ "' referenced before assignment")%string
  | JSONDecodeError => "JSONDecodeError"
  | DoesNotExist => "matching query does not exist."
  | ClientError msg => msg
  end.

(** ** Data model

    tasks.py and salesforce.py import [Article], [Bundle], [Image] and
    [Webhook] from models.py; the models.py at hand declares none of them.
    The rows below carry the fields the two modules read and write. *)

(** Modelled from the spec: the decision statuses of [Article] and [Image]
    rows, "decision status in {NEW, CHANGED, DELETED}"; the code names them
    [STATUS_NEW], [STATUS_CHANGED], [STATUS_DELETED]. *)
Inductive Decision : Type := STATUS_NEW | STATUS_CHANGED | STATUS_DELETED.

Definition Decision_eqb (a b : Decision) : bool :=
  match a, b with
  | STATUS_NEW, STATUS_NEW
  | STATUS_CHANGED, STATUS_CHANGED
  | STATUS_DELETED, STATUS_DELETED => true
  | _, _ => false
  end.

(** Modelled from the spec: the lifecycle statuses of a [Bundle], "QUEUED,
    PROCESSING, DRAFT, PUBLISHING, PUBLISHED, with an ERROR sink"; the code
    names them [Bundle.STATUS_...]. *)
Inductive BundleStatus : Type :=
| STATUS_QUEUED
| STATUS_PROCESSING
| STATUS_DRAFT
| STATUS_PUBLISHING
| STATUS_PUBLISHED
| STATUS_ERROR.

(** Modelled from the spec: "admission status in {ACCEPTED, REJECTED}". *)
Inductive WebhookStatus : Type := STATUS_ACCEPTED | STATUS_REJECTED.

(** Modelled from the spec: the [Article] model (ArticleChange), with the
    fields [save_article] gives to [Article.objects.create]. *)
Record Article : Type := {
  a_bundle : Z;
  a_ka_id : string;
  a_kav_id : string;
  a_preview_url : string;
  a_status : Decision;
  a_title : string;
  a_url_name : string
}.

(** Modelled from the spec: the [Image] model (ImageChange), with the
    fields [_process_bundle] gives to [Image.objects.create]. *)
Record Image : Type := {
  i_bundle : Z;
  i_filename : string;
  i_status : Decision
}.

(** Modelled from the spec: the [Bundle] model, "source id, lifecycle
    status, queued/processed/published timestamps, last error text", with
    the field names of tasks.py. *)
Record Bundle : Type := {
  b_pk : Z;
  b_easydita_id : Py.json;
  b_easydita_resource_id : Py.json;
  b_status : BundleStatus;
  b_time_queued : Z;
  b_time_processed : option Z;
  b_time_published : option Z;
  b_error_message : string
}.

(** Modelled from the spec: the [Webhook] model, "raw payload, admission
    status, associated Bundle (nullable until resolved)". *)
Record Webhook : Type := {
  w_pk : Z;
  w_body : string;
  w_status : option WebhookStatus;
  w_bundle : option Z
}.

(** A parsed document, as the [HTML] class holds it.  [image_paths] are
    the absolute paths [_process_bundle] computes from
    [html.get_image_paths()]. *)
Record HTML : Type := {
  url_name : string;
  title : string;
  body : string;
  image_paths : list string
}.

(** A KnowledgeArticleVersion record of a query result. *)
Record Kav : Type := {
  Id : string;
  KnowledgeArticleId : string;
  Title : string;
  UrlName : string
}.

Record QueryResult : Type := {
  totalSize : Z;
  records : list Kav
}.

(** The four SOQL queries the code sends. *)
Inductive soql : Type :=
| ByUrlName (url_name publish_status : string)   (* query_articles *)
| DraftOfArticle (ka_id : string)                (* archive *)
| ById (kav_id publish_status : string)          (* get_ka_id *)
| ByStatus (publish_status : string).            (* get_articles *)

(** Jobs put on the worker queue with [.delay()]. *)
Inductive job : Type :=
| ProcessBundle (bundle_pk : Z)
| ProcessQueue.

(** ** Requests to the two remote systems *)

Inductive call : Type -> Type :=
| SalesforceLogin : call unit                                   (* Salesforce() *)
| Query (q : soql) : call QueryResult                           (* api.query *)
| KavCreate (data : Py.dict string) : call string               (* kav_api.create *)
| KavUpdate (kav_id : string) (data : Py.dict string) : call Z  (* kav_api.update *)
| KavGet (kav_id : string) : call (Py.dict string)              (* kav_api.get *)
| PostMasterVersion (ka_id : string) : call (Z * string)        (* POST masterVersions *)
| DeleteMasterVersion (kav_id : string) : call Z                (* DELETE masterVersions/id *)
| PatchPublishStatus (kav_id status : string) : call Z          (* PATCH masterVersions/id *)
| S3Connect : call unit                                         (* S3() *)
| S3DeleteDraftImages : call unit
| S3IterObjects : call (list string * option exn)  (* the keys the iteration yields,
                                                      and what ends it early *)
| S3ProcessImage (image : string) (bundle : Z) : call (option Decision)
| S3UploadImage (image key : string) : call unit
| S3CopyToProduction (filename : string) : call unit
| S3Delete (filename : string) : call unit.

(** What the log keeps of a request: the call and its answer. *)
Inductive event : Type :=
| Ev {X : Type} (c : call X) (r : Result X).

(** Requests that ask the remote system to change something. *)
Definition is_mutation (e : event) : bool :=
  match e with
  | @Ev _ c _ =>
      match c with
      | SalesforceLogin | Query _ | KavGet _ | S3Connect | S3IterObjects => false
      | _ => true
      end
  end.

Definition mutations (l : list event) : list event := filter is_mutation l.

(** The environment: how the remote systems answer. *)
Class Remote (Env : Type) : Type := {
  respond : forall X : Type, call X -> Env -> Result X * Env
}.
Arguments respond {Env _ X} c env.

(** Settings read by the code. *)
Record Settings : Type := {
  SALESFORCE_ARTICLE_BODY_FIELD : string;
  SALESFORCE_ARTICLE_TEXT_INDEX_FIELD : option string;   (* [False] or a field *)
  AWS_S3_DRAFT_DIR : string;
  base_url : string                                      (* get_base_url() *)
}.

(** The methods of the [HTML] class the pipeline calls (html.py). *)
Class HtmlOps : Type := {
  update_links_draft : string -> string -> string;      (* base url, body *)
  update_links_production : string -> string;
  same_as_record : HTML -> Kav -> bool;
  create_article_data : HTML -> Py.dict string
}.

(** ** The world: remote systems, request log, local tables, job queue *)

Record World (Env : Type) : Type := mkWorld {
  remote : Env;
  log : list event;
  articles : list Article;       (* Article.objects *)
  images : list Image;           (* Image.objects *)
  bundles : list Bundle;         (* Bundle.objects *)
  webhooks : list Webhook;       (* Webhook.objects *)
  jobs : list job;               (* the django_rq queue *)
  clock : Z                      (* what now() returns *)
}.
Arguments mkWorld {Env}.
Arguments remote {Env}.
Arguments log {Env}.
Arguments articles {Env}.
Arguments images {Env}.
Arguments bundles {Env}.
Arguments webhooks {Env}.
Arguments jobs {Env}.
Arguments clock {Env}.

(** ** A state and exception monad

    An exception keeps the state reached when it was raised: nothing is
    rolled back. *)

Definition M (Env A : Type) : Type := World Env -> Result A * World Env.

Definition ret {Env A} (a : A) : M Env A := fun w => (Ok a, w).

Definition raise {Env A} (e : exn) : M Env A := fun w => (Raise e, w).

Definition bind {Env A B} (c : M Env A) (k : A -> M Env B) : M Env B :=
  fun w =>
    match c w with
    | (Ok a, w') => k a w'
    | (Raise e, w') => (Raise e, w')
    end.

(** [try: c except Exception as e: h e] *)
Definition try_except {Env A} (c : M Env A) (h : exn -> M Env A) : M Env A :=
  fun w =>
    match c w with
    | (Ok a, w') => (Ok a, w')
    | (Raise e, w') => h e w'
    end.

Declare Scope py_scope.
Delimit Scope py_scope with py.
Notation "x <- c1 ;; c2" := (bind c1 (fun x => c2))
  (at level 61, c1 at next level, right associativity) : py_scope.
Notation "c1 ;; c2" := (bind c1 (fun _ => c2))
  (at level 61, right associativity) : py_scope.
Local Open Scope py_scope.

(** [for x in xs: f x] *)
Fixpoint for_each {Env A} (xs : list A) (f : A -> M Env unit) : M Env unit :=
  match xs with
  | [] => ret tt
  | x :: rest => f x ;; for_each rest f
  end.

(** [xs[0]] *)
Definition index0 {Env A} (xs : list A) : M Env A :=
  match xs with
  | x :: _ => ret x
  | [] => raise IndexError
  end.

(** [d[k]] *)
Definition getitem {Env V} (d : Py.dict V) (k : string) : M Env V :=
  match Py.dict_get d k with
  | Some v => ret v
  | None => raise (KeyError k)
  end.

(** [v[k]] on a JSON document: only an object can be indexed by a string. *)
Definition json_getitem {Env} (v : Py.json) (k : string) : M Env Py.json :=
  match v with
  | Py.JObj items => getitem items k
  | _ => raise TypeError
  end.

Definition NO_CONTENT : Z := 204.
Definition CREATED : Z := 201.

Section Pipeline.

Context {Env : Type} `{Remote Env} `{HtmlOps} {py_str : Py.Str}.
Variable settings : Settings.

(** Send a request: the environment answers, the log grows. *)
Definition perform {X} (c : call X) : M Env X := fun w =>
  let (r, env') := respond c (remote w) in
  (r, mkWorld env' (log w ++ [Ev c r]) (articles w) (images w) (bundles w)
        (webhooks w) (jobs w) (clock w)).

(** [Article.objects.create(...)] *)
Definition Article_create (a : Article) : M Env unit := fun w =>
  (Ok tt, mkWorld (remote w) (log w) (articles w ++ [a]) (images w) (bundles w)
            (webhooks w) (jobs w) (clock w)).

(** [Image.objects.create(...)] *)
Definition Image_create (i : Image) : M Env unit := fun w =>
  (Ok tt, mkWorld (remote w) (log w) (articles w) (images w ++ [i]) (bundles w)
            (webhooks w) (jobs w) (clock w)).

(** [job.delay()] *)
Definition delay (j : job) : M Env unit := fun w =>
  (Ok tt, mkWorld (remote w) (log w) (articles w) (images w) (bundles w)
            (webhooks w) (jobs w ++ [j]) (clock w)).

Definition now : M Env Z := fun w => (Ok (clock w), w).

(** *** salesforce.py *)

Definition set_publish_status (kav_id status : string) : M Env unit :=
  code <- perform (PatchPublishStatus kav_id status) ;;
  if code =? NO_CONTENT then ret tt
  else raise (SalesforceError
         ("Error setting status=" ++ status
          ++ " for KnowledgeArticleVersion (ID=" ++ kav_id ++ ")")%string).

Definition delete (kav_id : string) : M Env unit :=
  code <- perform (DeleteMasterVersion kav_id) ;;
  if code =? NO_CONTENT then ret tt
  else raise (SalesforceError
         ("Error deleting KnowledgeArticleVersion (ID=" ++ kav_id ++ ")")%string).

Definition archive (ka_id kav_id : string) : M Env unit :=
  result <- perform (Query (DraftOfArticle ka_id)) ;;
  (if 0 <? totalSize result then
     r <- index0 (records result) ;;
     delete (Id r)
   else ret tt) ;;
  set_publish_status kav_id "archived".

Definition create_article (html : HTML) : M Env string :=
  perform (KavCreate (create_article_data html)).

Definition create_draft (ka_id : string) : M Env string :=
  result <- perform (PostMasterVersion ka_id) ;;
  if fst result =? CREATED then ret (snd result)
  else raise (SalesforceError
         ("Error creating new draft for KnowlegeArticle (ID=" ++ ka_id ++ ")")%string).

(** Returns [None] (falls off the end) when the query has several rows. *)
Definition get_ka_id (kav_id publish_status : string) : M Env (option string) :=
  result <- perform (Query (ById kav_id publish_status)) ;;
  if totalSize result =? 0 then
    raise (SalesforceError
      ("KnowledgeArticleVersion " ++ kav_id ++ " not found")%string)
  else if totalSize result =? 1 then
    r <- index0 (records result) ;;
    ret (Some (KnowledgeArticleId r))
  else ret None.

Definition get_articles (publish_status : string) : M Env (list Kav) :=
  result <- perform (Query (ByStatus publish_status)) ;;
  ret (records result).

Definition get_base_url : string := base_url settings.

(** [ka_id[:15]] raises [TypeError] on [None]. *)
Definition get_preview_url (ka_id : option string) (online : bool) : M Env string :=
  match ka_id with
  | None => raise TypeError
  | Some id =>
      let preview_url :=
        (get_base_url ++ "/knowledge/publishing/articlePreview.apexp?id="
         ++ Py.take 15 id)%string in
      ret (if online then (preview_url ++ "&pubstatus=o")%string else preview_url)
  end.

Definition query_articles (url_name publish_status : string) : M Env QueryResult :=
  perform (Query (ByUrlName url_name publish_status)).

Definition update_draft (kav_id : string) (html : HTML) : M Env Z :=
  result <- perform (KavUpdate kav_id (create_article_data html)) ;;
  if result =? NO_CONTENT then ret result
  else raise (SalesforceError
         ("Error updating draft KnowledgeArticleVersion (ID=" ++ kav_id ++ ")")%string).

Definition save_article (kav_id : string) (html : HTML) (bundle : Z)
    (status : Decision) : M Env unit :=
  ka_id <- get_ka_id kav_id "draft" ;;
  preview_url <- get_preview_url ka_id false ;;
  match ka_id with
  | Some ka =>
      Article_create
        {| a_bundle := bundle; a_ka_id := ka; a_kav_id := kav_id;
           a_preview_url := preview_url; a_status := status;
           a_title := title html; a_url_name := url_name html |}
  | None => raise TypeError   (* not reached: get_preview_url has raised *)
  end.

(** [html.update_links_draft(base)]: rewrites the body in place. *)
Definition html_update_links_draft (html : HTML) : HTML :=
  {| url_name := url_name html; title := title html;
     body := update_links_draft get_base_url (body html);
     image_paths := image_paths html |}.

Definition process_article (html0 : HTML) (bundle : Z) : M Env unit :=
  (* update links to draft versions *)
  let html := html_update_links_draft html0 in
  (* query for existing article *)
  result_draft <- query_articles (url_name html) "draft" ;;
  result_online <- query_articles (url_name html) "online" ;;
  if totalSize result_draft =? 1 then
    (* draft exists, update fields *)
    r <- index0 (records result_draft) ;;
    let kav_id := Id r in
    update_draft kav_id html ;;
    let status :=
      if totalSize result_online =? 1 then STATUS_CHANGED else STATUS_NEW in
    save_article kav_id html bundle status
  else if totalSize result_online =? 0 then
    (* new draft, new article *)
    kav_id <- create_article html ;;
    save_article kav_id html bundle STATUS_NEW
  else if totalSize result_online =? 1 then
    (* new draft of existing article *)
    record <- index0 (records result_online) ;;
    if same_as_record html record then ret tt   (* no update *)
    else
      (* create draft copy of published article *)
      kav_id <- create_draft (KnowledgeArticleId record) ;;
      update_draft kav_id html ;;
      save_article kav_id html bundle STATUS_CHANGED
  else
    (* no branch bound kav_id: evaluating the arguments of save_article fails *)
    raise (UnboundLocalError "kav_id").

(** [data = {BODY: body}; if TEXT_INDEX is not False: data[TEXT_INDEX] = body] *)
Definition publish_data (body : string) : Py.dict string :=
  let data := [(SALESFORCE_ARTICLE_BODY_FIELD settings, body)] in
  match SALESFORCE_ARTICLE_TEXT_INDEX_FIELD settings with
  | Some field => Py.dict_set data field body
  | None => data
  end.

Definition publish_draft (kav_id : string) : M Env unit :=
  kav <- perform (KavGet kav_id) ;;
  body <- getitem kav (SALESFORCE_ARTICLE_BODY_FIELD settings) ;;
  let body := update_links_production body in
  perform (KavUpdate kav_id (publish_data body)) ;;
  set_publish_status kav_id "online".

(** *** tasks.py: local tables *)

Definition Bundle_get (pk : Z) : M Env Bundle := fun w =>
  match find (fun b => b_pk b =? pk) (bundles w) with
  | Some b => (Ok b, w)
  | None => (Raise DoesNotExist, w)
  end.

(** [bundle.save()]: the row with the object's key takes the object's fields. *)
Definition Bundle_save (b : Bundle) : M Env unit := fun w =>
  (Ok tt,
   mkWorld (remote w) (log w) (articles w) (images w)
     (map (fun r => if b_pk r =? b_pk b then b else r) (bundles w))
     (webhooks w) (jobs w) (clock w)).

Definition Webhook_get (pk : Z) : M Env Webhook := fun w =>
  match find (fun x => w_pk x =? pk) (webhooks w) with
  | Some x => (Ok x, w)
  | None => (Raise DoesNotExist, w)
  end.

Definition Webhook_save (x : Webhook) : M Env unit := fun w =>
  (Ok tt,
   mkWorld (remote w) (log w) (articles w) (images w) (bundles w)
     (map (fun r => if w_pk r =? w_pk x then x else r) (webhooks w))
     (jobs w) (clock w)).

Definition with_status (b : Bundle) (s : BundleStatus) : Bundle :=
  {| b_pk := b_pk b; b_easydita_id := b_easydita_id b;
     b_easydita_resource_id := b_easydita_resource_id b;
     b_status := s; b_time_queued := b_time_queued b;
     b_time_processed := b_time_processed b;
     b_time_published := b_time_published b;
     b_error_message := b_error_message b |}.

Definition with_time_processed (b : Bundle) (t : Z) : Bundle :=
  {| b_pk := b_pk b; b_easydita_id := b_easydita_id b;
     b_easydita_resource_id := b_easydita_resource_id b;
     b_status := b_status b; b_time_queued := b_time_queued b;
     b_time_processed := Some t;
     b_time_published := b_time_published b;
     b_error_message := b_error_message b |}.

Definition with_time_published (b : Bundle) (t : Z) : Bundle :=
  {| b_pk := b_pk b; b_easydita_id := b_easydita_id b;
     b_easydita_resource_id := b_easydita_resource_id b;
     b_status := b_status b; b_time_queued := b_time_queued b;
     b_time_processed := b_time_processed b;
     b_time_published := Some t;
     b_error_message := b_error_message b |}.

(** [bundle.articles] and [bundle.images] *)
Definition articles_of (pk : Z) (l : list Article) : list Article :=
  filter (fun a => a_bundle a =? pk) l.

Definition images_of (pk : Z) (l : list Image) : list Image :=
  filter (fun i => i_bundle i =? pk) l.

Definition bundle_articles (pk : Z) : M Env (list Article) := fun w =>
  (Ok (articles_of pk (articles w)), w).

Definition bundle_images (pk : Z) : M Env (list Image) := fun w =>
  (Ok (images_of pk (images w)), w).

Definition staged (d : Decision) : bool :=
  match d with
  | STATUS_NEW | STATUS_CHANGED => true
  | STATUS_DELETED => false
  end.

(** Modelled from the spec: [Bundle.set_error], which the models.py at
    hand does not declare.  "transitions it to ERROR, recording the error
    text". *)
Definition set_error (b : Bundle) (e : exn) : M Env unit :=
  Bundle_save
    {| b_pk := b_pk b; b_easydita_id := b_easydita_id b;
       b_easydita_resource_id := b_easydita_resource_id b;
       b_status := STATUS_ERROR; b_time_queued := b_time_queued b;
       b_time_processed := b_time_processed b;
       b_time_published := b_time_published b;
       b_error_message := exn_text e |}.

(** The row of a bundle put on the queue at time [t]. *)
Definition with_queued (b : Bundle) (t : Z) : Bundle :=
  {| b_pk := b_pk b; b_easydita_id := b_easydita_id b;
     b_easydita_resource_id := b_easydita_resource_id b;
     b_status := STATUS_QUEUED; b_time_queued := t;
     b_time_processed := b_time_processed b;
     b_time_published := b_time_published b;
     b_error_message := b_error_message b |}.

(** Modelled from the spec: [Bundle.queue], which the models.py at hand
    does not declare.  "transitions it to QUEUED", with the queued
    timestamp that admission orders by. *)
Definition queue (b : Bundle) : M Env unit :=
  t <- now ;;
  Bundle_save (with_queued b t).

(** Modelled from the spec: [Bundle.is_complete], which the models.py at
    hand does not declare.  "in a terminal state (PUBLISHED or ERROR)". *)
Definition is_complete (b : Bundle) : bool :=
  match b_status b with
  | STATUS_PUBLISHED | STATUS_ERROR => true
  | _ => false
  end.

(** *** tasks.py: [_process_bundle]

    [files] stands for what the first lines of [_process_bundle] produce:
    the bundle is downloaded and unzipped, [os.walk] collects the HTML
    files that [skip_html_file] does not exclude, and each is read, parsed
    and scrubbed.  Every entry is a path with its parsed document. *)

(** The scrub loop, one accumulator at a time. *)
Definition build_url_map (files : list (string * HTML)) : Py.dict (list string) :=
  fold_left
    (fun url_map f => Py.dict_append url_map (Py.lower (url_name (snd f))) (fst f))
    files [].

Definition collect_images (files : list (string * HTML)) : list string :=
  fold_left
    (fun images f => fold_left (fun s p => Py.set_add p s) (image_paths (snd f)) images)
    files [].

Definition build_article_image_map (files : list (string * HTML))
  : Py.dict (list string) :=
  fold_left
    (fun m f =>
       Py.dict_set m (url_name (snd f))
         (fold_left (fun s p => Py.set_add p s) (image_paths (snd f)) []))
    files [].

(** [any(map(lambda x: len(x) > 1, url_map.values()))] *)
Definition has_duplicates (m : Py.dict (list string)) : bool :=
  existsb (fun x => (1 <? List.length x)%nat) (Py.values m).

(** An error message laid out from a report: one entry per key, a line
    for the key and a line for each of its paths. *)
Fixpoint joined (ls : list string) : string :=
  match ls with
  | [] => EmptyString
  | x :: rest => (x ++ joined rest)%string
  end.

Definition render_entry (e : string * list string) : string :=
  (Py.nl ++ fst e ++ joined (map (fun f => Py.nl ++ Py.tab ++ f) (snd e)))%string.

Definition render (header : string) (report : list (string * list string)) : string :=
  (header ++ joined (map render_entry report))%string.

Definition paths_of (m : Py.dict (list string)) (k : string) : list string :=
  match Py.dict_get m k with Some l => l | None => [] end.

(** The entries the first message lists: keys with one path are skipped. *)
Definition url_report (url_map : Py.dict (list string)) : list (string * list string) :=
  map (fun url_name => (url_name, Py.sorted (paths_of url_map url_name)))
    (filter (fun url_name => negb (List.length (paths_of url_map url_name) =? 1)%nat)
       (Py.sorted (Py.keys url_map))).

(** [msg = 'Found URL name duplicates:'], then for each key in order,
    skipping the keys with one file, [msg += '\n{}'] and for each of its
    files in order [msg += '\n\t{}']. *)
Definition url_duplicates_msg (url_map : Py.dict (list string)) : string :=
  fold_left
    (fun msg url_name =>
       if (List.length (paths_of url_map url_name) =? 1)%nat then msg
       else
         fold_left (fun msg html_file => (msg ++ (Py.nl ++ Py.tab ++ html_file))%string)
           (Py.sorted (paths_of url_map url_name))
           (msg ++ (Py.nl ++ url_name))%string)
    (Py.sorted (Py.keys url_map)) "Found URL name duplicates:".

(** The image loop: the map and the flag. *)
Definition image_step (acc : Py.dict (list string) * bool) (image : string)
  : Py.dict (list string) * bool :=
  let basename := Py.lower (Py.basename image) in
  let image_map := Py.dict_append (fst acc) basename image in
  (image_map,
   if (1 <? List.length (paths_of image_map basename))%nat then true else snd acc).

Definition build_image_map (images : list string) : Py.dict (list string) * bool :=
  fold_left image_step images ([], false).

(** The entries the second message lists: every basename, no skip. *)
Definition image_report (image_map : Py.dict (list string)) : list (string * list string) :=
  map (fun basename => (basename, Py.sorted (paths_of image_map basename)))
    (Py.sorted (Py.keys image_map)).

(** The same loops for the images, without the skip. *)
Definition image_duplicates_msg (image_map : Py.dict (list string)) : string :=
  fold_left
    (fun msg basename =>
       fold_left (fun msg image => (msg ++ (Py.nl ++ Py.tab ++ image))%string)
         (Py.sorted (paths_of image_map basename))
         (msg ++ (Py.nl ++ basename))%string)
    (Py.sorted (Py.keys image_map)) "Found image duplicates:".

(** build list of published articles to archive: the loop body *)
Definition record_deleted_article (bundle : Z) (url_map : Py.dict (list string))
    (article : Kav) : M Env unit :=
  if negb (Py.dict_has url_map (Py.lower (UrlName article))) then
    preview_url <- get_preview_url (Some (KnowledgeArticleId article)) true ;;
    Article_create
      {| a_bundle := bundle;
         a_ka_id := KnowledgeArticleId article;
         a_kav_id := Id article;
         a_preview_url := preview_url;
         a_status := STATUS_DELETED;
         a_title := Title article;
         a_url_name := UrlName article |}
  else ret tt.

Definition record_deleted_articles (bundle : Z) (url_map : Py.dict (list string))
  : M Env unit :=
  online <- get_articles "online" ;;
  for_each online (record_deleted_article bundle url_map).

(** build list of images to delete.  [s3.iter_objects()] is iterated by
    the loop: the rows of the keys it yields are written as they come, and
    an exception that ends the iteration early is raised after them. *)
Definition record_deleted_images (bundle : Z) (image_map : Py.dict (list string))
  : M Env unit :=
  objects <- perform S3IterObjects ;;
  for_each (fst objects) (fun key =>
    if negb (Py.startswith key (AWS_S3_DRAFT_DIR settings))
       && negb (Py.dict_has image_map (Py.lower key))
    then Image_create {| i_bundle := bundle; i_filename := key;
                         i_status := STATUS_DELETED |}
    else ret tt) ;;
  match snd objects with
  | Some e => raise e
  | None => ret tt
  end.

(** Modelled from the spec: [S3.process_image] (amazon.py is not among
    the sources) stages the image and records its decision, NEW or
    CHANGED; the answer of the remote side tells which, if any. *)
Definition s3_process_image (image : string) (bundle : Z) : M Env unit :=
  r <- perform (S3ProcessImage image bundle) ;;
  match r with
  | Some d => Image_create {| i_bundle := bundle; i_filename := Py.basename image;
                              i_status := d |}
  | None => ret tt
  end.

(** upload unchanged images for article previews *)
Definition unchanged_images (aim : Py.dict (list string)) (arts : list Article)
    (imgs : list Image) : Result (list string) :=
  fold_left
    (fun acc article =>
       match acc with
       | Raise e => Raise e
       | Ok unchanged =>
           match Py.dict_get aim (a_url_name article) with
           | None => Raise (KeyError (a_url_name article))
           | Some paths =>
               Ok (fold_left
                     (fun s image =>
                        if existsb (fun i => String.eqb (i_filename i) (Py.basename image)) imgs
                        then s else Py.set_add image s)
                     paths unchanged)
           end
       end)
    (filter (fun a => staged (a_status a)) arts) (Ok []).

Definition upload_unchanged_images (bundle : Z) (aim : Py.dict (list string))
  : M Env unit :=
  arts <- bundle_articles bundle ;;
  imgs <- bundle_images bundle ;;
  match unchanged_images aim arts imgs with
  | Raise e => raise e
  | Ok unchanged =>
      for_each unchanged (fun image =>
        perform (S3UploadImage image
                   (AWS_S3_DRAFT_DIR settings ++ Py.basename image)%string))
  end.

(** [_process_bundle], up to the "nothing changed" test. *)
Definition stage_bundle (bundle : Bundle) (files : list (string * HTML)) : M Env unit :=
  (* get APIs *)
  perform SalesforceLogin ;;
  perform S3Connect ;;
  (* check all HTML files and create list of image files *)
  let url_map := build_url_map files in
  let images := collect_images files in
  let article_image_map := build_article_image_map files in
  (* check for duplicate URL names *)
  if has_duplicates url_map then raise (SfdocError (url_duplicates_msg url_map))
  else
    (* check for duplicate image filenames *)
    let (image_map, duplicate_images) := build_image_map images in
    if duplicate_images then raise (SfdocError (image_duplicates_msg image_map))
    else
      record_deleted_articles (b_pk bundle) url_map ;;
      record_deleted_images (b_pk bundle) image_map ;;
      (* upload draft articles and images *)
      for_each files (fun f => process_article (snd f) (b_pk bundle)) ;;
      for_each images (fun image => s3_process_image image (b_pk bundle)) ;;
      upload_unchanged_images (b_pk bundle) article_image_map.

Definition _process_bundle (bundle : Bundle) (files : list (string * HTML)) : M Env unit :=
  stage_bundle bundle files ;;
  (* error if nothing changed *)
  arts <- bundle_articles (b_pk bundle) ;;
  imgs <- bundle_images (b_pk bundle) ;;
  if ((List.length arts =? 0) && (List.length imgs =? 0))%nat then
    raise (SfdocError "No articles or images changed")
  else
    (* finish *)
    Bundle_save (with_status bundle STATUS_DRAFT).

(** *** tasks.py: [_publish_drafts] *)

Definition _publish_drafts (bundle : Bundle) : M Env unit :=
  perform SalesforceLogin ;;
  perform S3Connect ;;
  (* publish articles *)
  arts <- bundle_articles (b_pk bundle) ;;
  for_each (filter (fun a => staged (a_status a)) arts)
    (fun article => publish_draft (a_kav_id article)) ;;
  (* publish images *)
  imgs <- bundle_images (b_pk bundle) ;;
  for_each (filter (fun i => staged (i_status i)) imgs)
    (fun image => perform (S3CopyToProduction (i_filename image))) ;;
  (* archive articles *)
  arts <- bundle_articles (b_pk bundle) ;;
  for_each (filter (fun a => Decision_eqb (a_status a) STATUS_DELETED) arts)
    (fun article => archive (a_ka_id article) (a_kav_id article)) ;;
  (* delete images *)
  imgs <- bundle_images (b_pk bundle) ;;
  for_each (filter (fun i => Decision_eqb (i_status i) STATUS_DELETED) imgs)
    (fun image => perform (S3Delete (i_filename image))).

(** *** tasks.py: the jobs *)

Definition process_bundle (bundle_pk : Z) (files : list (string * HTML)) : M Env unit :=
  bundle <- Bundle_get bundle_pk ;;
  t <- now ;;
  let bundle := with_time_processed (with_status bundle STATUS_PROCESSING) t in
  Bundle_save bundle ;;
  try_except (_process_bundle bundle files)
    (fun e => set_error bundle e ;; delay ProcessQueue ;; raise e).

Definition active (s : BundleStatus) : bool :=
  match s with
  | STATUS_PROCESSING | STATUS_DRAFT | STATUS_PUBLISHING => true
  | _ => false
  end.

Definition queued (s : BundleStatus) : bool :=
  match s with
  | STATUS_QUEUED => true
  | _ => false
  end.

(** [bundles.earliest('time_queued')]: the first row with the least
    timestamp. *)
Fixpoint earliest (bs : list Bundle) : option Bundle :=
  match bs with
  | [] => None
  | b :: rest =>
      match earliest rest with
      | None => Some b
      | Some m => if b_time_queued b <=? b_time_queued m then Some b else Some m
      end
  end.

Definition all_bundles : M Env (list Bundle) := fun w => (Ok (bundles w), w).

Definition process_queue : M Env unit :=
  perform S3Connect ;;
  perform S3DeleteDraftImages ;;
  bs <- all_bundles ;;
  if existsb (fun b => active (b_status b)) bs then ret tt
  else
    match earliest (filter (fun b => queued (b_status b)) bs) with
    | Some b => delay (ProcessBundle (b_pk b))
    | None => ret tt
    end.

Definition publish_drafts (bundle_pk : Z) : M Env unit :=
  bundle <- Bundle_get bundle_pk ;;
  let bundle := with_status bundle STATUS_PUBLISHING in
  Bundle_save bundle ;;
  try_except (_publish_drafts bundle)
    (fun e => set_error bundle e ;; delay ProcessQueue ;; raise e) ;;
  t <- now ;;
  Bundle_save (with_time_published (with_status bundle STATUS_PUBLISHED) t) ;;
  delay ProcessQueue.

End Pipeline.

(** *** tasks.py: [process_webhook] *)

(** Equality of JSON values, used to look a bundle up by its source id. *)
Fixpoint json_eqb (a b : Py.json) : bool :=
  match a, b with
  | Py.JNull, Py.JNull => true
  | Py.JBool x, Py.JBool y => Bool.eqb x y
  | Py.JNum x, Py.JNum y => x =? y
  | Py.JStr x, Py.JStr y => String.eqb x y
  | Py.JArr xs, Py.JArr ys =>
      (fix all2 (xs ys : list Py.json) : bool :=
         match xs, ys with
         | [], [] => true
         | x :: xs', y :: ys' => json_eqb x y && all2 xs' ys'
         | _, _ => false
         end) xs ys
  | Py.JObj xs, Py.JObj ys =>
      (fix all2 (xs ys : list (string * Py.json)) : bool :=
         match xs, ys with
         | [], [] => true
         | (k, x) :: xs', (l, y) :: ys' =>
             String.eqb k l && json_eqb x y && all2 xs' ys'
         | _, _ => false
         end) xs ys
  | _, _ => false
  end.

Section Webhooks.

Context {Env : Type}.

(** [json.loads]: the decoder is a library function; [Raise] stands for a
    body that is not JSON. *)
Variable loads : string -> Result Py.json.

Definition json_loads (s : string) : M Env Py.json := fun w => (loads s, w).

Definition bundle_for (easydita_id : Py.json) (bs : list Bundle) : option Bundle :=
  find (fun b => json_eqb (b_easydita_id b) easydita_id) bs.

Definition next_pk (bs : list Bundle) : Z :=
  fold_right (fun b m => Z.max (b_pk b + 1) m) 1 bs.

(** The row [get_or_create] inserts: the given fields, the model's
    defaults for the others. *)
Definition new_bundle (easydita_id resource_id : Py.json) (bs : list Bundle)
    (t : Z) : Bundle :=
  {| b_pk := next_pk bs;
     b_easydita_id := easydita_id;
     b_easydita_resource_id := resource_id;
     b_status := STATUS_QUEUED;
     b_time_queued := t;
     b_time_processed := None;
     b_time_published := None;
     b_error_message := "" |}.

(** [Bundle.objects.get_or_create(easydita_id=..., defaults={...})] *)
Definition Bundle_get_or_create (easydita_id resource_id : Py.json)
  : M Env (Bundle * bool) := fun w =>
  match bundle_for easydita_id (bundles w) with
  | Some b => (Ok (b, false), w)
  | None =>
      let b := new_bundle easydita_id resource_id (bundles w) (clock w) in
      (Ok (b, true),
       mkWorld (remote w) (log w) (articles w) (images w) (bundles w ++ [b])
         (webhooks w) (jobs w) (clock w))
  end.

Definition resolve (x : Webhook) (b : option Z) (s : WebhookStatus) : Webhook :=
  {| w_pk := w_pk x; w_body := w_body x; w_status := Some s; w_bundle := b |}.

(** The test of the [if]: [and] does not look at [event_data] when the
    event id differs. *)
Definition dita_ot_success (data : Py.json) : M Env bool :=
  event_id <- json_getitem data "event_id" ;;
  if Py.eq_str event_id "dita-ot-publish-complete" then
    event_data <- json_getitem data "event_data" ;;
    publish_result <- json_getitem event_data "publish-result" ;;
    ret (Py.eq_str publish_result "success")
  else ret false.

Definition process_webhook (pk : Z) : M Env unit :=
  webhook <- Webhook_get pk ;;
  data <- json_loads (w_body webhook) ;;
  success <- dita_ot_success data ;;
  webhook <-
    (if success then
       event_data <- json_getitem data "event_data" ;;
       output_uuid <- json_getitem event_data "output-uuid" ;;
       resource_id <- json_getitem data "resource_id" ;;
       got <- Bundle_get_or_create output_uuid resource_id ;;
       let (bundle, created) := got in
       if created || is_complete bundle then
         (* Webhook accepted *)
         let webhook := resolve webhook (Some (b_pk bundle)) STATUS_ACCEPTED in
         Webhook_save webhook ;;
         queue bundle ;;
         delay ProcessQueue ;;
         ret webhook
       else
         (* Webhook rejected (already processing) *)
         ret (resolve webhook (Some (b_pk bundle)) STATUS_REJECTED)
     else
       (* Webhook rejected (not dita-ot success) *)
       ret (resolve webhook (w_bundle webhook) STATUS_REJECTED)) ;;
  Webhook_save webhook.

End Webhooks.

(** *** models.py: [EasyditaBundle.url] *)
Definition EasyditaBundle_url (EASYDITA_INSTANCE_URL easydita_id : string) : string :=
  (EASYDITA_INSTANCE_URL ++ "/rest/all-files/" ++ easydita_id ++ "/bundle")%string.

(** ** An in-memory store

    A small implementation of the two remote systems, of the [HTML]
    methods and of the settings, on which the pipeline can be run. *)

Module Fake.

(** Case folding on the ASCII range, where it agrees with [str.lower]:
    the texts of the scenarios below are ASCII. *)
Definition lower_ascii (c : ascii) : ascii :=
  let n := nat_of_ascii c in
  if ((65 <=? n) && (n <=? 90))%nat then ascii_of_nat (n + 32) else c.

Fixpoint lower (s : string) : string :=
  match s with
  | EmptyString => EmptyString
  | String c rest => String (lower_ascii c) (lower rest)
  end.

#[local] Instance str : Py.Str := {| Py.lower := lower |}.

Record Version : Type := {
  v_kav : Kav;
  v_status : string;
  v_fields : Py.dict string
}.

Record Store : Type := {
  versions : list Version;
  s3_keys : list string;
  next_id : nat
}.

Definition fresh (prefix : string) (n : nat) : string :=
  (prefix ++ NilEmpty.string_of_uint (Nat.to_uint n))%string.

Definition matches (q : soql) (v : Version) : bool :=
  match q with
  | ByUrlName u st => String.eqb (UrlName (v_kav v)) u && String.eqb (v_status v) st
  | DraftOfArticle ka =>
      String.eqb (KnowledgeArticleId (v_kav v)) ka && String.eqb (v_status v) "draft"
  | ById id st => String.eqb (Id (v_kav v)) id && String.eqb (v_status v) st
  | ByStatus st => String.eqb (v_status v) st
  end.

Definition select (q : soql) (s : Store) : QueryResult :=
  let rs := map v_kav (filter (matches q) (versions s)) in
  {| totalSize := Z.of_nat (List.length rs); records := rs |}.

Definition has_version (id : string) (s : Store) : bool :=
  existsb (fun v => String.eqb (Id (v_kav v)) id) (versions s).

Definition field (d : Py.dict string) (k : string) : string :=
  match Py.dict_get d k with Some v => v | None => "" end.

Definition set_versions (s : Store) (vs : list Version) : Store :=
  {| versions := vs; s3_keys := s3_keys s; next_id := next_id s |}.

Definition set_keys (s : Store) (ks : list string) : Store :=
  {| versions := versions s; s3_keys := ks; next_id := next_id s |}.

Definition add_version (s : Store) (v : Version) : Store :=
  {| versions := versions s ++ [v]; s3_keys := s3_keys s; next_id := S (next_id s) |}.

Definition patch_status (id st : string) (s : Store) : Store :=
  let ka :=
    match find (fun v => String.eqb (Id (v_kav v)) id) (versions s) with
    | Some v => KnowledgeArticleId (v_kav v)
    | None => ""
    end in
  set_versions s
    (map (fun v =>
            if String.eqb (Id (v_kav v)) id
            then {| v_kav := v_kav v; v_status := st; v_fields := v_fields v |}
            else if String.eqb st "online"
                    && String.eqb (KnowledgeArticleId (v_kav v)) ka
                    && String.eqb (v_status v) "online"
            then {| v_kav := v_kav v; v_status := "archived"; v_fields := v_fields v |}
            else v)
       (versions s)).

Definition answer (X : Type) (c : call X) (s : Store) : Result X * Store :=
  match c in call X return Result X * Store with
  | SalesforceLogin => (Ok tt, s)
  | Query q => (Ok (select q s), s)
  | KavCreate data =>
      let id := fresh "kav" (next_id s) in
      (Ok id,
       add_version s
         {| v_kav := {| Id := id; KnowledgeArticleId := fresh "ka" (next_id s);
                        Title := field data "Title"; UrlName := field data "UrlName" |};
            v_status := "draft"; v_fields := data |})
  | KavUpdate id data =>
      if has_version id s then
        (Ok 204,
         set_versions s
           (map (fun v =>
                   if String.eqb (Id (v_kav v)) id
                   then {| v_kav := v_kav v; v_status := v_status v;
                           v_fields :=
                             fold_left (fun d kv => Py.dict_set d (fst kv) (snd kv))
                               data (v_fields v) |}
                   else v)
              (versions s)))
      else (Ok 404, s)
  | KavGet id =>
      match find (fun v => String.eqb (Id (v_kav v)) id) (versions s) with
      | Some v => (Ok (v_fields v), s)
      | None => (Raise (ClientError "Resource not found"), s)
      end
  | PostMasterVersion ka =>
      match find (fun v => String.eqb (KnowledgeArticleId (v_kav v)) ka
                           && String.eqb (v_status v) "online") (versions s) with
      | Some v =>
          let id := fresh "kav" (next_id s) in
          (Ok (201, id),
           add_version s
             {| v_kav := {| Id := id; KnowledgeArticleId := ka;
                            Title := Title (v_kav v); UrlName := UrlName (v_kav v) |};
                v_status := "draft"; v_fields := v_fields v |})
      | None => (Ok (400, ""), s)
      end
  | DeleteMasterVersion id =>
      if has_version id s then
        (Ok 204,
         set_versions s
           (filter (fun v => negb (String.eqb (Id (v_kav v)) id)) (versions s)))
      else (Ok 404, s)
  | PatchPublishStatus id st =>
      if has_version id s then (Ok 204, patch_status id st s) else (Ok 404, s)
  | S3Connect => (Ok tt, s)
  | S3DeleteDraftImages =>
      (Ok tt, set_keys s (filter (fun k => negb (Py.startswith k "draft/")) (s3_keys s)))
  | S3IterObjects => (Ok (s3_keys s, None), s)
  | S3ProcessImage image _ =>
      (Ok (Some (if Py.mem (Py.basename image) (s3_keys s)
                 then STATUS_CHANGED else STATUS_NEW)),
       set_keys s (Py.set_add ("draft/" ++ Py.basename image)%string (s3_keys s)))
  | S3UploadImage _ key => (Ok tt, set_keys s (Py.set_add key (s3_keys s)))
  | S3CopyToProduction filename =>
      (Ok tt, set_keys s (Py.set_add filename (s3_keys s)))
  | S3Delete filename =>
      (Ok tt, set_keys s (filter (fun k => negb (String.eqb k filename)) (s3_keys s)))
  end.

#[global] Instance store_remote : Remote Store := {| respond := answer |}.

#[global] Instance html_ops : HtmlOps := {|
  update_links_draft := fun _ body => body;
  update_links_production := fun body => ("production:" ++ body)%string;
  same_as_record := fun html record => String.eqb (title html) (Title record);
  create_article_data := fun html =>
    [("UrlName", url_name html); ("Title", title html); ("Body", body html)]
|}.

Definition settings : Settings := {|
  SALESFORCE_ARTICLE_BODY_FIELD := "Body";
  SALESFORCE_ARTICLE_TEXT_INDEX_FIELD := None;
  AWS_S3_DRAFT_DIR := "draft/";
  base_url := "https://docs.force.com"
|}.

Definition empty_store : Store := {| versions := []; s3_keys := []; next_id := 1 |}.

Definition world (s : Store) (bs : list Bundle) : World Store :=
  mkWorld s [] [] [] bs [] [] 100.

Definition bundle (pk : Z) (st : BundleStatus) (t : Z) : Bundle :=
  {| b_pk := pk; b_easydita_id := Py.JStr (fresh "uuid" (Z.to_nat pk));
     b_easydita_resource_id := Py.JNull; b_status := st; b_time_queued := t;
     b_time_processed := None; b_time_published := None; b_error_message := "" |}.

Definition doc (slug ttl : string) (imgs : list string) : HTML :=
  {| url_name := slug; title := ttl; body := "<p>text</p>"; image_paths := imgs |}.

Definition version (id ka slug ttl st : string) : Version :=
  {| v_kav := {| Id := id; KnowledgeArticleId := ka; Title := ttl; UrlName := slug |};
     v_status := st;
     v_fields := [("UrlName", slug); ("Title", ttl); ("Body", "<p>text</p>")] |}.

(** A store with two published articles, the second with a draft copy
    that was never published; and one whose slug has two online
    versions. *)
Definition published : Store :=
  {| versions := [version "kavA" "kaA" "faq" "FAQ" "online";
                  version "kavB" "kaB" "old-page" "Old page" "online";
                  version "kavBd" "kaB" "old-page" "Old page, revised" "draft"];
     s3_keys := ["logo.png"; "old.png"];
     next_id := 1 |}.

(** The same two articles with capitals in their slugs, and a bucket
    with a capital key and a draft. *)
Definition capitals : Store :=
  {| versions := [version "kavA" "kaA" "FAQ" "FAQ" "online";
                  version "kavB" "kaB" "Old-Page" "Old page" "online"];
     s3_keys := ["Logo.PNG"; "old.png"; "draft/new.png"];
     next_id := 1 |}.

Definition doubled : Store :=
  {| versions := [version "kavC" "kaC" "dup" "One" "online";
                  version "kavD" "kaD" "dup" "Two" "online"];
     s3_keys := [];
     next_id := 1 |}.

(** Two documents with one slug, two images with one basename. *)
Definition colliding : list (string * HTML) :=
  [("/b/x/faq.html", doc "faq" "FAQ" ["/b/x/logo.png"]);
   ("/b/y/faq.html", doc "FAQ" "FAQ again" ["/b/y/Logo.png"]);
   ("/b/z/intro.html", doc "intro" "Intro" [])].

(** Two images with one basename, no slug twice. *)
Definition colliding_images : list (string * HTML) :=
  [("/b/x/faq.html", doc "faq" "FAQ" ["/b/x/logo.png"; "/b/x/map.png"]);
   ("/b/z/intro.html", doc "intro" "Intro" ["/b/z/Logo.png"])].

(** A bundle staged against [published]: [faq] changed and has an image,
    [old-page] and [old.png] are gone from the bundle. *)
Definition incoming_files : list (string * HTML) :=
  [("/b/faq.html", doc "faq" "FAQ, second edition" ["/b/img/logo.png"])].

Definition drafted : World Store :=
  snd (process_bundle settings 1 incoming_files
         (world published [bundle 1 STATUS_QUEUED 5])).

(** The bundle row as [publish_drafts] holds it. *)
Definition publishing_bundle (w : World Store) : Bundle :=
  match find (fun r => b_pk r =? 1) (bundles w) with
  | Some b => with_status b STATUS_PUBLISHING
  | None => bundle 1 STATUS_PUBLISHING 5
  end.

(** The same bundle once published. *)
Definition republished : World Store := snd (publish_drafts settings 1 drafted).

(** The staged bundle, facing a store that has lost the published version
    of [old-page]. *)
Definition broken : World Store :=
  mkWorld
    (set_versions (remote drafted)
       (filter (fun v => negb (String.eqb (Id (v_kav v)) "kavB"))
          (versions (remote drafted))))
    [] (articles drafted) (images drafted) (bundles drafted) [] [] 200.


(** A webhook waits to be processed; bundle 1 is being published. *)
Definition notified (body : string) : World Store :=
  mkWorld empty_store [] [] [] [bundle 1 STATUS_PUBLISHING 5]
    [{| w_pk := 1; w_body := body; w_status := None; w_bundle := None |}] [] 300.

(** A webhook waits to be processed; bundle 1 has been published. *)
Definition renotified (body : string) : World Store :=
  mkWorld empty_store [] [] [] [bundle 1 STATUS_PUBLISHED 5]
    [{| w_pk := 1; w_body := body; w_status := None; w_bundle := None |}] [] 300.

(** Payloads, as [json.loads] gives them. *)
Definition payload (event_id result uuid : string) : Py.json :=
  Py.JObj [("event_id", Py.JStr event_id);
           ("event_data", Py.JObj [("publish-result", Py.JStr result);
                                   ("output-uuid", Py.JStr uuid)]);
           ("resource_id", Py.JStr "r1")].

Definition loads (body : string) : Result Py.json :=
  if String.eqb body "complete, success, new" then
    Ok (payload "dita-ot-publish-complete" "success" "uuid2")
  else if String.eqb body "complete, success, in flight" then
    Ok (payload "dita-ot-publish-complete" "success" "uuid1")
  else if String.eqb body "complete, failure" then
    Ok (payload "dita-ot-publish-complete" "failure" "uuid2")
  else if String.eqb body "resource only" then
    Ok (Py.JObj [("resource_id", Py.JNum 1)])
  else if String.eqb body "complete, success, published before" then
    Ok (payload "dita-ot-publish-complete" "success" "uuid1")
  else if String.eqb body "complete, success, no resource" then
    Ok (Py.JObj [("event_id", Py.JStr "dita-ot-publish-complete");
                 ("event_data", Py.JObj [("publish-result", Py.JStr "success");
                                         ("output-uuid", Py.JStr "uuid2")])])
  else Raise JSONDecodeError.

End Fake.

(** ** Vocabulary of the statements *)

(** The remote system served the request: no exception, the status code
    the caller expects, a row count that agrees with the rows, the row
    found when one is looked up by its id, the body field present. *)
Definition is_ok {X} (r : Result X) : bool :=
  match r with Ok _ => true | Raise _ => false end.

Definition accepted (settings : Settings) (e : event) : bool :=
  match e with
  | @Ev _ c r =>
      match c in call X return Result X -> bool with
      | Query q => fun r =>
          match r with
          | Ok res =>
              (totalSize res =? Z.of_nat (List.length (records res)))
              && match q with
                 | ById _ _ => totalSize res =? 1
                 | _ => true
                 end
          | Raise _ => false
          end
      | KavUpdate _ _ => fun r =>
          match r with Ok code => code =? NO_CONTENT | Raise _ => false end
      | KavGet _ => fun r =>
          match r with
          | Ok kav => Py.dict_has kav (SALESFORCE_ARTICLE_BODY_FIELD settings)
          | Raise _ => false
          end
      | PostMasterVersion _ => fun r =>
          match r with Ok res => fst res =? CREATED | Raise _ => false end
      | DeleteMasterVersion _ => fun r =>
          match r with Ok code => code =? NO_CONTENT | Raise _ => false end
      | PatchPublishStatus _ _ => fun r =>
          match r with Ok code => code =? NO_CONTENT | Raise _ => false end
      | _ => fun r => is_ok r
      end r
  end.

(** The article store holds at most one version of a slug per publish
    status: [queryBySlug(slug, status) -> record?]. *)
Definition single_version (e : event) : bool :=
  match e with
  | @Ev _ c r =>
      match c in call X return Result X -> bool with
      | Query (ByUrlName _ _) => fun r =>
          match r with Ok res => totalSize res <=? 1 | Raise _ => true end
      | _ => fun _ => true
      end r
  end.

(** The decision table of the Diff Engine, as the specification gives it. *)
Inductive Action : Type := UpdateDraft | CreateDraftCopy | CreateDraft | NoOp.

Definition decision_table (draft_exists online_exists identical : bool)
  : Action * option Decision :=
  match draft_exists, online_exists with
  | true, true => (UpdateDraft, Some STATUS_CHANGED)
  | true, false => (UpdateDraft, Some STATUS_NEW)
  | false, true =>
      if identical then (NoOp, None) else (CreateDraftCopy, Some STATUS_CHANGED)
  | false, false => (CreateDraft, Some STATUS_NEW)
  end.

(** The row [save_article] writes. *)
Definition decision_row (a : Article) (bundle : Z) (kav_id : string) (html : HTML)
    (d : Decision) : Prop :=
  a_bundle a = bundle /\ a_kav_id a = kav_id /\ a_status a = d
  /\ a_title a = title html /\ a_url_name a = url_name html.

(** The row written for a published article that no document matches. *)
Definition deleted_row (settings : Settings) (bundle : Z) (article : Kav) : Article :=
  {| a_bundle := bundle;
     a_ka_id := KnowledgeArticleId article;
     a_kav_id := Id article;
     a_preview_url :=
       ((get_base_url settings
         ++ "/knowledge/publishing/articlePreview.apexp?id="
         ++ Py.take 15 (KnowledgeArticleId article))
        ++ "&pubstatus=o")%string;
     a_status := STATUS_DELETED;
     a_title := Title article;
     a_url_name := UrlName article |}.

(** Some incoming document has this slug, case-insensitively. *)
Definition incoming `{Py.Str} (files : list (string * HTML)) (slug : string) : bool :=
  existsb (fun f => String.eqb (Py.lower (url_name (snd f))) (Py.lower slug)) files.

(** Every answer to a query is well formed: the row count agrees with the
    rows, and a lookup by id finds at most one row. *)
Definition well_formed (e : event) : bool :=
  match e with
  | @Ev _ c r =>
      match c in call X return Result X -> bool with
      | Query q => fun r =>
          match r with
          | Ok res =>
              (totalSize res =? Z.of_nat (List.length (records res)))
              && match q with
                 | ById _ _ => totalSize res <=? 1
                 | _ => true
                 end
          | Raise _ => true
          end
      | _ => fun _ => true
      end r
  end.

(** The exception of a request that failed while being served. *)
Definition failure_of (e : event) : option exn :=
  match e with
  | @Ev _ _ (Raise x) => Some x
  | _ => None
  end.

(** A call ends well, or with a store error: one the code raises on a bad
    status code, or the one a failed request raised. *)
Definition structured (r : Result unit) (evs : list event) : Prop :=
  r = Ok tt
  \/ (exists msg, r = Raise (SalesforceError msg))
  \/ (exists e x, In e evs /\ failure_of e = Some x /\ r = Raise x).

(** Code point order on strings. *)
Definition str_le (a b : string) : Prop := String.leb a b = true.

(** The source paths that contribute to a slug, and to an image basename. *)
Definition slug_sources `{Py.Str} (files : list (string * HTML)) (slug : string)
  : list string :=
  map fst (filter (fun f => String.eqb (Py.lower (url_name (snd f))) slug) files).

Definition image_sources `{Py.Str} (files : list (string * HTML)) (basename : string)
  : list string :=
  filter (fun image => String.eqb (Py.lower (Py.basename image)) basename)
    (collect_images files).

(** A report lists a key with all of its paths, in order. *)
Definition lists (report : list (string * list string)) (key : string)
    (paths : list string) : Prop :=
  exists listed,
    In (key, listed) report /\ Permutation listed paths
    /\ StronglySorted str_le listed.

(** Nothing was asked of the stores and no decision row was written. *)
Definition untouched {Env} (w w' : World Env) : Prop :=
  mutations (log w') = mutations (log w)
  /\ articles w' = articles w /\ images w' = images w.

(** Only the remote systems and the log moved. *)
Definition quiet {Env} (w w' : World Env) : Prop :=
  articles w' = articles w /\ images w' = images w /\ bundles w' = bundles w
  /\ webhooks w' = webhooks w /\ jobs w' = jobs w /\ clock w' = clock w.

(** The bundle table, the webhooks, the queue and the clock did not move. *)
Definition staging {Env} (w w' : World Env) : Prop :=
  bundles w' = bundles w /\ webhooks w' = webhooks w
  /\ jobs w' = jobs w /\ clock w' = clock w.

(** A computation keeps a relation between the worlds before and after. *)
Definition keeps {Env A} (R : World Env -> World Env -> Prop) (c : M Env A) : Prop :=
  forall w r w', c w = (r, w') -> R w w'.

(** The four groups of the Publisher: (1) publish the staged articles,
    (2) copy the staged images, (3) archive the deleted articles,
    (4) delete the deleted images.  0 stands for a request of no group. *)
Definition publish_group (e : event) : nat :=
  match e with
  | @Ev _ c _ =>
      match c with
      | KavUpdate _ _ => 1
      | PatchPublishStatus _ status =>
          if String.eqb status "online" then 1
          else if String.eqb status "archived" then 3 else 0
      | S3CopyToProduction _ => 2
      | DeleteMasterVersion _ => 3
      | S3Delete _ => 4
      | _ => 0
      end
  end%nat.

(** Every mutation among the events belongs to group [g]. *)
Definition in_group (g : nat) (e : event) : Prop :=
  is_mutation e = true -> publish_group e = g.

(** What the log shows of one article published: the stored body is read;
    the data pushed hold the body with its links rewritten under the body
    field, and under the text index field when there is one, and nothing
    but that body; and the version is put online. *)
Definition publish_trace (settings : Settings) `{HtmlOps} (a : Article)
    (t : list event) : Prop :=
  exists kav body code data,
    Py.dict_get kav (SALESFORCE_ARTICLE_BODY_FIELD settings) = Some body
    /\ data = publish_data settings (update_links_production body)
    /\ Py.dict_get data (SALESFORCE_ARTICLE_BODY_FIELD settings)
       = Some (update_links_production body)
    /\ (forall field,
          SALESFORCE_ARTICLE_TEXT_INDEX_FIELD settings = Some field ->
          Py.dict_get data field = Some (update_links_production body))
    /\ (forall k v, Py.dict_get data k = Some v -> v = update_links_production body)
    /\ t = [Ev (KavGet (a_kav_id a)) (Ok kav);
            Ev (KavUpdate (a_kav_id a) data) (Ok code);
            Ev (PatchPublishStatus (a_kav_id a) "online") (Ok NO_CONTENT)].

Definition copy_trace (i : Image) (t : list event) : Prop :=
  t = [Ev (S3CopyToProduction (i_filename i)) (Ok tt)].

(** What the log shows of one article archived: the draft copy, when there
    is one, is deleted first; then the online version is archived. *)
Definition archive_trace (a : Article) (t : list event) : Prop :=
  exists res,
    (0 < totalSize res
     /\ exists draft rest,
          records res = draft :: rest
          /\ t = [Ev (Query (DraftOfArticle (a_ka_id a))) (Ok res);
                  Ev (DeleteMasterVersion (Id draft)) (Ok NO_CONTENT);
                  Ev (PatchPublishStatus (a_kav_id a) "archived") (Ok NO_CONTENT)])
    \/ (totalSize res <= 0
        /\ t = [Ev (Query (DraftOfArticle (a_ka_id a))) (Ok res);
                Ev (PatchPublishStatus (a_kav_id a) "archived") (Ok NO_CONTENT)]).

Definition delete_trace (i : Image) (t : list event) : Prop :=
  t = [Ev (S3Delete (i_filename i)) (Ok tt)].

(** The change records of a bundle, by kind. *)
Definition staged_articles (pk : Z) (l : list Article) : list Article :=
  filter (fun a => staged (a_status a)) (articles_of pk l).

Definition staged_images (pk : Z) (l : list Image) : list Image :=
  filter (fun i => staged (i_status i)) (images_of pk l).

Definition deleted_articles (pk : Z) (l : list Article) : list Article :=
  filter (fun a => Decision_eqb (a_status a) STATUS_DELETED) (articles_of pk l).

Definition deleted_images (pk : Z) (l : list Image) : list Image :=
  filter (fun i => Decision_eqb (i_status i) STATUS_DELETED) (images_of pk l).

(** The remote system served the request of the event. *)
Definition served (settings : Settings) (e : event) : Prop :=
  accepted settings e = true.

(** One step of a loop: what it adds to the log, that it leaves the
    tables alone, the group of its mutations, its trace when it ends
    well, and that it ends well when its requests are served. *)
Definition step_spec {Env A} (settings : Settings) (f : A -> M Env unit) (g : nat)
    (T : A -> list event -> Prop) : Prop :=
  forall x w r w',
    f x w = (r, w') ->
    exists evs,
      log w' = log w ++ evs /\ quiet w w' /\ Forall (in_group g) evs
      /\ (r = Ok tt -> T x evs)
      /\ (Forall (served settings) evs -> r = Ok tt).

(** The mutations among the events come in the order of the groups, from
    group [g] on: none of a later group precedes one of an earlier. *)
Definition ordered_from (g : nat) (evs : list event) : Prop :=
  StronglySorted le (map publish_group (mutations evs))
  /\ Forall (fun n => (g <= n <= 4)%nat) (map publish_group (mutations evs)).

(** What is known of a run: the events it adds to the log, that it leaves
    the tables alone, a property [O] of the events, the trace [T] when it
    ends well, and that it ends well when its requests are served. *)
Definition run_spec {Env} (settings : Settings) (O : list event -> Prop)
    (T : World Env -> list event -> Prop) (c : M Env unit) : Prop :=
  forall w r w',
    c w = (r, w') ->
    exists evs,
      log w' = log w ++ evs /\ quiet w w' /\ O evs
      /\ (r = Ok tt -> T w evs)
      /\ (Forall (served settings) evs -> r = Ok tt).

(** The log of a complete publish run: the two connections, then group by
    group, record by record. *)
Definition publish_plan {Env} (settings : Settings) `{HtmlOps} (pk : Z)
    (w : World Env) (evs : list event) : Prop :=
  exists ts1 ts2 ts3 ts4,
    evs = [Ev SalesforceLogin (Ok tt); Ev S3Connect (Ok tt)]
          ++ List.concat ts1 ++ List.concat ts2
          ++ List.concat ts3 ++ List.concat ts4
    /\ Forall2 (publish_trace settings) (staged_articles pk (articles w)) ts1
    /\ Forall2 copy_trace (staged_images pk (images w)) ts2
    /\ Forall2 archive_trace (deleted_articles pk (articles w)) ts3
    /\ Forall2 delete_trace (deleted_images pk (images w)) ts4.

(** The records a publish run works on, group by group, are those of the
    tables that belong to the bundle and carry the decisions of the
    group. *)
Definition bundle_records {Env} (pk : Z) (w : World Env) : Prop :=
  (forall a, In a (staged_articles pk (articles w))
             <-> In a (articles w) /\ a_bundle a = pk
                 /\ (a_status a = STATUS_NEW \/ a_status a = STATUS_CHANGED))
  /\ (forall i, In i (staged_images pk (images w))
                <-> In i (images w) /\ i_bundle i = pk
                    /\ (i_status i = STATUS_NEW \/ i_status i = STATUS_CHANGED))
  /\ (forall a, In a (deleted_articles pk (articles w))
                <-> In a (articles w) /\ a_bundle a = pk
                    /\ a_status a = STATUS_DELETED)
  /\ (forall i, In i (deleted_images pk (images w))
                <-> In i (images w) /\ i_bundle i = pk
                    /\ i_status i = STATUS_DELETED).



(** A field of a JSON object. *)
Definition json_get (v : Py.json) (k : string) : option Py.json :=
  match v with
  | Py.JObj items => Py.dict_get items k
  | _ => None
  end.

(** The bundle a notification is about: the one that carries the source
    id, or the row that is created for it. *)
Definition target_bundle (output_uuid resource_id : Py.json) (bs : list Bundle)
    (t : Z) : Bundle :=
  match bundle_for output_uuid bs with
  | Some b => b
  | None => new_bundle output_uuid resource_id bs t
  end.

(** A bundle with the source id exists and is not in a terminal state. *)
Definition in_flight (output_uuid : Py.json) (bs : list Bundle) : bool :=
  match bundle_for output_uuid bs with
  | Some b => negb (is_complete b)
  | None => false
  end.

(** ** Vocabulary of the further properties *)

(** The requests staging an article may send: queries, the creation of a
    draft, the update of a draft, the draft copy of a published article. *)
Definition staging_request (e : event) : bool :=
  match e with
  | @Ev _ c _ =>
      match c with
      | Query _ | KavCreate _ | KavUpdate _ _ | PostMasterVersion _ => true
      | _ => false
      end
  end.

(** The status code of an answer, when there is one. *)
Definition answered (code : Z) (r : Result Z) : bool :=
  match r with
  | Ok c => c =? code
  | Raise _ => false
  end.

(** Classes of events. *)
Definition is_delete (e : event) : bool :=
  match e with
  | @Ev _ c _ => match c with DeleteMasterVersion _ => true | _ => false end
  end.

Definition delete_refused (e : event) : bool :=
  match e with
  | @Ev _ c r =>
      match c in call X return Result X -> bool with
      | DeleteMasterVersion _ => fun r => negb (answered NO_CONTENT r)
      | _ => fun _ => false
      end r
  end.

Definition is_status_patch (kav_id status : string) (e : event) : bool :=
  match e with
  | @Ev _ c _ =>
      match c with
      | PatchPublishStatus id st => String.eqb id kav_id && String.eqb st status
      | _ => false
      end
  end.

Definition status_patch_accepted (kav_id status : string) (e : event) : bool :=
  match e with
  | @Ev _ c r =>
      match c in call X return Result X -> bool with
      | PatchPublishStatus id st => fun r =>
          String.eqb id kav_id && String.eqb st status && answered NO_CONTENT r
      | _ => fun _ => false
      end r
  end.

Definition is_body_push (kav_id : string) (e : event) : bool :=
  match e with
  | @Ev _ c _ =>
      match c with
      | KavUpdate id _ => String.eqb id kav_id
      | _ => false
      end
  end.

(** The body push got an answer, whatever the status code. *)
Definition body_push_answered (e : event) : bool :=
  match e with
  | @Ev _ c r =>
      match c in call X return Result X -> bool with
      | KavUpdate _ _ => fun r => is_ok r
      | _ => fun _ => false
      end r
  end.

(** Every event of the class [q] comes after an event of the class [p]. *)
Fixpoint comes_first (p q : event -> bool) (evs : list event) : bool :=
  match evs with
  | [] => true
  | e :: rest => p e || (negb (q e) && comes_first p q rest)
  end.

(** No event of the class [p] comes after an event of the class [q]. *)
Fixpoint none_after (p q : event -> bool) (evs : list event) : bool :=
  match evs with
  | [] => true
  | e :: rest => (negb (q e) || negb (existsb p rest)) && none_after p q rest
  end.

(** The row [_process_bundle] writes for a stored object that is to go. *)
Definition deleted_image_row (bundle : Z) (key : string) : Image :=
  {| i_bundle := bundle; i_filename := key; i_status := STATUS_DELETED |}.

(** A stored object is obsolete: it is not a draft, and its key in lower
    case is the lowered basename of no image of the bundle. *)
Definition obsolete_key `{Py.Str} (settings : Settings) (paths : list string)
    (key : string)
  : bool :=
  negb (Py.startswith key (AWS_S3_DRAFT_DIR settings))
  && negb (existsb (fun image => String.eqb (Py.lower (Py.basename image)) (Py.lower key))
             paths).

(** An upload of an image under the draft directory, by its basename. *)
Definition preview_upload (settings : Settings) (e : event) : bool :=
  match e with
  | @Ev _ c _ =>
      match c with
      | S3UploadImage image key =>
          String.eqb key (AWS_S3_DRAFT_DIR settings ++ Py.basename image)
      | _ => false
      end
  end.

(** The key an upload writes. *)
Definition upload_key (e : event) : option string :=
  match e with
  | @Ev _ c _ =>
      match c with
      | S3UploadImage _ key => Some key
      | _ => None
      end
  end.

(** An image has a row among [imgs]: some row carries its basename. *)
Definition has_row (imgs : list Image) (image : string) : bool :=
  existsb (fun i => String.eqb (i_filename i) (Py.basename image)) imgs.

(** The decision rows only grow, and by rows of one bundle. *)
Definition grows {Env} (pk : Z) (w w' : World Env) : Prop :=
  (exists arts,
     articles w' = articles w ++ arts /\ Forall (fun a => a_bundle a = pk) arts)
  /\ (exists imgs,
        images w' = images w ++ imgs /\ Forall (fun i => i_bundle i = pk) imgs).

(** The requests of queue admission. *)
Definition is_sweep (e : event) : bool :=
  match e with
  | @Ev _ c _ => match c with S3DeleteDraftImages => true | _ => false end
  end.

Definition storage_request (e : event) : bool :=
  match e with
  | @Ev _ c _ =>
      match c with
      | S3Connect | S3DeleteDraftImages => true
      | _ => false
      end
  end.

(** The exception a request makes the publisher raise, if it does: the
    exception of a request that failed; KeyError when the stored version
    read has no body field; IndexError when the query for the draft copy
    announces rows and gives none; the store error when a deletion or a
    change of status is answered with another code than 204. *)
Definition publisher_raises (settings : Settings) (e : event) : option exn :=
  match e with
  | @Ev _ c r =>
      match c in call X return Result X -> option exn with
      | KavGet _ => fun r =>
          match r with
          | Raise x => Some x
          | Ok kav =>
              if Py.dict_has kav (SALESFORCE_ARTICLE_BODY_FIELD settings) then None
              else Some (KeyError (SALESFORCE_ARTICLE_BODY_FIELD settings))
          end
      | Query q => fun r =>
          match r with
          | Raise x => Some x
          | Ok res =>
              match q with
              | DraftOfArticle _ =>
                  if 0 <? totalSize res then
                    match records res with
                    | [] => Some IndexError
                    | _ :: _ => None
                    end
                  else None
              | _ => None
              end
          end
      | DeleteMasterVersion kav_id => fun r =>
          match r with
          | Raise x => Some x
          | Ok code =>
              if code =? NO_CONTENT then None
              else Some (SalesforceError
                           ("Error deleting KnowledgeArticleVersion (ID="
                            ++ kav_id ++ ")")%string)
          end
      | PatchPublishStatus kav_id status => fun r =>
          match r with
          | Raise x => Some x
          | Ok code =>
              if code =? NO_CONTENT then None
              else Some (SalesforceError
                           ("Error setting status=" ++ status
                            ++ " for KnowledgeArticleVersion (ID=" ++ kav_id ++ ")")%string)
          end
      | _ => fun r => match r with Raise x => Some x | Ok _ => None end
      end r
  end.

(** A run of the publisher stops at the request that raises: when it
    ends well no request has raised; when it ends on an exception, the
    last request of the log is the one that raised it, and none before
    it did. *)
Definition halts_at {A} (settings : Settings) (r : Result A) (evs : list event)
  : Prop :=
  match r with
  | Ok _ => Forall (fun e => publisher_raises settings e = None) evs
  | Raise x =>
      exists done bad,
        evs = done ++ [bad]
        /\ Forall (fun e => publisher_raises settings e = None) done
        /\ publisher_raises settings bad = Some x
  end.

(** What a computation adds to the log has the property [P]. *)
Definition logged {Env A} (P : Result A -> list event -> Prop) (c : M Env A) : Prop :=
  forall w r w', c w = (r, w') -> exists evs, log w' = log w ++ evs /\ P r evs.

(** ** Proof tools *)

(** Case analysis along a run: the answers of the environment first, then
    the tests of the code, innermost first. *)
Ltac crunch H :=
  repeat (first
    [ match type of H with
      | context [respond ?c ?e] =>
          let r := fresh "r" in
          let env := fresh "env" in
          let E := fresh "E" in
          destruct (respond c e) as [r env] eqn:E; destruct r
      end
    | match type of H with
      | context [match ?x with _ => _ end] =>
          lazymatch x with
          | context [match _ with _ => _ end] => fail
          | _ => let E := fresh "E" in destruct x eqn:E
          end
      end ]; cbn in H).

(** From [log w' = log w ++ evs], the events of the run. *)
Ltac trace_of Hlog :=
  cbn in Hlog; repeat rewrite <- app_assoc in Hlog;
  first [ apply app_inv_head in Hlog
        | (rewrite <- (app_nil_r (log _)) in Hlog at 1;
           apply app_inv_head in Hlog) ];
  subst; cbn [app] in *.

(** Two equations on the answer to one request: the answers agree. *)
Ltac same_answer :=
  match goal with
  | E : respond ?c ?e = _, Hx : respond ?c ?e = _ |- _ =>
      rewrite E in Hx; inversion Hx; subst; clear Hx
  end.

Ltac split_foralls :=
  repeat match goal with
    | Hf : Forall _ (_ :: _) |- _ => apply Forall_cons_iff in Hf; destruct Hf
    end.

Ltac split_andb :=
  repeat match goal with
    | Hb : _ && _ = true |- _ => apply andb_true_iff in Hb; destruct Hb
    end.

Ltac use_records :=
  repeat match goal with
    | E : records _ = _ |- _ => rewrite E in *
    end.

Ltac to_prop :=
  repeat match goal with
    | Hb : (_ =? _) = true |- _ => apply Z.eqb_eq in Hb
    | Hb : (_ =? _) = false |- _ => apply Z.eqb_neq in Hb
    | Hb : (_ <=? _) = true |- _ => apply Z.leb_le in Hb
    | Hb : (_ <=? _) = false |- _ => apply Z.leb_gt in Hb
    | Hb : (_ <? _) = true |- _ => apply Z.ltb_lt in Hb
    | Hb : (_ <? _) = false |- _ => apply Z.ltb_ge in Hb
    end.

Ltac arith :=
  cbn in *; unfold NO_CONTENT, CREATED in *; to_prop; cbn in *; lia.

(** The events a run added to the log, read off the final world. *)
Ltac new_events :=
  eexists; split; [ cbn; rewrite <- ?app_assoc; reflexivity | ].

Ltac groups :=
  repeat constructor; unfold in_group; cbn; intros; try reflexivity;
  try discriminate.

(** A trace that reads the tables is the same on worlds with the same
    tables. *)
Ltac same_tables :=
  intros ? ? ? (Ha & Hi & _); cbn beta; rewrite ?Ha, ?Hi; exact (fun x => x).

(** A well-formed answer of at most one row has no second row. *)
Ltac one_record :=
  repeat match goal with
    | E : records ?a = ?k :: ?l |- _ =>
        is_var l;
        assert (l = []) by (destruct l; [ reflexivity | exfalso; use_records; arith ]);
        subst l
    end.

Ltac tests :=
  repeat match goal with
    | |- context [0 <? ?x] =>
        destruct (Z.ltb_spec 0 x); try (exfalso; use_records; arith)
    end.

(** The tests a case analysis has fixed, used to evaluate a statement
    about the events of the case. *)
Ltac use_tests :=
  cbn; unfold Py.dict_has;
  repeat match goal with
    | E : ?x = _ |- context [?x] => rewrite E
    end; cbn.

Ltac none_raised :=
  repeat (constructor; [ use_tests; reflexivity | ]); constructor.

Ltac halted :=
  cbn [app halts_at];
  first
    [ none_raised
    | match goal with
      | |- exists done bad, ?l = _ /\ _ =>
          exists (removelast l), (last l (Ev S3Connect (Ok tt)))
      end;
      cbn [removelast last];
      split; [ reflexivity | ];
      split; [ none_raised | use_tests; reflexivity ] ].

(** ** Dictionaries *)

Lemma dict_get_app {V} (d : Py.dict V) (k k' : string) (v : V) :
  Py.dict_get (d ++ [(k', v)]) k =
  match Py.dict_get d k with
  | Some x => Some x
  | None => if String.eqb k k' then Some v else None
  end.
Proof.
  induction d as [| [k0 v0] d IH]; cbn.
  - reflexivity.
  - destruct (String.eqb k k0); [ reflexivity | exact IH ].
Qed.

Lemma dict_get_set {V} (d : Py.dict V) (k k' : string) (v : V) :
  Py.dict_get (Py.dict_set d k' v) k =
  if String.eqb k k' then Some v else Py.dict_get d k.
Proof.
  induction d as [| [k0 v0] d IH]; cbn.
  - reflexivity.
  - destruct (String.eqb_spec k' k0) as [-> | Hne]; cbn.
    + destruct (String.eqb k k0); reflexivity.
    + rewrite IH. destruct (String.eqb_spec k k0) as [-> | Hne'].
      * destruct (String.eqb_spec k0 k'); [ congruence | reflexivity ].
      * reflexivity.
Qed.

Lemma dict_get_append (d : Py.dict (list string)) (k k' v : string) :
  Py.dict_get (Py.dict_append d k' v) k =
  if String.eqb k k' then Some (paths_of d k' ++ [v]) else Py.dict_get d k.
Proof.
  unfold Py.dict_append, paths_of.
  destruct (Py.dict_get d k') as [vs |] eqn:E.
  - apply dict_get_set.
  - rewrite dict_get_app.
    destruct (String.eqb_spec k k') as [-> | Hne].
    + rewrite E. reflexivity.
    + destruct (Py.dict_get d k); reflexivity.
Qed.

Lemma dict_has_append (d : Py.dict (list string)) (k k' v : string) :
  Py.dict_has (Py.dict_append d k' v) k = String.eqb k k' || Py.dict_has d k.
Proof.
  unfold Py.dict_has. rewrite dict_get_append.
  destruct (String.eqb k k'); reflexivity.
Qed.

Lemma dict_has_url_map_from `{Py.Str} (files : list (string * HTML))
    (d : Py.dict (list string)) (k : string) :
  Py.dict_has
    (fold_left
       (fun url_map f =>
          Py.dict_append url_map (Py.lower (url_name (snd f))) (fst f))
       files d) k
  = Py.dict_has d k
    || existsb (fun f => String.eqb (Py.lower (url_name (snd f))) k) files.
Proof.
  revert d. induction files as [| f files IH]; intros d; cbn.
  - now rewrite orb_false_r.
  - rewrite IH, dict_has_append, (String.eqb_sym k).
    destruct (Py.dict_has d k), (String.eqb (Py.lower (url_name (snd f))) k);
      reflexivity.
Qed.

(** A slug is a key of the url map exactly when a document carries it. *)
Lemma dict_has_build_url_map `{Py.Str} (files : list (string * HTML)) (slug : string) :
  Py.dict_has (build_url_map files) (Py.lower slug) = incoming files slug.
Proof.
  unfold build_url_map, incoming. now rewrite dict_has_url_map_from.
Qed.

(** ** Order on strings, [sorted] *)

Lemma compare_le_trans (a b c : string) :
  String.compare a b <> Gt -> String.compare b c <> Gt -> String.compare a c <> Gt.
Proof.
  revert b c. induction a as [| x a IH]; intros [| y b] [| z c]; cbn;
    try congruence.
  unfold Ascii.compare.
  destruct (N.compare_spec (N_of_ascii x) (N_of_ascii y)) as [Exy | Lxy | Gxy];
    destruct (N.compare_spec (N_of_ascii y) (N_of_ascii z)) as [Eyz | Lyz | Gyz];
    try congruence; intros Hab Hbc.
  - rewrite Exy, Eyz, N.compare_refl. now apply IH with b.
  - rewrite Exy. apply N.compare_lt_iff in Lyz. rewrite Lyz. discriminate.
  - rewrite <- Eyz. apply N.compare_lt_iff in Lxy. rewrite Lxy. discriminate.
  - assert (L : (N_of_ascii x < N_of_ascii z)%N) by (now apply N.lt_trans with (N_of_ascii y)).
    apply N.compare_lt_iff in L. rewrite L. discriminate.
Qed.

Lemma str_le_trans (a b c : string) : str_le a b -> str_le b c -> str_le a c.
Proof.
  unfold str_le, String.leb. intros Hab Hbc.
  pose proof (compare_le_trans a b c) as Ht.
  destruct (String.compare a b), (String.compare b c), (String.compare a c);
    try reflexivity; try discriminate; exfalso; apply Ht; congruence.
Qed.

Lemma insert_sorted_perm (x : string) (l : list string) :
  Permutation (Py.insert_sorted x l) (x :: l).
Proof.
  induction l as [| y l IH]; cbn.
  - apply Permutation_refl.
  - destruct (String.leb x y).
    + apply Permutation_refl.
    + apply perm_trans with (y :: x :: l).
      * now apply perm_skip.
      * apply perm_swap.
Qed.

Lemma sorted_perm (l : list string) : Permutation (Py.sorted l) l.
Proof.
  induction l as [| x l IH]; cbn.
  - apply perm_nil.
  - apply perm_trans with (x :: Py.sorted l).
    + apply insert_sorted_perm.
    + now apply perm_skip.
Qed.

Lemma insert_sorted_sorted (x : string) (l : list string) :
  StronglySorted str_le l -> StronglySorted str_le (Py.insert_sorted x l).
Proof.
  induction l as [| y l IH]; cbn; intros Hs.
  - constructor; constructor.
  - apply StronglySorted_inv in Hs. destruct Hs as [Hl Hy].
    destruct (String.leb x y) eqn:E.
    + constructor.
      * now constructor.
      * constructor; [ exact E | ].
        eapply Forall_impl; [ | exact Hy ].
        intros z Hz. now apply str_le_trans with y.
    + constructor.
      * now apply IH.
      * assert (Hall : Forall (str_le y) (x :: l)).
        { constructor; [ | exact Hy ].
          destruct (String.leb_total x y) as [Hxy | Hyx];
            [ congruence | exact Hyx ]. }
        rewrite Forall_forall in *. intros z Hz. apply Hall.
        apply (Permutation_in z (insert_sorted_perm x l) Hz).
Qed.

Lemma sorted_sorted (l : list string) : StronglySorted str_le (Py.sorted l).
Proof.
  induction l as [| x l IH]; cbn.
  - constructor.
  - now apply insert_sorted_sorted.
Qed.

Lemma filter_sorted (p : string -> bool) (l : list string) :
  StronglySorted str_le l -> StronglySorted str_le (filter p l).
Proof.
  induction l as [| x l IH]; cbn; intros Hs.
  - constructor.
  - apply StronglySorted_inv in Hs. destruct Hs as [Hl Hx].
    destruct (p x).
    + constructor; [ now apply IH | ].
      apply Forall_forall. intros y Hy. apply filter_In in Hy.
      rewrite Forall_forall in Hx. now apply Hx.
    + now apply IH.
Qed.

(** ** Grouping paths by key *)

Lemma paths_of_append (d : Py.dict (list string)) (k k' v : string) :
  paths_of (Py.dict_append d k' v) k =
  if String.eqb k k' then paths_of d k ++ [v] else paths_of d k.
Proof.
  unfold paths_of at 1. rewrite dict_get_append.
  destruct (String.eqb_spec k k') as [-> | Hne]; reflexivity.
Qed.

Lemma paths_of_group {A} (key val : A -> string) (xs : list A)
    (d : Py.dict (list string)) (k : string) :
  paths_of (fold_left (fun m x => Py.dict_append m (key x) (val x)) xs d) k
  = paths_of d k ++ map val (filter (fun x => String.eqb (key x) k) xs).
Proof.
  revert d. induction xs as [| x xs IH]; intros d; cbn.
  - now rewrite app_nil_r.
  - rewrite IH, paths_of_append, (String.eqb_sym k).
    destruct (String.eqb (key x) k); cbn.
    + now rewrite <- app_assoc.
    + reflexivity.
Qed.

(** The url map gives each slug its source paths. *)
Lemma paths_of_url_map `{Py.Str} (files : list (string * HTML)) (slug : string) :
  paths_of (build_url_map files) slug = slug_sources files slug.
Proof.
  unfold build_url_map, slug_sources.
  now rewrite (paths_of_group (fun f => Py.lower (url_name (snd f))) fst).
Qed.

Lemma dict_get_keys {V} (d : Py.dict V) (k : string) :
  Py.dict_get d k = None <-> ~ In k (Py.keys d).
Proof.
  induction d as [| [k0 v0] d IH]; cbn.
  - tauto.
  - destruct (String.eqb_spec k k0) as [-> | Hne].
    + split; [ discriminate | intros Hn; exfalso; apply Hn; now left ].
    + rewrite IH. split.
      * intros Hn [Heq | Hin]; [ congruence | tauto ].
      * tauto.
Qed.

Lemma dict_get_in {V} (d : Py.dict V) (k : string) (v : V) :
  Py.dict_get d k = Some v -> In (k, v) d.
Proof.
  induction d as [| [k0 v0] d IH]; cbn; [ discriminate | ].
  destruct (String.eqb_spec k k0) as [-> | Hne].
  - intros [= ->]. now left.
  - intros Hg. right. now apply IH.
Qed.

Lemma in_dict_get {V} (d : Py.dict V) (k : string) (v : V) :
  NoDup (Py.keys d) -> In (k, v) d -> Py.dict_get d k = Some v.
Proof.
  induction d as [| [k0 v0] d IH]; cbn; [ tauto | ].
  intros Hnd [Heq | Hin].
  - injection Heq as -> ->. now rewrite String.eqb_refl.
  - inversion Hnd as [| ? ? Hnotin Hnd']; subst.
    destruct (String.eqb_spec k k0) as [-> | Hne].
    + exfalso. apply Hnotin. change k0 with (fst (k0, v)). now apply in_map.
    + now apply IH.
Qed.

Lemma keys_set {V} (d : Py.dict V) (k : string) (v : V) :
  In k (Py.keys d) -> Py.keys (Py.dict_set d k v) = Py.keys d.
Proof.
  induction d as [| [k0 v0] d IH]; cbn; [ tauto | ].
  destruct (String.eqb_spec k k0) as [-> | Hne]; cbn.
  - reflexivity.
  - intros [Heq | Hin]; [ congruence | ]. f_equal. now apply IH.
Qed.

Lemma keys_append_nodup (d : Py.dict (list string)) (k v : string) :
  NoDup (Py.keys d) -> NoDup (Py.keys (Py.dict_append d k v)).
Proof.
  intros Hnd. unfold Py.dict_append.
  destruct (Py.dict_get d k) as [vs |] eqn:E.
  - rewrite keys_set; [ exact Hnd | ].
    destruct (in_dec string_dec k (Py.keys d)) as [Hin | Hout]; [ exact Hin | ].
    apply dict_get_keys in Hout. congruence.
  - unfold Py.keys. rewrite map_app. cbn.
    apply dict_get_keys in E.
    apply (NoDup_Add (Add_app k (map fst d) [])).
    rewrite app_nil_r. split; assumption.
Qed.

Lemma group_nodup {A} (key val : A -> string) (xs : list A)
    (d : Py.dict (list string)) :
  NoDup (Py.keys d) ->
  NoDup (Py.keys (fold_left (fun m x => Py.dict_append m (key x) (val x)) xs d)).
Proof.
  revert d. induction xs as [| x xs IH]; intros d Hnd; cbn.
  - exact Hnd.
  - apply IH. now apply keys_append_nodup.
Qed.

(** [has_duplicates]: some key has more than one path. *)
Lemma has_duplicates_iff (d : Py.dict (list string)) :
  NoDup (Py.keys d) ->
  has_duplicates d = true
  <-> exists k, (1 < List.length (paths_of d k))%nat.
Proof.
  intros Hnd. unfold has_duplicates. rewrite existsb_exists. split.
  - intros (v & Hin & Hlen). unfold Py.values in Hin.
    apply in_map_iff in Hin. destruct Hin as ([k v'] & Hv & Hin). cbn in Hv. subst v'.
    exists k. unfold paths_of. rewrite (in_dict_get d k v Hnd Hin).
    now apply Nat.ltb_lt.
  - intros (k & Hlen). unfold paths_of in Hlen.
    destruct (Py.dict_get d k) as [v |] eqn:E; [ | cbn in Hlen; lia ].
    exists v. split.
    + unfold Py.values. apply dict_get_in in E.
      change v with (snd (k, v)). now apply in_map.
    + now apply Nat.ltb_lt.
Qed.

Section ProcessArticle.

Context {Env : Type} `{Remote Env} `{HtmlOps} {py_str : Py.Str}.
Variable settings : Settings.

(** C10. [process_article] is total when the store holds at most one draft
    and at most one online version of the slug: with well-formed answers
    it returns, or ends with a store error.  Outside of that, when the
    draft query does not return exactly one row and the online query
    returns several, no branch binds [kav_id] and [status]: the call of
    [save_article] fails on the unbound local, no request was sent after
    the two queries and no row was written. *)
Theorem process_article_unbound_locals (html : HTML) (bundle : Z)
    (w w' : World Env) (r : Result unit) (evs : list event) :
  process_article settings html bundle w = (r, w') ->
  log w' = log w ++ evs ->
  (Forall (fun e => well_formed e = true) evs ->
   Forall (fun e => single_version e = true) evs ->
   structured r evs)
  /\ (forall rd ro env1 env2,
        respond (Query (ByUrlName (url_name html) "draft")) (remote w)
          = (Ok rd, env1) ->
        respond (Query (ByUrlName (url_name html) "online")) env1
          = (Ok ro, env2) ->
        totalSize rd <> 1 -> 1 < totalSize ro ->
        r = Raise (UnboundLocalError "kav_id")
        /\ evs = [Ev (Query (ByUrlName (url_name html) "draft")) (Ok rd);
                  Ev (Query (ByUrlName (url_name html) "online")) (Ok ro)]
        /\ articles w' = articles w).
Proof.
  intros Hrun Hlog.
  unfold process_article, query_articles, update_draft, save_article,
    create_article, create_draft, get_ka_id, get_preview_url, index0,
    Article_create in Hrun.
  unfold bind, perform, ret, raise in Hrun. cbn in Hrun.
  crunch Hrun.
  all: inversion Hrun; subst; clear Hrun; trace_of Hlog.
  all: split;
    [ intros Hwf Hsv;
      try (left; reflexivity);
      try (right; left; eexists; reflexivity);
      try (right; right; eexists; eexists; split;
           [ | split; [ | reflexivity ] ];
           [ cbn; eauto 10 | reflexivity ]);
      split_foralls; cbn in *; split_andb; use_records; exfalso; arith
    | intros rd ro ea eb Hrd Hro Hd Ho;
      inversion Hrd; subst; clear Hrd; same_answer;
      try (exfalso; arith);
      repeat split; reflexivity ].
Qed.

(** The rows written for the published articles no document matches. *)
Lemma record_deleted_loop (bundle : Z) (files : list (string * HTML))
    (l : list Kav) (w : World Env) :
  for_each l (record_deleted_article settings bundle (build_url_map files)) w
  = (Ok tt,
     mkWorld (remote w) (log w)
       (articles w
        ++ map (deleted_row settings bundle)
             (filter (fun article => negb (incoming files (UrlName article))) l))
       (images w) (bundles w) (webhooks w) (jobs w) (clock w)).
Proof.
  revert w. induction l as [| article l IH]; intros w.
  - destruct w; cbn. now rewrite app_nil_r.
  - cbn [for_each filter]. unfold bind at 1.
    unfold record_deleted_article at 1.
    rewrite dict_has_build_url_map.
    destruct (incoming files (UrlName article)); cbn [negb].
    + unfold ret. rewrite IH. destruct w; reflexivity.
    + unfold bind, get_preview_url, ret, Article_create. rewrite IH. cbn.
      now rewrite <- app_assoc.
Qed.

(** C1. The decision table.  When the store holds at most one draft and
    at most one online version of the slug and serves the requests,
    [process_article] returns, and what it did is the row of the table
    chosen by "a draft exists", "an online version exists" and "the
    compared fields are identical": the draft is updated and the decision
    is CHANGED or NEW; or nothing is sent and no row is written; or a
    draft copy of the published article is created and filled, decision
    CHANGED; or a new draft article is created, decision NEW.  And every
    online article whose slug no incoming document carries, whatever the
    case of the letters, gets a DELETED row. *)
Theorem diff_engine_decisions (bundle : Z) :
  (forall (html : HTML) (w w' : World Env) (r : Result unit) (evs : list event),
     process_article settings html bundle w = (r, w') ->
     log w' = log w ++ evs ->
     Forall (fun e => accepted settings e = true) evs ->
     Forall (fun e => single_version e = true) evs ->
     let h := html_update_links_draft settings html in
     exists rd ro rest,
       evs = Ev (Query (ByUrlName (url_name html) "draft")) (Ok rd)
             :: Ev (Query (ByUrlName (url_name html) "online")) (Ok ro) :: rest
       /\ r = Ok tt
       /\ match decision_table (0 <? totalSize rd) (0 <? totalSize ro)
                  (existsb (same_as_record h) (records ro)) with
          | (UpdateDraft, Some d) =>
              exists draft a,
                hd_error (records rd) = Some draft
                /\ mutations rest
                   = [Ev (KavUpdate (Id draft) (create_article_data h))
                         (Ok NO_CONTENT)]
                /\ articles w' = articles w ++ [a]
                /\ decision_row a bundle (Id draft) html d
          | (CreateDraftCopy, Some d) =>
              exists online kav_id a,
                hd_error (records ro) = Some online
                /\ mutations rest
                   = [Ev (PostMasterVersion (KnowledgeArticleId online))
                         (Ok (CREATED, kav_id));
                      Ev (KavUpdate kav_id (create_article_data h))
                         (Ok NO_CONTENT)]
                /\ articles w' = articles w ++ [a]
                /\ decision_row a bundle kav_id html d
          | (CreateDraft, Some d) =>
              exists kav_id a,
                mutations rest
                  = [Ev (KavCreate (create_article_data h)) (Ok kav_id)]
                /\ articles w' = articles w ++ [a]
                /\ decision_row a bundle kav_id html d
          | _ => rest = [] /\ articles w' = articles w
          end)
  /\ (forall (files : list (string * HTML)) (w : World Env)
        (res : QueryResult) (env' : Env),
        respond (Query (ByStatus "online")) (remote w) = (Ok res, env') ->
        exists w',
          record_deleted_articles settings bundle (build_url_map files) w
            = (Ok tt, w')
          /\ articles w'
             = articles w
               ++ map (deleted_row settings bundle)
                    (filter (fun article => negb (incoming files (UrlName article)))
                       (records res))
          /\ mutations (log w') = mutations (log w)).
Proof.
  split.
  - intros html w w' r evs Hrun Hlog Hacc Hsv h.
    unfold process_article, query_articles, update_draft, save_article,
      create_article, create_draft, get_ka_id, get_preview_url, index0,
      Article_create in Hrun.
    unfold bind, perform, ret, raise in Hrun. cbn in Hrun.
    crunch Hrun.
    all: inversion Hrun; subst; clear Hrun; trace_of Hlog.
    all: split_foralls; cbn in *; split_andb; try discriminate.
    all: try (exfalso; use_records; arith).
    all: do 3 eexists; split; [ reflexivity | split; [ reflexivity | ] ].
    all: one_record; use_records; tests; cbn.
    all: repeat match goal with p : (Z * string)%type |- _ => destruct p end.
    all: cbn in *; to_prop; subst; subst h.
    all: rewrite ?orb_false_r;
      repeat match goal with
        | E : same_as_record _ _ = _ |- _ => rewrite E
        end; cbn.
    all: repeat eexists; reflexivity.
  - intros files w res env' Hq.
    unfold record_deleted_articles, get_articles, bind, perform, ret.
    rewrite Hq. rewrite record_deleted_loop. cbn.
    eexists; split; [ reflexivity | ]. cbn. split; [ reflexivity | ].
    unfold mutations. rewrite filter_app. cbn. now rewrite app_nil_r.
Qed.

End ProcessArticle.

Section Instances1.

#[local] Existing Instance Fake.str.

(** On a store where [faq] is published with another title, the document
    gets a draft copy of the published article and the decision CHANGED.
    On a store where the slugs are [FAQ] and [Old-Page], a bundle with the
    document [Faq] leaves [FAQ] alone, whatever the case of the letters,
    and [Old-Page], which no document carries, gets a DELETED row. *)
Lemma diff_engine_decisions_witness :
  let w := Fake.world Fake.published [] in
  let html := Fake.doc "faq" "FAQ, second edition" [] in
  let run := process_article Fake.settings html 1 w in
  let files := [("/b/faq.html", Fake.doc "Faq" "FAQ, second edition" [])] in
  Forall (fun e => accepted Fake.settings e = true) (log (snd run))
  /\ Forall (fun e => single_version e = true) (log (snd run))
  /\ fst run = Ok tt
  /\ map a_status (articles (snd run)) = [STATUS_CHANGED]
  /\ exists w',
       record_deleted_articles Fake.settings 1 (build_url_map files)
         (Fake.world Fake.capitals []) = (Ok tt, w')
       /\ map a_url_name (articles w') = ["Old-Page"]
       /\ map a_status (articles w') = [STATUS_DELETED].
Proof.
  intros w html run files.
  assert (Ha : Forall (fun e => accepted Fake.settings e = true) (log (snd run)))
    by (vm_compute; repeat constructor).
  assert (Hs : Forall (fun e => single_version e = true) (log (snd run)))
    by (vm_compute; repeat constructor).
  destruct (diff_engine_decisions Fake.settings 1) as [Htable Hdeleted].
  destruct (Htable html w (snd run) (fst run) (log (snd run))
              (surjective_pairing run) eq_refl Ha Hs)
    as (rd & ro & rest & _ & Hok & _).
  destruct (Hdeleted files (Fake.world Fake.capitals []) _ _ eq_refl)
    as (w' & Hrun & Hrows & _).
  split; [ exact Ha | ]. split; [ exact Hs | ]. split; [ exact Hok | ]. split.
  - vm_compute. reflexivity.
  - exists w'. split; [ exact Hrun | ]. rewrite Hrows.
    split; vm_compute; reflexivity.
Defined.

(** On a store that holds two online versions of the slug, the call ends
    on the unbound local. *)
Lemma process_article_unbound_locals_witness :
  let w := Fake.world Fake.doubled [] in
  let html := Fake.doc "dup" "Three" [] in
  let run := process_article Fake.settings html 1 w in
  totalSize (Fake.select (ByUrlName "dup" "draft") Fake.doubled) <> 1
  /\ 1 < totalSize (Fake.select (ByUrlName "dup" "online") Fake.doubled)
  /\ fst run = Raise (UnboundLocalError "kav_id")
  /\ articles (snd run) = [].
Proof.
  intros w html run.
  assert (Hd : totalSize (Fake.select (ByUrlName "dup" "draft") Fake.doubled) <> 1)
    by (vm_compute; discriminate).
  assert (Ho : 1 < totalSize (Fake.select (ByUrlName "dup" "online") Fake.doubled))
    by (vm_compute; reflexivity).
  destruct (process_article_unbound_locals Fake.settings html 1 w (snd run)
              (fst run) (log (snd run)) (surjective_pairing run) eq_refl)
    as [_ Hunbound].
  destruct (Hunbound _ _ _ _ eq_refl eq_refl Hd Ho) as (Hr & _ & Hrows).
  split; [ exact Hd | ]. split; [ exact Ho | ]. split; [ exact Hr | exact Hrows ].
Defined.

End Instances1.

(** ** The error messages *)

Lemma append_assoc (a b c : string) : ((a ++ b) ++ c = a ++ (b ++ c))%string.
Proof. induction a as [| x a IH]; cbn; [ reflexivity | now rewrite IH ]. Qed.

Lemma append_nil_r (a : string) : (a ++ "")%string = a.
Proof. induction a as [| x a IH]; cbn; [ reflexivity | now rewrite IH ]. Qed.

Lemma paths_lines (l : list string) (msg : string) :
  fold_left (fun msg f => (msg ++ (Py.nl ++ Py.tab ++ f))%string) l msg
  = (msg ++ joined (map (fun f => Py.nl ++ Py.tab ++ f) l))%string.
Proof.
  revert msg. induction l as [| f l IH]; intros msg; cbn [fold_left map joined].
  - now rewrite append_nil_r.
  - rewrite IH. apply append_assoc.
Qed.

Lemma entry_lines (k : string) (l : list string) (msg : string) :
  fold_left (fun msg f => (msg ++ (Py.nl ++ Py.tab ++ f))%string) l
    (msg ++ (Py.nl ++ k))%string
  = (msg ++ render_entry (k, l))%string.
Proof.
  rewrite paths_lines. unfold render_entry. cbn [fst snd].
  now rewrite !append_assoc.
Qed.

(** The first message is the layout of the first report. *)
Lemma url_duplicates_msg_render (d : Py.dict (list string)) :
  url_duplicates_msg d = render "Found URL name duplicates:" (url_report d).
Proof.
  unfold url_duplicates_msg, render, url_report.
  generalize "Found URL name duplicates:" as msg.
  induction (Py.sorted (Py.keys d)) as [| k ks IH]; intros msg;
    cbn [fold_left filter map joined].
  - now rewrite append_nil_r.
  - destruct (List.length (paths_of d k) =? 1)%nat; cbn [negb].
    + apply IH.
    + rewrite entry_lines, IH. cbn [map joined]. apply append_assoc.
Qed.

(** The second message is the layout of the second report. *)
Lemma image_duplicates_msg_render (d : Py.dict (list string)) :
  image_duplicates_msg d = render "Found image duplicates:" (image_report d).
Proof.
  unfold image_duplicates_msg, render, image_report.
  generalize "Found image duplicates:" as msg.
  induction (Py.sorted (Py.keys d)) as [| k ks IH]; intros msg;
    cbn [fold_left map joined].
  - now rewrite append_nil_r.
  - rewrite entry_lines, IH. apply append_assoc.
Qed.

(** ** The duplicate detector *)

Lemma image_map_group `{Py.Str} (images : list string) (acc : Py.dict (list string) * bool) :
  fst (fold_left image_step images acc)
  = fold_left
      (fun m image => Py.dict_append m (Py.lower (Py.basename image)) image)
      images (fst acc).
Proof.
  revert acc. induction images as [| image images IH]; intros acc; cbn.
  - reflexivity.
  - now rewrite IH.
Qed.

(** The image map gives each basename its source paths. *)
Lemma paths_of_image_map `{Py.Str} (files : list (string * HTML)) (basename : string) :
  paths_of (fst (build_image_map (collect_images files))) basename
  = image_sources files basename.
Proof.
  unfold build_image_map, image_sources. rewrite image_map_group.
  rewrite (paths_of_group (fun image => Py.lower (Py.basename image)) (fun image => image)).
  cbn. now rewrite map_id.
Qed.

(** The flag of the image loop: some basename has more than one path. *)
Lemma image_flag `{Py.Str} (images : list string) (acc : Py.dict (list string) * bool) :
  (snd acc = true <-> exists b, (1 < List.length (paths_of (fst acc) b))%nat) ->
  (snd (fold_left image_step images acc) = true
   <-> exists b,
         (1 < List.length (paths_of (fst (fold_left image_step images acc)) b))%nat).
Proof.
  revert acc. induction images as [| image images IH]; intros acc Hacc; cbn.
  - exact Hacc.
  - apply IH. unfold image_step; cbn [fst snd].
    set (key := Py.lower (Py.basename image)).
    split.
    + destruct (Nat.ltb_spec 1
                  (List.length (paths_of (Py.dict_append (fst acc) key image) key)))
        as [Hlt | Hge].
      * intros _. now exists key.
      * intros Hflag. apply Hacc in Hflag. destruct Hflag as (b & Hb).
        exists b. rewrite paths_of_append.
        destruct (String.eqb b key); [ rewrite length_app; lia | exact Hb ].
    + intros (b & Hb). rewrite paths_of_append in Hb.
      destruct (String.eqb_spec b key) as [Heq | Hne].
      * assert (Hlt : (1 <? List.length
                              (paths_of (Py.dict_append (fst acc) key image) key))%nat
                      = true).
        { apply Nat.ltb_lt. rewrite paths_of_append, String.eqb_refl.
          rewrite <- Heq. exact Hb. }
        now rewrite Hlt.
      * destruct (1 <? List.length
                         (paths_of (Py.dict_append (fst acc) key image) key))%nat;
          [ reflexivity | ].
        apply Hacc. now exists b.
Qed.

Lemma duplicate_images_iff `{Py.Str} (files : list (string * HTML)) :
  snd (build_image_map (collect_images files)) = true
  <-> exists b, (1 < List.length (image_sources files b))%nat.
Proof.
  assert (Hempty : snd (@nil (string * list string), false) = true
                   <-> exists b, (1 < List.length
                                        (paths_of (fst (@nil (string * list string), false)) b))%nat).
  { cbn. split; [ discriminate | intros (b & Hb); cbn in Hb; lia ]. }
  pose proof (image_flag (collect_images files) _ Hempty) as Hf.
  fold (build_image_map (collect_images files)) in Hf.
  rewrite Hf. split; intros (b & Hb); exists b.
  - now rewrite <- paths_of_image_map.
  - now rewrite paths_of_image_map.
Qed.

Lemma has_duplicates_url_map `{Py.Str} (files : list (string * HTML)) :
  has_duplicates (build_url_map files) = true
  <-> exists slug, (1 < List.length (slug_sources files slug))%nat.
Proof.
  rewrite has_duplicates_iff.
  - split; intros (k & Hk); exists k.
    + now rewrite <- paths_of_url_map.
    + now rewrite paths_of_url_map.
  - unfold build_url_map. apply group_nodup. constructor.
Qed.

Lemma key_of_paths (d : Py.dict (list string)) (k : string) :
  paths_of d k <> [] -> In k (Py.keys d).
Proof.
  intros Hne. destruct (in_dec string_dec k (Py.keys d)) as [Hin | Hout].
  - exact Hin.
  - apply dict_get_keys in Hout. unfold paths_of in Hne. rewrite Hout in Hne.
    congruence.
Qed.

(** The first report lists every colliding slug. *)
Lemma url_report_lists (d : Py.dict (list string)) (k : string) :
  (1 < List.length (paths_of d k))%nat -> lists (url_report d) k (paths_of d k).
Proof.
  intros Hlen. exists (Py.sorted (paths_of d k)). split; [ | split ].
  - unfold url_report. apply in_map_iff. exists k. split; [ reflexivity | ].
    apply filter_In. split.
    + apply (Permutation_in k (Permutation_sym (sorted_perm (Py.keys d)))).
      apply key_of_paths. intros Hnil. rewrite Hnil in Hlen. cbn in Hlen. lia.
    + apply negb_true_iff, Nat.eqb_neq. lia.
  - apply sorted_perm.
  - apply sorted_sorted.
Qed.

(** The second report lists every basename. *)
Lemma image_report_lists (d : Py.dict (list string)) (k : string) :
  paths_of d k <> [] -> lists (image_report d) k (paths_of d k).
Proof.
  intros Hne. exists (Py.sorted (paths_of d k)). split; [ | split ].
  - unfold image_report. apply in_map_iff. exists k. split; [ reflexivity | ].
    apply (Permutation_in k (Permutation_sym (sorted_perm (Py.keys d)))).
    now apply key_of_paths.
  - apply sorted_perm.
  - apply sorted_sorted.
Qed.

Lemma url_report_sorted (d : Py.dict (list string)) :
  StronglySorted str_le (map fst (url_report d)).
Proof.
  unfold url_report. rewrite map_map. cbn. rewrite map_id.
  apply filter_sorted, sorted_sorted.
Qed.

Lemma image_report_sorted (d : Py.dict (list string)) :
  StronglySorted str_le (map fst (image_report d)).
Proof.
  unfold image_report. rewrite map_map. cbn. rewrite map_id.
  apply sorted_sorted.
Qed.

Section Detector.

Context {Env : Type} `{Remote Env} `{HtmlOps} {py_str : Py.Str}.
Variable settings : Settings.

(** C4, as the code has it.  With the two connections made: when some
    slug has several source paths, staging aborts with the message that
    lists every such slug with all of its paths, slugs and paths in
    order; the images are not examined.  When no slug does and some image
    basename has several source paths, staging aborts with the message
    that lists every basename with all of its paths, in order.  Either
    way nothing was asked of the stores and no row was written. *)
Theorem duplicate_detection (bundle : Bundle) (files : list (string * HTML))
    (w : World Env) (e1 e2 : Env) :
  respond SalesforceLogin (remote w) = (Ok tt, e1) ->
  respond S3Connect e1 = (Ok tt, e2) ->
  let url_map := build_url_map files in
  let image_map := fst (build_image_map (collect_images files)) in
  ((exists slug, (1 < List.length (slug_sources files slug))%nat) ->
   exists w',
     stage_bundle settings bundle files w
       = (Raise (SfdocError
                   (render "Found URL name duplicates:" (url_report url_map))), w')
     /\ untouched w w'
     /\ (forall slug,
           (1 < List.length (slug_sources files slug))%nat ->
           lists (url_report url_map) slug (slug_sources files slug))
     /\ StronglySorted str_le (map fst (url_report url_map)))
  /\ ((forall slug, (List.length (slug_sources files slug) <= 1)%nat) ->
      (exists b, (1 < List.length (image_sources files b))%nat) ->
      exists w',
        stage_bundle settings bundle files w
          = (Raise (SfdocError
                      (render "Found image duplicates:" (image_report image_map))),
             w')
        /\ untouched w w'
        /\ (forall b,
              image_sources files b <> [] ->
              lists (image_report image_map) b (image_sources files b))
        /\ StronglySorted str_le (map fst (image_report image_map))).
Proof.
  intros Hlogin Hconnect url_map image_map.
  assert (Hquiet :
    untouched w
      (mkWorld e2
         ((log w ++ [Ev SalesforceLogin (Ok tt)]) ++ [Ev S3Connect (Ok tt)])
         (articles w) (images w) (bundles w) (webhooks w) (jobs w) (clock w))).
  { unfold untouched, mutations; cbn. rewrite !filter_app; cbn.
    now rewrite !app_nil_r. }
  split.
  - intros Hdup. apply has_duplicates_url_map in Hdup.
    eexists. split; [ | split; [ exact Hquiet | split ] ].
    + unfold stage_bundle, bind, perform. rewrite Hlogin. cbn.
      rewrite Hconnect. cbn. rewrite Hdup.
      now rewrite url_duplicates_msg_render.
    + intros slug Hslug. unfold url_map. rewrite <- paths_of_url_map.
      apply url_report_lists. now rewrite paths_of_url_map.
    + apply url_report_sorted.
  - intros Hslugs Himages.
    assert (Hnodup : has_duplicates (build_url_map files) = false).
    { destruct (has_duplicates (build_url_map files)) eqn:E; [ | reflexivity ].
      apply has_duplicates_url_map in E. destruct E as (slug & Hslug).
      specialize (Hslugs slug). lia. }
    apply duplicate_images_iff in Himages.
    eexists. split; [ | split; [ exact Hquiet | split ] ].
    + unfold stage_bundle, bind, perform. rewrite Hlogin. cbn.
      rewrite Hconnect. cbn. rewrite Hnodup.
      unfold image_map.
      destruct (build_image_map (collect_images files)) as [m flag].
      cbn in Himages. rewrite Himages.
      now rewrite image_duplicates_msg_render.
    + intros b Hb. unfold image_map. rewrite <- paths_of_image_map.
      apply image_report_lists. now rewrite paths_of_image_map.
    + apply image_report_sorted.
Qed.

End Detector.

Section Instances2.

#[local] Existing Instance Fake.str.

(** Two images share the basename [logo.png], and the message names the
    basename with both paths. *)
Lemma duplicate_detection_witness :
  let w := Fake.world Fake.empty_store [Fake.bundle 1 STATUS_PROCESSING 5] in
  let files := Fake.colliding_images in
  (forall slug, (List.length (slug_sources files slug) <= 1)%nat)
  /\ (1 < List.length (image_sources files "logo.png"))%nat
  /\ exists msg w',
       stage_bundle Fake.settings (Fake.bundle 1 STATUS_PROCESSING 5) files w
         = (Raise (SfdocError msg), w')
       /\ untouched w w'
       /\ Py.contains msg "/b/z/Logo.png" = true.
Proof.
  intros w files.
  assert (Hslugs : forall slug, (List.length (slug_sources files slug) <= 1)%nat).
  { intros slug. unfold slug_sources, files.
    cbv - [String.eqb List.length].
    destruct (String.eqb "faq" slug) eqn:E1, (String.eqb "intro" slug) eqn:E2;
      cbn [List.length]; try lia.
    apply String.eqb_eq in E1, E2. subst slug. discriminate. }
  assert (Himg : (1 < List.length (image_sources files "logo.png"))%nat)
    by (vm_compute; lia).
  split; [ exact Hslugs | ]. split; [ exact Himg | ].
  destruct (@duplicate_detection Fake.Store Fake.store_remote Fake.html_ops
              Fake.str Fake.settings (Fake.bundle 1 STATUS_PROCESSING 5)
              files w Fake.empty_store Fake.empty_store eq_refl eq_refl)
    as [_ Himages].
  destruct (Himages Hslugs (ex_intro _ "logo.png" Himg))
    as (w' & Hrun & Hquiet & _ & _).
  eexists. exists w'. split; [ exact Hrun | ]. split; [ exact Hquiet | ].
  vm_compute. reflexivity.
Defined.

(** C4 as stated fails: with a slug twice and a basename twice, the
    message names the slug only. *)
Lemma duplicate_detection_counterexample :
  let w := Fake.world Fake.empty_store [Fake.bundle 1 STATUS_PROCESSING 5] in
  let files := Fake.colliding in
  image_sources files "logo.png" = ["/b/x/logo.png"; "/b/y/Logo.png"]
  /\ exists msg,
       fst (stage_bundle Fake.settings (Fake.bundle 1 STATUS_PROCESSING 5) files w)
         = Raise (SfdocError msg)
       /\ Py.contains msg "faq" = true
       /\ Py.contains msg "logo.png" = false
       /\ Py.contains msg "Logo.png" = false.
Proof.
  intros w files. split; [ vm_compute; reflexivity | ].
  eexists. split; [ vm_compute; reflexivity | ].
  repeat split; vm_compute; reflexivity.
Qed.

End Instances2.

(** ** Frames: what a computation leaves alone *)

Section Frames.

Context {Env : Type}.
Variable R : World Env -> World Env -> Prop.
Hypothesis R_refl : forall w, R w w.
Hypothesis R_trans : forall a b c, R a b -> R b c -> R a c.

Lemma keeps_ret {A} (a : A) : keeps R (@ret Env A a).
Proof. intros w r w' [= <- <-]. apply R_refl. Qed.

Lemma keeps_raise {A} (e : exn) : keeps R (@raise Env A e).
Proof. intros w r w' [= <- <-]. apply R_refl. Qed.

Lemma keeps_bind {A B} (c : M Env A) (k : A -> M Env B) :
  keeps R c -> (forall a, keeps R (k a)) -> keeps R (bind c k).
Proof.
  intros Hc Hk w r w' Hrun. unfold bind in Hrun.
  destruct (c w) as [[a | e] w1] eqn:E.
  - apply R_trans with w1; [ exact (Hc _ _ _ E) | exact (Hk a _ _ _ Hrun) ].
  - injection Hrun as <- <-. exact (Hc _ _ _ E).
Qed.

Lemma keeps_for_each {A} (xs : list A) (f : A -> M Env unit) :
  (forall x, keeps R (f x)) -> keeps R (for_each xs f).
Proof.
  intros Hf. induction xs as [| x xs IH]; cbn.
  - apply keeps_ret.
  - apply keeps_bind; [ apply Hf | intros _; exact IH ].
Qed.

End Frames.

Lemma quiet_refl {Env} (w : World Env) : quiet w w.
Proof. repeat split. Qed.

Lemma quiet_trans {Env} (a b c : World Env) : quiet a b -> quiet b c -> quiet a c.
Proof.
  unfold quiet. intros (?&?&?&?&?&?) (?&?&?&?&?&?). repeat split; congruence.
Qed.

Lemma staging_refl {Env} (w : World Env) : staging w w.
Proof. repeat split. Qed.

Lemma staging_trans {Env} (a b c : World Env) :
  staging a b -> staging b c -> staging a c.
Proof.
  unfold staging. intros (?&?&?&?) (?&?&?&?). repeat split; congruence.
Qed.

Lemma quiet_staging {Env} (w w' : World Env) : quiet w w' -> staging w w'.
Proof. unfold quiet, staging. tauto. Qed.

Section StagingFrame.

Context {Env : Type} `{Remote Env} `{HtmlOps} {py_str : Py.Str}.
Variable settings : Settings.

Lemma perform_quiet {X} (c : call X) : keeps quiet (perform c).
Proof.
  intros w r w' Hrun. unfold perform in Hrun.
  destruct (respond c (remote w)) as [r0 env]. injection Hrun as <- <-.
  repeat split.
Qed.

Lemma process_article_staging (html : HTML) (bundle : Z) :
  keeps staging (process_article settings html bundle).
Proof.
  intros w r w' Hrun.
  unfold process_article, query_articles, update_draft, save_article,
    create_article, create_draft, get_ka_id, get_preview_url, index0,
    Article_create in Hrun.
  unfold bind, perform, ret, raise in Hrun. cbn in Hrun.
  crunch Hrun.
  all: inversion Hrun; subst; clear Hrun; repeat split.
Qed.

Lemma record_deleted_articles_staging (bundle : Z) (url_map : Py.dict (list string)) :
  keeps staging (record_deleted_articles settings bundle url_map).
Proof.
  unfold record_deleted_articles, get_articles.
  apply keeps_bind; [ apply staging_trans | | ].
  - apply keeps_bind; [ apply staging_trans | | ].
    + intros w r w' Hrun. apply quiet_staging. exact (perform_quiet _ _ _ _ Hrun).
    + intros a. apply keeps_ret, staging_refl.
  - intros online.
    apply keeps_for_each; [ apply staging_refl | apply staging_trans | ].
    intros article w r w' Hrun.
    unfold record_deleted_article, bind, get_preview_url, ret, Article_create in Hrun.
    destruct (negb _) in Hrun; injection Hrun as <- <-; repeat split.
Qed.

Lemma record_deleted_images_staging (bundle : Z) (image_map : Py.dict (list string)) :
  keeps staging (record_deleted_images settings bundle image_map).
Proof.
  unfold record_deleted_images.
  apply keeps_bind; [ apply staging_trans | | ].
  - intros w r w' Hrun. apply quiet_staging. exact (perform_quiet _ _ _ _ Hrun).
  - intros objects.
    apply keeps_bind; [ apply staging_trans | | intros _ ].
    + apply keeps_for_each; [ apply staging_refl | apply staging_trans | ].
      intros key w r w' Hrun. unfold Image_create, ret in Hrun.
      destruct (_ && _) in Hrun; injection Hrun as <- <-; repeat split.
    + destruct (snd objects);
        [ apply keeps_raise, staging_refl | apply keeps_ret, staging_refl ].
Qed.

Lemma s3_process_image_staging (image : string) (bundle : Z) :
  keeps staging (s3_process_image image bundle).
Proof.
  intros w r w' Hrun.
  unfold s3_process_image, bind, perform, Image_create, ret in Hrun.
  crunch Hrun.
  all: inversion Hrun; subst; clear Hrun; repeat split.
Qed.

Lemma upload_unchanged_images_staging (bundle : Z) (aim : Py.dict (list string)) :
  keeps staging (upload_unchanged_images settings bundle aim).
Proof.
  unfold upload_unchanged_images.
  apply keeps_bind; [ apply staging_trans | | ].
  { intros w r w' [= <- <-]. apply staging_refl. }
  intros arts.
  apply keeps_bind; [ apply staging_trans | | ].
  { intros w r w' [= <- <-]. apply staging_refl. }
  intros imgs.
  destruct (unchanged_images aim arts imgs) as [unchanged | e].
  - apply keeps_for_each; [ apply staging_refl | apply staging_trans | ].
    intros image w r w' Hrun. apply quiet_staging.
    exact (perform_quiet _ _ _ _ Hrun).
  - apply keeps_raise, staging_refl.
Qed.

(** Staging writes decision rows and talks to the stores; it leaves the
    bundle table and the queue alone. *)
Lemma stage_bundle_staging (bundle : Bundle) (files : list (string * HTML)) :
  keeps staging (stage_bundle settings bundle files).
Proof.
  unfold stage_bundle.
  apply keeps_bind; [ apply staging_trans | | ].
  { intros w r w' Hrun. apply quiet_staging. exact (perform_quiet _ _ _ _ Hrun). }
  intros _.
  apply keeps_bind; [ apply staging_trans | | ].
  { intros w r w' Hrun. apply quiet_staging. exact (perform_quiet _ _ _ _ Hrun). }
  intros _.
  destruct (has_duplicates _); [ apply keeps_raise, staging_refl | ].
  destruct (build_image_map _) as [image_map [|]];
    [ apply keeps_raise, staging_refl | ].
  apply keeps_bind; [ apply staging_trans | apply record_deleted_articles_staging | ].
  intros _.
  apply keeps_bind; [ apply staging_trans | apply record_deleted_images_staging | ].
  intros _.
  apply keeps_bind; [ apply staging_trans | | ].
  { apply keeps_for_each; [ apply staging_refl | apply staging_trans | ].
    intros f. apply process_article_staging. }
  intros _.
  apply keeps_bind; [ apply staging_trans | | ].
  { apply keeps_for_each; [ apply staging_refl | apply staging_trans | ].
    intros image. apply s3_process_image_staging. }
  intros _. apply upload_unchanged_images_staging.
Qed.

End StagingFrame.

Section NothingChanged.

Context {Env : Type} `{Remote Env} `{HtmlOps} {py_str : Py.Str}.
Variable settings : Settings.


End NothingChanged.

Section Instances3.

#[local] Existing Instance Fake.str.




End Instances3.

(** ** The publisher *)

Lemma bind_inv {Env A B} (c : M Env A) (k : A -> M Env B)
    (w w' : World Env) (r : Result B) :
  bind c k w = (r, w') ->
  (exists e, c w = (Raise e, w') /\ r = Raise e)
  \/ (exists a w1, c w = (Ok a, w1) /\ k a w1 = (r, w')).
Proof.
  unfold bind. destruct (c w) as [[a | e] w1]; intros Hrun.
  - right. now exists a, w1.
  - left. injection Hrun as <- <-. now exists e.
Qed.

Section Publisher.

Context {Env : Type} `{Remote Env} `{HtmlOps} {py_str : Py.Str}.
Variable settings : Settings.

Lemma for_each_run {A} (f : A -> M Env unit) (g : nat)
    (T : A -> list event -> Prop) :
  step_spec settings f g T ->
  forall xs w r w',
    for_each xs f w = (r, w') ->
    exists ts,
      log w' = log w ++ List.concat ts /\ quiet w w'
      /\ Forall (in_group g) (List.concat ts)
      /\ (r = Ok tt -> Forall2 T xs ts)
      /\ (Forall (served settings) (List.concat ts) -> r = Ok tt).
Proof.
  intros Hf xs. induction xs as [| x xs IH]; intros w r w' Hrun.
  - injection Hrun as <- <-. exists []. cbn. rewrite app_nil_r.
    split; [ reflexivity | ]. split; [ apply quiet_refl | ].
    split; [ constructor | ].
    split; [ intros _; constructor | intros _; reflexivity ].
  - cbn in Hrun. apply bind_inv in Hrun.
    destruct Hrun as [(e & Hx & ->) | (u & w1 & Hx & Hrest)].
    + destruct (Hf _ _ _ _ Hx) as (evs & Hlog & Hq & Hg & _ & Hok).
      exists [evs]. cbn. rewrite app_nil_r.
      split; [ exact Hlog | ]. split; [ exact Hq | ]. split; [ exact Hg | ].
      split; [ discriminate | exact Hok ].
    + destruct (Hf _ _ _ _ Hx) as (evs & Hlog & Hq & Hg & Ht & _).
      destruct (IH _ _ _ Hrest) as (ts & Hlog' & Hq' & Hg' & Ht' & Hok').
      exists (evs :: ts). cbn. split; [ | split; [ | split; [ | split ] ] ].
      * rewrite Hlog', Hlog. now rewrite app_assoc.
      * now apply quiet_trans with w1.
      * apply Forall_app. now split.
      * intros Hr. constructor; [ | now apply Ht' ].
        apply Ht. now destruct u.
      * intros Hall. apply Forall_app in Hall. now apply Hok'.
Qed.

Lemma publish_data_get (body : string) :
  Py.dict_get (publish_data settings body) (SALESFORCE_ARTICLE_BODY_FIELD settings)
    = Some body
  /\ (forall field,
        SALESFORCE_ARTICLE_TEXT_INDEX_FIELD settings = Some field ->
        Py.dict_get (publish_data settings body) field = Some body)
  /\ (forall k v, Py.dict_get (publish_data settings body) k = Some v -> v = body).
Proof.
  unfold publish_data.
  destruct (SALESFORCE_ARTICLE_TEXT_INDEX_FIELD settings) as [field |].
  - split; [ | split ].
    + rewrite dict_get_set. cbn. rewrite String.eqb_refl.
      now destruct (String.eqb _ field).
    + intros f [= <-]. rewrite dict_get_set. now rewrite String.eqb_refl.
    + intros k v. rewrite dict_get_set. cbn.
      destruct (String.eqb k field); [ now intros [= <-] | ].
      destruct (String.eqb k (SALESFORCE_ARTICLE_BODY_FIELD settings));
        [ now intros [= <-] | discriminate ].
  - cbn. rewrite String.eqb_refl. split; [ reflexivity | ].
    split; [ discriminate | ].
    intros k v.
    destruct (String.eqb k (SALESFORCE_ARTICLE_BODY_FIELD settings));
      [ now intros [= <-] | discriminate ].
Qed.

Lemma bundle_records_hold (pk : Z) (w : World Env) : bundle_records pk w.
Proof.
  unfold bundle_records, staged_articles, staged_images, deleted_articles,
    deleted_images, articles_of, images_of.
  split; [ | split; [ | split ] ]; intros x; rewrite !filter_In, Z.eqb_eq.
  - destruct (a_status x); cbn; intuition (auto; discriminate).
  - destruct (i_status x); cbn; intuition (auto; discriminate).
  - destruct (a_status x); cbn; intuition (auto; discriminate).
  - destruct (i_status x); cbn; intuition (auto; discriminate).
Qed.

Lemma publish_draft_step :
  step_spec settings (fun article => publish_draft settings (a_kav_id article)) 1
    (publish_trace settings).
Proof.
  intros a w r w' Hrun.
  unfold publish_draft, set_publish_status, getitem in Hrun.
  unfold bind, perform, ret, raise in Hrun. cbn in Hrun.
  crunch Hrun.
  all: inversion Hrun; subst; clear Hrun; new_events.
  all: split; [ repeat split | ]; split; [ groups | ].
  all: split;
    [ intros Hr; try discriminate; cbn [app]
    | intros Hall; try reflexivity; exfalso; cbn [app] in Hall; split_foralls; unfold served in *; cbn in *;
      unfold Py.dict_has in *;
      repeat match goal with
        | E : Py.dict_get _ _ = _ |- _ => rewrite E in *
        end;
      try discriminate; arith ].
  unfold publish_trace. to_prop. subst. do 4 eexists.
  split; [ eassumption | ]. split; [ reflexivity | ].
  match goal with
  | |- context [publish_data settings ?b] =>
      destruct (publish_data_get b) as (Hbody & Hindex & Hall)
  end.
  split; [ exact Hbody | ]. split; [ exact Hindex | ]. split; [ exact Hall | ].
  reflexivity.
Qed.

Lemma archive_step :
  step_spec settings (fun article => archive (a_ka_id article) (a_kav_id article)) 3
    archive_trace.
Proof.
  intros a w r w' Hrun.
  unfold archive, delete, set_publish_status, index0 in Hrun.
  unfold bind, perform, ret, raise in Hrun. cbn in Hrun.
  crunch Hrun.
  all: inversion Hrun; subst; clear Hrun; new_events.
  all: split; [ repeat split | ]; split; [ groups | ].
  all: split;
    [ intros Hr; try discriminate; cbn [app]
    | intros Hall; try reflexivity; exfalso; cbn [app] in Hall; split_foralls; unfold served in *; cbn in *;
      split_andb; use_records; try discriminate; arith ].
  - unfold archive_trace. to_prop. subst. eexists. left.
    split; [ eassumption | ]. do 2 eexists. split; [ eassumption | reflexivity ].
  - unfold archive_trace. to_prop. subst. eexists. right.
    split; [ eassumption | reflexivity ].
Qed.

Lemma copy_step :
  step_spec settings (fun image => perform (S3CopyToProduction (i_filename image))) 2
    copy_trace.
Proof.
  intros i w r w' Hrun. unfold perform in Hrun. crunch Hrun.
  all: inversion Hrun; subst; clear Hrun; new_events.
  all: split; [ repeat split | ]; split; [ groups | ].
  all: split;
    [ intros Hr; try discriminate; cbn [app]
    | intros Hall; try (now destruct a); exfalso; cbn [app] in Hall; split_foralls; unfold served in *; cbn in *;
      discriminate ].
  unfold copy_trace. now destruct a.
Qed.

Lemma delete_step :
  step_spec settings (fun image => perform (S3Delete (i_filename image))) 4 delete_trace.
Proof.
  intros i w r w' Hrun. unfold perform in Hrun. crunch Hrun.
  all: inversion Hrun; subst; clear Hrun; new_events.
  all: split; [ repeat split | ]; split; [ groups | ].
  all: split;
    [ intros Hr; try discriminate; cbn [app]
    | intros Hall; try (now destruct a); exfalso; cbn [app] in Hall; split_foralls; unfold served in *; cbn in *;
      discriminate ].
  unfold delete_trace. now destruct a.
Qed.

Lemma in_group_groups (g : nat) (l : list event) :
  Forall (in_group g) l -> Forall (eq g) (map publish_group (mutations l)).
Proof.
  induction 1 as [| e l He Hl IH]; cbn.
  - constructor.
  - destruct (is_mutation e) eqn:E; cbn; [ | exact IH ].
    constructor; [ symmetry; now apply He | exact IH ].
Qed.

Lemma ordered_block (g : nat) (l : list event) :
  (1 <= g <= 4)%nat -> Forall (in_group g) l -> ordered_from g l.
Proof.
  intros Hg Hl. apply in_group_groups in Hl.
  assert (Hs : StronglySorted le (map publish_group (mutations l))).
  { induction Hl as [| n ns Hn Hns IH]; constructor; [ exact IH | ].
    subst n. eapply Forall_impl; [ | exact Hns ]. intros m <-. lia. }
  split; [ exact Hs | ].
  eapply Forall_impl; [ | exact Hl ]; intros m <-; lia.
Qed.

Lemma ordered_app (g g' : nat) (l1 l2 : list event) :
  (1 <= g <= g')%nat -> (g' <= 4)%nat ->
  Forall (in_group g) l1 -> ordered_from g' l2 -> ordered_from g (l1 ++ l2).
Proof.
  intros Hg Hg' Hl1 [Hs Hr]. apply in_group_groups in Hl1.
  unfold ordered_from, mutations. rewrite filter_app, map_app.
  fold (mutations l1). fold (mutations l2). split.
  - induction Hl1 as [| n ns Hn Hns IH]; cbn; [ exact Hs | ].
    constructor; [ exact IH | ]. subst n. apply Forall_app. split.
    + eapply Forall_impl; [ | exact Hns ]. intros m <-. lia.
    + eapply Forall_impl; [ | exact Hr ]. cbn. intros m Hm. lia.
  - apply Forall_app. split.
    + eapply Forall_impl; [ | exact Hl1 ]. intros m <-. lia.
    + eapply Forall_impl; [ | exact Hr ]. cbn. intros m Hm. lia.
Qed.

Lemma loop_block {A} (xs : list A) (f : A -> M Env unit) (g : nat)
    (T : A -> list event -> Prop) :
  step_spec settings f g T ->
  run_spec settings (Forall (in_group g))
    (fun _ evs => exists ts, evs = List.concat ts /\ Forall2 T xs ts)
    (for_each xs f).
Proof.
  intros Hf w r w' Hrun.
  destruct (for_each_run f g T Hf xs w r w' Hrun) as (ts & Hlog & Hq & Hg & Ht & Hok).
  exists (List.concat ts). repeat split; try assumption; try apply Hq.
  intros Hr. exists ts. split; [ reflexivity | now apply Ht ].
Qed.

Lemma connect_block (c : call unit) (g : nat) :
  (forall r, is_mutation (Ev c r) = false) ->
  (forall r, accepted settings (Ev c r) = is_ok r) ->
  run_spec settings (Forall (in_group g)) (fun _ evs => evs = [Ev c (Ok tt)])
    (perform c).
Proof.
  intros Hm Hacc w r w' Hrun. unfold perform in Hrun.
  destruct (respond c (remote w)) as [r0 env]. injection Hrun as <- <-.
  exists [Ev c r0]. cbn. split; [ reflexivity | ]. split; [ repeat split | ].
  split; [ | split ].
  - constructor; [ | constructor ]. unfold in_group. rewrite Hm. discriminate.
  - intros ->. reflexivity.
  - intros Hall. apply Forall_cons_iff in Hall. destruct Hall as [Hs _].
    unfold served in Hs. rewrite Hacc in Hs.
    destruct r0 as [[] | e]; [ reflexivity | discriminate ].
Qed.

(** A block followed by an ordered run of later groups. *)
Lemma seq_tail (g g' : nat) (T1 T2 : World Env -> list event -> Prop)
    (c1 c2 : M Env unit) :
  (1 <= g <= g')%nat -> (g' <= 4)%nat ->
  run_spec settings (Forall (in_group g)) T1 c1 ->
  run_spec settings (ordered_from g') T2 c2 ->
  (forall w w1 l, quiet w w1 -> T2 w1 l -> T2 w l) ->
  run_spec settings (ordered_from g)
    (fun w evs => exists l1 l2, evs = l1 ++ l2 /\ T1 w l1 /\ T2 w l2)
    (bind c1 (fun _ => c2)).
Proof.
  intros Hg Hg' H1 H2 Hinv w r w' Hrun. apply bind_inv in Hrun.
  destruct Hrun as [(e & Hc & ->) | (u & w1 & Hc & Hrest)].
  - destruct (H1 _ _ _ Hc) as (l1 & Hlog & Hq & Hgr & _ & Hok).
    exists l1. split; [ exact Hlog | ]. split; [ exact Hq | ].
    split; [ | split; [ discriminate | exact Hok ] ].
    apply ordered_block; [ lia | exact Hgr ].
  - destruct (H1 _ _ _ Hc) as (l1 & Hlog & Hq & Hgr & Ht & _).
    destruct (H2 _ _ _ Hrest) as (l2 & Hlog' & Hq' & Ho & Ht' & Hok').
    exists (l1 ++ l2). split; [ | split; [ | split; [ | split ] ] ].
    + rewrite Hlog', Hlog. now rewrite app_assoc.
    + now apply quiet_trans with w1.
    + now apply ordered_app with g'.
    + intros Hr. exists l1, l2. split; [ reflexivity | ]. split.
      * apply Ht. now destruct u.
      * apply Hinv with w1; [ exact Hq | now apply Ht' ].
    + intros Hall. apply Forall_app in Hall. now apply Hok'.
Qed.

Lemma last_tail (g : nat) (T : World Env -> list event -> Prop) (c : M Env unit) :
  (1 <= g <= 4)%nat ->
  run_spec settings (Forall (in_group g)) T c ->
  run_spec settings (ordered_from g) T c.
Proof.
  intros Hg Hc w r w' Hrun.
  destruct (Hc _ _ _ Hrun) as (evs & Hlog & Hq & Hgr & Ht & Hok).
  exists evs. split; [ exact Hlog | ]. split; [ exact Hq | ].
  split; [ now apply ordered_block | ]. split; assumption.
Qed.

Lemma read_articles_tail (pk : Z) (O : list event -> Prop)
    (T : list Article -> World Env -> list event -> Prop)
    (k : list Article -> M Env unit) :
  (forall arts, run_spec settings O (T arts) (k arts)) ->
  run_spec settings O (fun w evs => T (articles_of pk (articles w)) w evs)
    (bind (bundle_articles pk) k).
Proof.
  intros Hk w r w' Hrun. unfold bind, bundle_articles in Hrun.
  exact (Hk _ _ _ _ Hrun).
Qed.

Lemma read_images_tail (pk : Z) (O : list event -> Prop)
    (T : list Image -> World Env -> list event -> Prop)
    (k : list Image -> M Env unit) :
  (forall imgs, run_spec settings O (T imgs) (k imgs)) ->
  run_spec settings O (fun w evs => T (images_of pk (images w)) w evs)
    (bind (bundle_images pk) k).
Proof.
  intros Hk w r w' Hrun. unfold bind, bundle_images in Hrun.
  exact (Hk _ _ _ _ Hrun).
Qed.

Lemma run_spec_weaken (O : list event -> Prop)
    (T T' : World Env -> list event -> Prop) (c : M Env unit) :
  run_spec settings O T c ->
  (forall w evs, T w evs -> T' w evs) ->
  run_spec settings O T' c.
Proof.
  intros Hc Himp w r w' Hrun.
  destruct (Hc _ _ _ Hrun) as (evs & Hlog & Hq & Ho & Ht & Hok).
  exists evs. repeat split; try assumption; try apply Hq.
  intros Hr. now apply Himp, Ht.
Qed.

(** The whole run of the publisher. *)
Lemma publish_run (bundle : Bundle) :
  run_spec settings (ordered_from 1) (publish_plan settings (b_pk bundle))
    (_publish_drafts settings bundle).
Proof.
  eapply run_spec_weaken.
  - unfold _publish_drafts.
    eapply (seq_tail 1 1); [ lia | lia | | | ].
    { apply connect_block; reflexivity. }
    1: eapply (seq_tail 1 1); [ lia | lia | | | ].
    1: { apply connect_block; reflexivity. }
    1: eapply read_articles_tail; intros arts.
    1: eapply (seq_tail 1 2); [ lia | lia | | | ].
    1: { apply loop_block, publish_draft_step. }
    1: eapply read_images_tail; intros imgs.
    1: eapply (seq_tail 2 3); [ lia | lia | | | ].
    1: { apply loop_block, copy_step. }
    1: eapply read_articles_tail; intros arts'.
    1: eapply (seq_tail 3 4); [ lia | lia | | | ].
    1: { apply loop_block, archive_step. }
    1: eapply read_images_tail; intros imgs'.
    1: apply last_tail; [ lia | ].
    1: apply loop_block, delete_step.
    all: same_tables.
  - cbn beta. intros w evs.
    intros (l0 & r0 & -> & -> & l0' & r1 & -> & -> & l1 & r2 & ->
            & (ts1 & -> & Ht1) & l2 & r3 & -> & (ts2 & -> & Ht2)
            & l3 & r4 & -> & (ts3 & -> & Ht3) & ts4 & -> & Ht4).
    exists ts1, ts2, ts3, ts4. repeat split; assumption.
Qed.

(** C2. A publish run adds to the log, in this order: the two
    connections; for every NEW or CHANGED article, the stored body read,
    pushed with its links rewritten to production - the data pushed hold
    that body under the body field, and under the text index field when
    there is one, and nothing else - and the version put online; for
    every NEW or CHANGED image, the copy to production; for every DELETED
    article, the draft copy deleted when there is one and the online
    version archived; for every DELETED image, the object deleted.  The
    records of each group are the rows of the bundle with the decisions of
    the group.  Whether the run completes or not, no mutation of a later
    group precedes one of an earlier group; the run completes when its
    requests are served. *)
Theorem publish_order (bundle : Bundle) (w w' : World Env) (r : Result unit) :
  _publish_drafts settings bundle w = (r, w') ->
  exists evs,
    log w' = log w ++ evs
    /\ ordered_from 1 evs
    /\ (r = Ok tt -> publish_plan settings (b_pk bundle) w evs)
    /\ (Forall (served settings) evs -> r = Ok tt)
    /\ bundle_records (b_pk bundle) w.
Proof.
  intros Hrun.
  destruct (publish_run bundle _ _ _ Hrun) as (evs & Hlog & _ & Ho & Ht & Hok).
  exists evs.
  split; [ exact Hlog | ]. split; [ exact Ho | ]. split; [ exact Ht | ].
  split; [ exact Hok | apply bundle_records_hold ].
Qed.

(** *** A run stops at the request that raises *)

Lemma halts_bind {A B} (c : M Env A) (k : A -> M Env B) :
  logged (halts_at settings) c ->
  (forall a, logged (halts_at settings) (k a)) ->
  logged (halts_at settings) (bind c k).
Proof.
  intros Hc Hk w r w' Hrun. unfold bind in Hrun.
  destruct (c w) as [[a | e] w1] eqn:E.
  - destruct (Hc _ _ _ E) as (l1 & Hlog1 & Hp1).
    destruct (Hk a _ _ _ Hrun) as (l2 & Hlog2 & Hp2).
    exists (l1 ++ l2). split; [ now rewrite Hlog2, Hlog1, app_assoc | ].
    cbn in Hp1. destruct r as [b | x]; cbn in *.
    + apply Forall_app. now split.
    + destruct Hp2 as (done & bad & -> & Hdone & Hbad).
      exists (l1 ++ done), bad. split; [ now rewrite app_assoc | ].
      split; [ apply Forall_app; now split | exact Hbad ].
  - injection Hrun as <- <-. exact (Hc _ _ _ E).
Qed.

Lemma halts_pure {A} (c : M Env A) :
  (forall w, exists a, c w = (Ok a, w)) -> logged (halts_at settings) c.
Proof.
  intros Hc w r w' Hrun. destruct (Hc w) as (a & Ha). rewrite Ha in Hrun.
  injection Hrun as <- <-. exists []. rewrite app_nil_r.
  split; [ reflexivity | constructor ].
Qed.

Lemma halts_for_each {A} (xs : list A) (f : A -> M Env unit) :
  (forall x, logged (halts_at settings) (f x)) ->
  logged (halts_at settings) (for_each xs f).
Proof.
  intros Hf. induction xs as [| x xs IH]; cbn [for_each].
  - apply halts_pure. intros w. now exists tt.
  - apply halts_bind; [ apply Hf | intros _; exact IH ].
Qed.

Lemma halts_perform (c : call unit) :
  (forall r, publisher_raises settings (Ev c r)
             = match r with Raise x => Some x | Ok _ => None end) ->
  logged (halts_at settings) (perform c).
Proof.
  intros Hc w r w' Hrun. unfold perform in Hrun.
  destruct (respond c (remote w)) as [r0 env]. injection Hrun as <- <-.
  exists [Ev c r0]. split; [ reflexivity | ].
  specialize (Hc r0). destruct r0 as [u | x]; cbn.
  - constructor; [ exact Hc | constructor ].
  - exists [], (Ev c (Raise x)). split; [ reflexivity | ].
    split; [ constructor | exact Hc ].
Qed.

Lemma publish_draft_halts (kav_id : string) :
  logged (halts_at settings) (publish_draft settings kav_id).
Proof.
  intros w r w' Hrun.
  unfold publish_draft, set_publish_status, getitem in Hrun.
  unfold bind, perform, ret, raise in Hrun. cbn in Hrun.
  crunch Hrun.
  all: inversion Hrun; subst; clear Hrun; new_events.
  all: halted.
Qed.

Lemma archive_halts (ka_id kav_id : string) :
  logged (halts_at settings) (archive ka_id kav_id).
Proof.
  intros w r w' Hrun.
  unfold archive, delete, set_publish_status, index0 in Hrun.
  unfold bind, perform, ret, raise in Hrun. cbn in Hrun.
  crunch Hrun.
  all: inversion Hrun; subst; clear Hrun; new_events.
  all: halted.
Qed.

Lemma _publish_drafts_halts (bundle : Bundle) :
  logged (halts_at settings) (_publish_drafts settings bundle).
Proof.
  unfold _publish_drafts.
  apply halts_bind; [ apply halts_perform; intros r; reflexivity | intros _ ].
  apply halts_bind; [ apply halts_perform; intros r; reflexivity | intros _ ].
  apply halts_bind; [ apply halts_pure; intros w; eexists; reflexivity | intros arts ].
  apply halts_bind; [ | intros _ ].
  { apply halts_for_each. intros a. apply publish_draft_halts. }
  apply halts_bind; [ apply halts_pure; intros w; eexists; reflexivity | intros imgs ].
  apply halts_bind; [ | intros _ ].
  { apply halts_for_each. intros i. apply halts_perform. intros r; reflexivity. }
  apply halts_bind; [ apply halts_pure; intros w; eexists; reflexivity | intros arts' ].
  apply halts_bind; [ | intros _ ].
  { apply halts_for_each. intros a. apply archive_halts. }
  apply halts_bind; [ apply halts_pure; intros w; eexists; reflexivity | intros imgs' ].
  apply halts_for_each. intros i. apply halts_perform. intros r; reflexivity.
Qed.

(** C5.  For the publish job of a bundle, with the requests its run of
    [_publish_drafts] adds to the log.  When none of them raises, the job
    ends well.  When one of them raises - the request fails, the stored
    version has no body, the draft copy announced is not given, a deletion
    or a change of status is refused - it is the last request of the run:
    no later step is run.  The job then ends with that exception; the
    stores are as the run left them and nothing more is asked of them; the
    decision rows are left; the bundle row is in ERROR with the text of
    the exception, not PUBLISHED; and queue admission is put on the
    queue. *)
Theorem publish_failure_is_recorded (pk : Z) (w : World Env) (b : Bundle) :
  find (fun r => b_pk r =? pk) (bundles w) = Some b ->
  let publishing := with_status b STATUS_PUBLISHING in
  let inner := _publish_drafts settings publishing (snd (Bundle_save publishing w)) in
  let run := publish_drafts settings pk w in
  exists evs,
    log (snd inner) = log w ++ evs
    /\ (Forall (fun e => publisher_raises settings e = None) evs -> fst run = Ok tt)
    /\ (Exists (fun e => publisher_raises settings e <> None) evs ->
        exists done bad e,
          evs = done ++ [bad]
          /\ Forall (fun e => publisher_raises settings e = None) done
          /\ publisher_raises settings bad = Some e
          /\ fst run = Raise e
          /\ remote (snd run) = remote (snd inner)
          /\ log (snd run) = log w ++ done ++ [bad]
          /\ articles (snd run) = articles w /\ images (snd run) = images w
          /\ jobs (snd run) = jobs w ++ [ProcessQueue]
          /\ (exists r, In r (bundles (snd run)) /\ b_pk r = pk)
          /\ forall r, In r (bundles (snd run)) -> b_pk r = pk ->
               b_status r = STATUS_ERROR
               /\ b_status r <> STATUS_PUBLISHED
               /\ b_error_message r = exn_text e).
Proof.
  intros Hfind publishing inner run.
  pose proof (find_some _ _ Hfind) as [Hin Hpk]. apply Z.eqb_eq in Hpk.
  set (w0 := snd (Bundle_save publishing w)) in *.
  destruct inner as [r1 w1] eqn:Hinner. subst inner.
  destruct (_publish_drafts_halts publishing _ _ _ Hinner) as (evs & Hlog & Hhalt).
  destruct (publish_run publishing _ _ _ Hinner)
    as (evs' & _ & (Ha & Hi & Hb & _ & Hj & _) & _).
  exists evs. split; [ exact Hlog | ].
  assert (Hrun : run
                 = match r1 with
                   | Ok _ =>
                       (Ok tt,
                        snd (delay ProcessQueue
                               (snd (Bundle_save
                                       (with_time_published
                                          (with_status publishing STATUS_PUBLISHED)
                                          (clock w1)) w1))))
                   | Raise e =>
                       (Raise e,
                        snd (delay ProcessQueue (snd (set_error publishing e w1))))
                   end).
  { unfold run, publish_drafts, bind, Bundle_get, try_except. rewrite Hfind.
    fold publishing. change (Bundle_save publishing w) with (Ok tt, w0).
    cbn iota. rewrite Hinner. destruct r1 as [[] | e]; reflexivity. }
  split.
  - intros Hnone. rewrite Hrun. destruct r1 as [u | e]; [ reflexivity | ].
    exfalso. cbn in Hhalt. destruct Hhalt as (done & bad & -> & _ & Hbad).
    apply Forall_app in Hnone. destruct Hnone as [_ Hnone].
    apply Forall_cons_iff in Hnone. destruct Hnone as [Hnone _]. congruence.
  - intros Hsome. destruct r1 as [u | e]; cbn in Hhalt.
    + exfalso. apply Exists_exists in Hsome. destruct Hsome as (x & Hx & Hraises).
      rewrite Forall_forall in Hhalt. now apply Hraises, Hhalt.
    + destruct Hhalt as (done & bad & -> & Hdone & Hbad).
      exists done, bad, e. rewrite Hrun. cbn [fst snd].
      unfold set_error, Bundle_save, delay. cbn.
      split; [ reflexivity | ]. split; [ exact Hdone | ]. split; [ exact Hbad | ].
      split; [ reflexivity | ]. split; [ reflexivity | ].
      split; [ exact Hlog | ]. split; [ exact Ha | ]. split; [ exact Hi | ].
      split; [ now rewrite Hj | ].
      rewrite Hb. unfold w0. cbn. split.
      * exists {| b_pk := b_pk b; b_easydita_id := b_easydita_id b;
                  b_easydita_resource_id := b_easydita_resource_id b;
                  b_status := STATUS_ERROR; b_time_queued := b_time_queued b;
                  b_time_processed := b_time_processed b;
                  b_time_published := b_time_published b;
                  b_error_message := exn_text e |}.
        split; [ | exact Hpk ].
        rewrite map_map. apply in_map_iff. exists b. split; [ | exact Hin ].
        cbn. rewrite !Z.eqb_refl. reflexivity.
      * intros r Hr Hrpk. apply in_map_iff in Hr.
        destruct Hr as (r0 & Hr0 & Hr0in). apply in_map_iff in Hr0in.
        destruct Hr0in as (r00 & Hr00 & _). cbn in Hr0, Hr00.
        destruct (b_pk r0 =? b_pk b) eqn:E.
        -- subst r. cbn. repeat split. discriminate.
        -- subst r. exfalso. apply Z.eqb_neq in E. apply E.
           destruct (b_pk r00 =? b_pk b) eqn:E'; subst r0; cbn in *; congruence.
Qed.

Lemma traces_mutate {A} (T : A -> list event -> Prop) (xs : list A)
    (ts : list (list event)) :
  (forall x t, T x t -> mutations t <> []) ->
  Forall2 T xs ts ->
  (mutations (List.concat ts) = [] <-> xs = []).
Proof.
  intros HT Hall. destruct Hall as [| x t xs ts Hx Hrest]; cbn.
  - tauto.
  - unfold mutations. rewrite filter_app. fold (mutations t).
    specialize (HT x t Hx). split; [ | discriminate ].
    intros Hnil. apply app_eq_nil in Hnil. tauto.
Qed.

Lemma no_records_iff {A} (p q : A -> bool) (l : list A) :
  (forall x, p x || q x = true) ->
  (filter p l = [] /\ filter q l = [] <-> l = []).
Proof.
  intros Hpq. destruct l as [| x l]; cbn.
  - tauto.
  - specialize (Hpq x). destruct (p x), (q x); cbn in *;
      try discriminate; split; intros; try tauto; try discriminate;
      destruct H1; discriminate.
Qed.

(** C7, as the code has it.  The publisher looks at no status: whatever
    the status of the bundle and the state of the stores, a run that
    completes has asked the stores for the mutations of every change
    record of the bundle.  It asked for none only when the bundle has no
    record. *)
Theorem republish_repeats_mutations (bundle : Bundle) (w w' : World Env) :
  _publish_drafts settings bundle w = (Ok tt, w') ->
  exists evs,
    log w' = log w ++ evs
    /\ publish_plan settings (b_pk bundle) w evs
    /\ (mutations evs = []
        <-> articles_of (b_pk bundle) (articles w) = []
            /\ images_of (b_pk bundle) (images w) = []).
Proof.
  intros Hrun.
  destruct (publish_run bundle _ _ _ Hrun) as (evs & Hlog & _ & _ & Ht & _).
  specialize (Ht eq_refl). exists evs. split; [ exact Hlog | ].
  split; [ exact Ht | ].
  destruct Ht as (ts1 & ts2 & ts3 & ts4 & -> & H1 & H2 & H3 & H4).
  apply traces_mutate in H1, H2, H3, H4.
  - unfold mutations in *. cbn [app filter is_mutation].
    rewrite !filter_app.
    rewrite <- (no_records_iff (fun a => staged (a_status a))
                  (fun a => Decision_eqb (a_status a) STATUS_DELETED)
                  (articles_of (b_pk bundle) (articles w))).
    + rewrite <- (no_records_iff (fun i => staged (i_status i))
                    (fun i => Decision_eqb (i_status i) STATUS_DELETED)
                    (images_of (b_pk bundle) (images w))).
      * unfold staged_articles, staged_images, deleted_articles,
          deleted_images in *.
        split.
        -- intros Hnil.
           apply app_eq_nil in Hnil. destruct Hnil as [Hn1 Hnil].
           apply app_eq_nil in Hnil. destruct Hnil as [Hn2 Hnil].
           apply app_eq_nil in Hnil. destruct Hnil as [Hn3 Hn4].
           tauto.
        -- intros [[Ha Hd] [Hi Hdi]].
           apply H1 in Ha. apply H2 in Hi. apply H3 in Hd. apply H4 in Hdi.
           now rewrite Ha, Hi, Hd, Hdi.
      * intros i. now destruct (i_status i).
    + intros a. now destruct (a_status a).
  - intros i t ->. discriminate.
  - intros a t (res & [(_ & d & rest & _ & ->) | (_ & ->)]); discriminate.
  - intros i t ->. discriminate.
  - intros a t (kav & body & code & data & _ & _ & _ & _ & _ & ->). discriminate.
Qed.

End Publisher.

Section Instances4.

#[local] Existing Instance Fake.str.

(** The staged bundle of the example is published.  The log shows, in
    this order: the stored body of [kav1] read, the body pushed with its
    links rewritten, [kav1] put online; the image copied; the draft copy
    of [old-page] deleted and its online version archived; the image
    deleted. *)
Lemma publish_order_witness :
  let w := Fake.drafted in
  let run := _publish_drafts Fake.settings (Fake.publishing_bundle w) w in
  fst run = Ok tt
  /\ exists evs,
       log (snd run) = log w ++ evs
       /\ ordered_from 1 evs
       /\ publish_plan Fake.settings 1 w evs
       /\ bundle_records 1 w
       /\ evs
          = [Ev SalesforceLogin (Ok tt); Ev S3Connect (Ok tt);
             Ev (KavGet "kav1")
               (Ok [("UrlName", "faq"); ("Title", "FAQ, second edition");
                    ("Body", "<p>text</p>")]);
             Ev (KavUpdate "kav1" [("Body", "production:<p>text</p>")]) (Ok 204);
             Ev (PatchPublishStatus "kav1" "online") (Ok 204);
             Ev (S3CopyToProduction "logo.png") (Ok tt);
             Ev (Query (DraftOfArticle "kaB"))
               (Ok {| totalSize := 1;
                      records := [{| Id := "kavBd"; KnowledgeArticleId := "kaB";
                                     Title := "Old page, revised";
                                     UrlName := "old-page" |}] |});
             Ev (DeleteMasterVersion "kavBd") (Ok 204);
             Ev (PatchPublishStatus "kavB" "archived") (Ok 204);
             Ev (S3Delete "old.png") (Ok tt)].
Proof.
  intros w run.
  assert (Hok : fst run = Ok tt) by (vm_compute; reflexivity).
  split; [ exact Hok | ].
  destruct (@publish_order Fake.Store Fake.store_remote Fake.html_ops
              Fake.settings (Fake.publishing_bundle w) w (snd run) (fst run)
              (surjective_pairing run))
    as (evs & Hlog & Hord & Hplan & _ & Hrecords).
  exists evs. split; [ exact Hlog | ]. split; [ exact Hord | ].
  split; [ exact (Hplan Hok) | ]. split; [ exact Hrecords | ].
  assert (Hevs : evs = skipn (List.length (log w)) (log (snd run))).
  { rewrite Hlog, skipn_app, skipn_all, Nat.sub_diag. reflexivity. }
  rewrite Hevs. vm_compute. reflexivity.
Defined.

(** The store has lost the published version of [old-page].  The article
    is put online, the image copied and the draft copy of [old-page]
    deleted; then the change of status is refused.  The run stops there:
    [old.png] is not deleted; [kav1] stays online and the draft copy stays
    deleted; the bundle is in ERROR and admission is queued. *)
Lemma publish_failure_is_recorded_witness :
  let w := Fake.broken in
  let run := publish_drafts Fake.settings 1 w in
  let failure :=
    SalesforceError
      "Error setting status=archived for KnowledgeArticleVersion (ID=kavB)" in
  fst run = Raise failure
  /\ log (snd run)
     = [Ev SalesforceLogin (Ok tt); Ev S3Connect (Ok tt);
        Ev (KavGet "kav1")
          (Ok [("UrlName", "faq"); ("Title", "FAQ, second edition");
               ("Body", "<p>text</p>")]);
        Ev (KavUpdate "kav1" [("Body", "production:<p>text</p>")]) (Ok 204);
        Ev (PatchPublishStatus "kav1" "online") (Ok 204);
        Ev (S3CopyToProduction "logo.png") (Ok tt);
        Ev (Query (DraftOfArticle "kaB"))
          (Ok {| totalSize := 1;
                 records := [{| Id := "kavBd"; KnowledgeArticleId := "kaB";
                                Title := "Old page, revised";
                                UrlName := "old-page" |}] |});
        Ev (DeleteMasterVersion "kavBd") (Ok 204);
        Ev (PatchPublishStatus "kavB" "archived") (Ok 404)]
  /\ map (fun v => (Id (Fake.v_kav v), Fake.v_status v))
       (Fake.versions (remote (snd run)))
     = [("kavA", "archived"); ("kav1", "online")]
  /\ Fake.s3_keys (remote (snd run)) = ["logo.png"; "old.png"; "draft/logo.png"]
  /\ map b_status (bundles (snd run)) = [STATUS_ERROR]
  /\ map b_error_message (bundles (snd run))
     = ["Error setting status=archived for KnowledgeArticleVersion (ID=kavB)"]
  /\ jobs (snd run) = [ProcessQueue].
Proof.
  intros w run failure.
  pose (b := {| b_pk := 1; b_easydita_id := Py.JStr "uuid1";
                b_easydita_resource_id := Py.JNull; b_status := STATUS_DRAFT;
                b_time_queued := 5; b_time_processed := Some 100;
                b_time_published := None; b_error_message := "" |}).
  assert (Hfind : find (fun r => b_pk r =? 1) (bundles w) = Some b)
    by (vm_compute; reflexivity).
  destruct (@publish_failure_is_recorded Fake.Store Fake.store_remote
              Fake.html_ops Fake.settings 1 w b Hfind)
    as (evs & Hlog & _ & Hfail).
  change (log w) with (@nil event) in Hlog. cbn [app] in Hlog.
  assert (Hsome : Exists (fun e => publisher_raises Fake.settings e <> None) evs).
  { rewrite <- Hlog. vm_compute.
    do 8 apply Exists_cons_tl. apply Exists_cons_hd. discriminate. }
  destruct (Hfail Hsome)
    as (done & bad & e & _ & _ & _ & Hr & _ & _ & _ & _ & Hjobs & _ & _).
  assert (He : Raise e = Raise failure :> Result unit)
    by (rewrite <- Hr; vm_compute; reflexivity).
  injection He as ->.
  split; [ exact Hr | ].
  split; [ vm_compute; reflexivity | ].
  split; [ vm_compute; reflexivity | ].
  split; [ vm_compute; reflexivity | ].
  split; [ vm_compute; reflexivity | ].
  split; [ vm_compute; reflexivity | ].
  exact Hjobs.
Defined.

(** The example bundle, published, is published once more. *)
Lemma republish_repeats_mutations_witness :
  let w := Fake.republished in
  let run := _publish_drafts Fake.settings (Fake.publishing_bundle w) w in
  map b_status (bundles w) = [STATUS_PUBLISHED]
  /\ fst run = Ok tt
  /\ exists evs,
       log (snd run) = log w ++ evs
       /\ publish_plan Fake.settings 1 w evs
       /\ mutations evs <> [].
Proof.
  intros w run.
  assert (Hok : run = (Ok tt, snd run)) by (vm_compute; reflexivity).
  split; [ vm_compute; reflexivity | ].
  split; [ now rewrite Hok | ].
  destruct (@republish_repeats_mutations Fake.Store Fake.store_remote
              Fake.html_ops Fake.settings (Fake.publishing_bundle w) w (snd run)
              Hok)
    as (evs & Hlog & Hplan & Hnone).
  exists evs. split; [ exact Hlog | ]. split; [ exact Hplan | ].
  intros Hnil. apply Hnone in Hnil. destruct Hnil as [Harts _].
  vm_compute in Harts. discriminate.
Defined.

(** C7 as stated fails: the bundle is PUBLISHED, every target status
    already matches, and the publisher run again asks for five
    mutations. *)
Lemma republish_counterexample :
  let w := Fake.republished in
  let run := _publish_drafts Fake.settings (Fake.publishing_bundle w) w in
  map b_status (bundles w) = [STATUS_PUBLISHED]
  /\ map Fake.v_status (Fake.versions (remote w)) = ["archived"; "archived"; "online"]
  /\ fst run = Ok tt
  /\ List.length (mutations (skipn (List.length (log w)) (log (snd run)))) = 5%nat.
Proof.
  intros w run. repeat split; vm_compute; reflexivity.
Qed.

End Instances4.

(** ** Queue admission *)





Section Admission.

Context {Env : Type} `{Remote Env}.
Variable settings : Settings.


End Admission.

Section Instances5.

#[local] Existing Instance Fake.str.


End Instances5.

(** ** Webhooks *)

Lemma json_getitem_some {Env} (v x : Py.json) (k : string) (w : World Env) :
  json_get v k = Some x -> json_getitem v k w = (Ok x, w).
Proof.
  destruct v; cbn; try discriminate.
  unfold getitem. now intros ->.
Qed.

Lemma find_saved (x : Webhook) (k : Z) (l : list Webhook) (h : Webhook) :
  find (fun r => w_pk r =? k) l = Some h ->
  w_pk x = k ->
  find (fun r => w_pk r =? k) (map (fun r => if w_pk r =? k then x else r) l)
  = Some x.
Proof.
  intros Hf Hk. induction l as [| r l IH]; cbn in *; [ discriminate | ].
  destruct (w_pk r =? k) eqn:E; cbn.
  - now rewrite Hk, Z.eqb_refl.
  - rewrite E. now apply IH.
Qed.

Lemma find_saved_twice (x : Webhook) (k : Z) (l : list Webhook) (h : Webhook) :
  find (fun r => w_pk r =? k) l = Some h ->
  w_pk x = k ->
  find (fun r => w_pk r =? k)
    (map (fun r => if w_pk r =? k then x else r)
       (map (fun r => if w_pk r =? k then x else r) l))
  = Some x.
Proof.
  intros Hf Hk. apply (find_saved x k _ x); [ | exact Hk ].
  now apply (find_saved x k l h).
Qed.

Lemma find_saved_bundle (y : Bundle) (l : list Bundle) :
  (exists b, In b l /\ b_pk b = b_pk y) ->
  find (fun r => b_pk r =? b_pk y)
    (map (fun r => if b_pk r =? b_pk y then y else r) l) = Some y.
Proof.
  induction l as [| r l IH]; cbn.
  - intros (b & [] & _).
  - intros (b & [<- | Hin] & Hpk).
    + rewrite Hpk, Z.eqb_refl. cbn. now rewrite Z.eqb_refl.
    + destruct (b_pk r =? b_pk y) eqn:E; cbn.
      * now rewrite Z.eqb_refl.
      * rewrite E. apply IH. now exists b.
Qed.

Section WebhookAdmission.

Context {Env : Type}.
Variable loads : string -> Result Py.json.

(** C6, as the code has it.  A notification that carries the event id,
    the event data and the outcome.  When it does not report the success
    of dita-ot-publish-complete it is rejected: the webhook is marked so,
    and neither the bundle table nor the queue moves.  When it does, and
    carries the source id and the resource id, it is accepted exactly when
    no bundle with the source id is in flight - none exists, or the one
    that exists is PUBLISHED or ERROR: the webhook is marked accepted, the
    bundle - created, as one more row, or reused - is QUEUED with the
    current time, and queue admission is put on the queue; with a bundle
    in flight it is rejected and nothing else moves.  When it reports
    success and lacks the source id or the resource id, it is neither
    accepted nor rejected: the job ends on a KeyError and nothing has
    moved. *)
Theorem webhook_admission (pk : Z) (w : World Env) (hook : Webhook)
    (data event_id event_data publish_result : Py.json) :
  find (fun x => w_pk x =? pk) (webhooks w) = Some hook ->
  loads (w_body hook) = Ok data ->
  json_get data "event_id" = Some event_id ->
  json_get data "event_data" = Some event_data ->
  json_get event_data "publish-result" = Some publish_result ->
  let run := process_webhook loads pk w in
  if Py.eq_str event_id "dita-ot-publish-complete"
     && Py.eq_str publish_result "success" then
    match json_get event_data "output-uuid", json_get data "resource_id" with
    | Some output_uuid, Some resource_id =>
        let bundle := target_bundle output_uuid resource_id (bundles w) (clock w) in
        if in_flight output_uuid (bundles w) then
          fst run = Ok tt
          /\ find (fun x => w_pk x =? pk) (webhooks (snd run))
             = Some (resolve hook (Some (b_pk bundle)) STATUS_REJECTED)
          /\ bundles (snd run) = bundles w /\ jobs (snd run) = jobs w
        else
          fst run = Ok tt
          /\ find (fun x => w_pk x =? pk) (webhooks (snd run))
             = Some (resolve hook (Some (b_pk bundle)) STATUS_ACCEPTED)
          /\ (exists row,
                find (fun r => b_pk r =? b_pk bundle) (bundles (snd run)) = Some row
                /\ b_status row = STATUS_QUEUED
                /\ b_time_queued row = clock w
                /\ b_easydita_id row = b_easydita_id bundle
                /\ b_easydita_resource_id row = b_easydita_resource_id bundle)
          /\ map b_pk (bundles (snd run))
             = map b_pk (bundles w)
               ++ match bundle_for output_uuid (bundles w) with
                  | Some _ => []
                  | None => [b_pk bundle]
                  end
          /\ jobs (snd run) = jobs w ++ [ProcessQueue]
    | None, _ => run = (Raise (KeyError "output-uuid"), w)
    | Some _, None => run = (Raise (KeyError "resource_id"), w)
    end
  else
    fst run = Ok tt
    /\ find (fun x => w_pk x =? pk) (webhooks (snd run))
       = Some (resolve hook (w_bundle hook) STATUS_REJECTED)
    /\ bundles (snd run) = bundles w /\ jobs (snd run) = jobs w.
Proof.
  intros Hfind Hloads Hev Hed Hres run.
  pose proof (find_some _ _ Hfind) as [_ Hpk]. apply Z.eqb_eq in Hpk.
  assert (Hsaved_map : forall (y : Bundle) (l : list Bundle),
            map b_pk (map (fun r => if b_pk r =? b_pk y then y else r) l) = map b_pk l).
  { intros y l. rewrite map_map. apply map_ext. intros r.
    destruct (Z.eqb_spec (b_pk r) (b_pk y)) as [Heq | _]; [ now symmetry | reflexivity ]. }
  destruct data as [| | | | | items]; try discriminate.
  destruct event_data as [| | | | | fields]; try discriminate.
  cbn [json_get] in Hev, Hed, Hres |- *.
  assert (Hrun : run = process_webhook loads pk w) by reflexivity.
  clearbody run.
  unfold process_webhook, bind, Webhook_get in Hrun. rewrite Hfind in Hrun.
  unfold json_loads in Hrun. rewrite Hloads in Hrun.
  unfold dita_ot_success, bind, json_getitem, getitem, ret, raise in Hrun.
  rewrite Hev, Hed in Hrun. cbv beta iota in Hrun.
  destruct (Py.eq_str event_id "dita-ot-publish-complete") eqn:E1; cbn [andb].
  - cbv beta iota in Hrun. rewrite Hres in Hrun. cbv beta iota in Hrun.
    destruct (Py.eq_str publish_result "success") eqn:E2.
    + cbv beta iota in Hrun.
      destruct (Py.dict_get fields "output-uuid") as [output_uuid |];
        [ | exact Hrun ].
      cbv beta iota in Hrun.
      destruct (Py.dict_get items "resource_id") as [resource_id |];
        [ | exact Hrun ].
      cbv beta iota in Hrun.
      unfold Bundle_get_or_create in Hrun. unfold in_flight, target_bundle.
      destruct (bundle_for output_uuid (bundles w)) as [b |] eqn:E3.
      * cbn [orb] in Hrun. destruct (is_complete b) eqn:E4; cbn [negb].
        -- subst run. cbn. pose proof (find_some _ _ E3) as [Hin _].
           split; [ reflexivity | ]. split; [ | split; [ | split ] ].
           ++ rewrite Hpk.
              apply (find_saved_twice (resolve hook (Some (b_pk b)) STATUS_ACCEPTED)
                       pk _ hook Hfind Hpk).
           ++ exists (with_queued b (clock w)).
              split; [ | repeat split ].
              apply (find_saved_bundle (with_queued b (clock w))). now exists b.
           ++ rewrite app_nil_r. apply (Hsaved_map (with_queued b (clock w))).
           ++ reflexivity.
        -- subst run. cbn. split; [ reflexivity | ]. split; [ | split; reflexivity ].
           rewrite Hpk.
           apply (find_saved (resolve hook (Some (b_pk b)) STATUS_REJECTED)
                    pk _ hook Hfind Hpk).
      * cbn [orb negb] in Hrun |- *. subst run. cbn.
        split; [ reflexivity | ]. split; [ | split; [ | split ] ].
        -- rewrite Hpk.
           apply (find_saved_twice
                    (resolve hook (Some (next_pk (bundles w))) STATUS_ACCEPTED)
                    pk _ hook Hfind Hpk).
        -- exists (with_queued (new_bundle output_uuid resource_id (bundles w) (clock w))
                     (clock w)).
           split; [ | repeat split ].
           apply (find_saved_bundle
                    (with_queued (new_bundle output_uuid resource_id (bundles w) (clock w))
                       (clock w))).
           exists (new_bundle output_uuid resource_id (bundles w) (clock w)).
           split; [ apply in_or_app; right; now left | reflexivity ].
        -- rewrite (Hsaved_map
                      (with_queued (new_bundle output_uuid resource_id (bundles w) (clock w))
                         (clock w))).
           rewrite map_app. reflexivity.
        -- reflexivity.
    + subst run. cbn. split; [ reflexivity | ]. split; [ | split; reflexivity ].
      rewrite Hpk.
      apply (find_saved (resolve hook (w_bundle hook) STATUS_REJECTED)
               pk _ hook Hfind Hpk).
  - subst run. cbn. split; [ reflexivity | ]. split; [ | split; reflexivity ].
    rewrite Hpk.
    apply (find_saved (resolve hook (w_bundle hook) STATUS_REJECTED)
             pk _ hook Hfind Hpk).
Qed.

(** C9, as the code has it.  A payload that carries the event id, and the
    outcome when the event is dita-ot-publish-complete, and does not
    report success, is rejected with the status recorded.  A payload
    without the event id is not rejected: the job ends on a KeyError
    (a TypeError when the payload is not an object) and the webhook is
    left as it was. *)
Theorem webhook_payload_shape (pk : Z) (w : World Env) (hook : Webhook)
    (data : Py.json) :
  find (fun x => w_pk x =? pk) (webhooks w) = Some hook ->
  loads (w_body hook) = Ok data ->
  (forall event_id,
     json_get data "event_id" = Some event_id ->
     Py.eq_str event_id "dita-ot-publish-complete" = false
     \/ (exists event_data publish_result,
           json_get data "event_data" = Some event_data
           /\ json_get event_data "publish-result" = Some publish_result
           /\ Py.eq_str publish_result "success" = false) ->
     exists w',
       process_webhook loads pk w = (Ok tt, w')
       /\ find (fun x => w_pk x =? pk) (webhooks w')
          = Some (resolve hook (w_bundle hook) STATUS_REJECTED)
       /\ bundles w' = bundles w /\ jobs w' = jobs w)
  /\ (json_get data "event_id" = None ->
      process_webhook loads pk w
      = (Raise (match data with
                | Py.JObj _ => KeyError "event_id"
                | _ => TypeError
                end), w)).
Proof.
  intros Hfind Hloads.
  pose proof (find_some _ _ Hfind) as [_ Hpk]. apply Z.eqb_eq in Hpk.
  split.
  - intros event_id Hev Hnot.
    unfold process_webhook, bind, Webhook_get. rewrite Hfind.
    unfold json_loads. rewrite Hloads.
    unfold dita_ot_success, bind.
    rewrite (json_getitem_some _ _ _ _ Hev).
    destruct (Py.eq_str event_id "dita-ot-publish-complete") eqn:E1.
    + destruct Hnot as [Hne | (event_data & publish_result & Hed & Hres & Hfail)];
        [ discriminate | ].
      rewrite (json_getitem_some _ _ _ _ Hed), (json_getitem_some _ _ _ _ Hres).
      unfold ret at 1. rewrite Hfail.
      eexists. split; [ reflexivity | ]. cbn.
      split; [ | split; reflexivity ].
      rewrite Hpk.
      apply (find_saved (resolve hook (w_bundle hook) STATUS_REJECTED)
               pk _ hook Hfind Hpk).
    + unfold ret at 1. eexists. split; [ reflexivity | ]. cbn.
      split; [ | split; reflexivity ].
      rewrite Hpk.
      apply (find_saved (resolve hook (w_bundle hook) STATUS_REJECTED)
               pk _ hook Hfind Hpk).
  - intros Hnone.
    unfold process_webhook, bind, Webhook_get. rewrite Hfind.
    unfold json_loads. rewrite Hloads.
    unfold dita_ot_success, bind, json_getitem, getitem.
    destruct data; cbn in *; try reflexivity.
    now rewrite Hnone.
Qed.

End WebhookAdmission.

Section Instances6.

#[local] Existing Instance Fake.str.

(** A notification for the source id of bundle 1, which has been
    published: accepted, the bundle is reused and QUEUED with the current
    time, no row is added, admission is queued. *)
Lemma webhook_admission_witness :
  let w := Fake.renotified "complete, success, published before" in
  let run := process_webhook Fake.loads 1 w in
  map b_status (bundles w) = [STATUS_PUBLISHED]
  /\ fst run = Ok tt
  /\ map w_status (webhooks (snd run)) = [Some STATUS_ACCEPTED]
  /\ map w_bundle (webhooks (snd run)) = [Some 1]
  /\ map b_status (bundles (snd run)) = [STATUS_QUEUED]
  /\ map b_time_queued (bundles (snd run)) = [300]
  /\ jobs (snd run) = [ProcessQueue].
Proof.
  intros w run.
  pose proof (@webhook_admission Fake.Store Fake.loads 1 w
                {| w_pk := 1; w_body := "complete, success, published before";
                   w_status := None; w_bundle := None |}
                (Fake.payload "dita-ot-publish-complete" "success" "uuid1")
                (Py.JStr "dita-ot-publish-complete")
                (Py.JObj [("publish-result", Py.JStr "success");
                          ("output-uuid", Py.JStr "uuid1")])
                (Py.JStr "success")
                eq_refl eq_refl eq_refl eq_refl eq_refl)
    as Hadmit.
  cbv zeta in Hadmit.
  change (Py.eq_str (Py.JStr "dita-ot-publish-complete") "dita-ot-publish-complete"
          && Py.eq_str (Py.JStr "success") "success") with true in Hadmit.
  cbv iota in Hadmit.
  change (json_get (Py.JObj [("publish-result", Py.JStr "success");
                             ("output-uuid", Py.JStr "uuid1")]) "output-uuid")
    with (Some (Py.JStr "uuid1")) in Hadmit.
  change (json_get (Fake.payload "dita-ot-publish-complete" "success" "uuid1")
            "resource_id")
    with (Some (Py.JStr "r1")) in Hadmit.
  cbv iota in Hadmit.
  change (in_flight (Py.JStr "uuid1") (bundles w)) with false in Hadmit.
  cbv iota in Hadmit.
  destruct Hadmit as (Hok & _ & _ & _ & Hjobs).
  split; [ vm_compute; reflexivity | ].
  split; [ exact Hok | ].
  split; [ vm_compute; reflexivity | ].
  split; [ vm_compute; reflexivity | ].
  split; [ vm_compute; reflexivity | ].
  split; [ vm_compute; reflexivity | ].
  exact Hjobs.
Defined.

(** C6 as stated fails: the notification reports the success of
    dita-ot-publish-complete for a source id that no bundle carries, and
    has no resource id.  It is not accepted, and it is not rejected
    either: the job ends on a KeyError, the webhook is not marked, no
    bundle is created and nothing is queued. *)
Lemma webhook_admission_counterexample :
  let w := Fake.notified "complete, success, no resource" in
  let run := process_webhook Fake.loads 1 w in
  Fake.loads "complete, success, no resource"
  = Ok (Py.JObj [("event_id", Py.JStr "dita-ot-publish-complete");
                 ("event_data", Py.JObj [("publish-result", Py.JStr "success");
                                         ("output-uuid", Py.JStr "uuid2")])])
  /\ bundle_for (Py.JStr "uuid2") (bundles w) = None
  /\ fst run = Raise (KeyError "resource_id")
  /\ map w_status (webhooks (snd run)) = [None]
  /\ bundles (snd run) = bundles w
  /\ jobs (snd run) = [].
Proof.
  intros w run. repeat split; vm_compute; reflexivity.
Qed.

(** A failed publish: rejected, nothing else moves. *)
Lemma webhook_payload_shape_witness :
  let w := Fake.notified "complete, failure" in
  let run := process_webhook Fake.loads 1 w in
  fst run = Ok tt
  /\ map w_status (webhooks (snd run)) = [Some STATUS_REJECTED]
  /\ bundles (snd run) = bundles w.
Proof.
  intros w run.
  destruct (@webhook_payload_shape Fake.Store Fake.loads 1 w
              {| w_pk := 1; w_body := "complete, failure";
                 w_status := None; w_bundle := None |}
              (Fake.payload "dita-ot-publish-complete" "failure" "uuid2")
              eq_refl eq_refl)
    as [Hreject _].
  destruct (Hreject (Py.JStr "dita-ot-publish-complete") eq_refl
              (or_intror
                 (ex_intro _ (Py.JObj [("publish-result", Py.JStr "failure");
                                       ("output-uuid", Py.JStr "uuid2")])
                    (ex_intro _ (Py.JStr "failure")
                       (conj eq_refl (conj eq_refl eq_refl))))))
    as (w' & Hrun & _ & Hbundles & _).
  split; [ unfold run; rewrite Hrun; reflexivity | ].
  split; [ vm_compute; reflexivity | ].
  unfold run. rewrite Hrun. exact Hbundles.
Defined.

(** C9 as stated fails: the payload of the view test carries a resource
    id only; the job ends on a KeyError and the webhook is not marked. *)
Lemma webhook_payload_shape_counterexample :
  let w := Fake.notified "resource only" in
  let run := process_webhook Fake.loads 1 w in
  Fake.loads "resource only" = Ok (Py.JObj [("resource_id", Py.JNum 1)])
  /\ fst run = Raise (KeyError "event_id")
  /\ map w_status (webhooks (snd run)) = [None].
Proof.
  intros w run. repeat split; vm_compute; reflexivity.
Qed.

End Instances6.

(** * Further properties of the code *)

Section ArticleStore.

Context {Env : Type} `{Remote Env} `{HtmlOps} {py_str : Py.Str}.
Variable settings : Settings.

(** [save_article] writes a row only when the lookup of the draft by its
    id finds exactly one row.  With no row it raises the "not found" store
    error; with several, [get_ka_id] falls off its [elif] and returns
    [None], and the slice [ka_id[:15]] in [get_preview_url] raises a
    TypeError.  The row carries the article id of the row found, and the
    preview address built from its first fifteen characters. *)
Theorem save_article_needs_one_draft (kav_id : string) (html : HTML)
    (bundle : Z) (status : Decision) (w : World Env) :
  let run := save_article settings kav_id html bundle status w in
  match respond (Query (ById kav_id "draft")) (remote w) with
  | (Raise e, _) => fst run = Raise e /\ articles (snd run) = articles w
  | (Ok res, _) =>
      if totalSize res =? 0 then
        fst run = Raise (SalesforceError
                           ("KnowledgeArticleVersion " ++ kav_id ++ " not found")%string)
        /\ articles (snd run) = articles w
      else if totalSize res =? 1 then
        match records res with
        | [] => fst run = Raise IndexError /\ articles (snd run) = articles w
        | found :: _ =>
            fst run = Ok tt
            /\ articles (snd run)
               = articles w
                 ++ [{| a_bundle := bundle;
                        a_ka_id := KnowledgeArticleId found;
                        a_kav_id := kav_id;
                        a_preview_url :=
                          (get_base_url settings
                           ++ "/knowledge/publishing/articlePreview.apexp?id="
                           ++ Py.take 15 (KnowledgeArticleId found))%string;
                        a_status := status;
                        a_title := title html;
                        a_url_name := url_name html |}]
        end
      else fst run = Raise TypeError /\ articles (snd run) = articles w
  end.
Proof.
  intros run. subst run.
  unfold save_article, get_ka_id, get_preview_url, index0, Article_create.
  unfold bind, perform, ret, raise.
  destruct (respond (Query (ById kav_id "draft")) (remote w)) as [[res | e] env];
    cbn; [ | split; reflexivity ].
  destruct (totalSize res =? 0); cbn; [ split; reflexivity | ].
  destruct (totalSize res =? 1); cbn; [ | split; reflexivity ].
  destruct (records res); cbn; split; reflexivity.
Qed.

(** Staging an article never deletes a version, never changes a publish
    status and never touches the object store: it sends queries, and
    creates or updates drafts.  It leaves the other tables alone, and it
    writes an [Article] row only when it ends well - then exactly one,
    for this bundle and document, with decision NEW or CHANGED. *)
Theorem process_article_requests (html : HTML) (bundle : Z) (w : World Env) :
  let run := process_article settings html bundle w in
  exists evs,
    log (snd run) = log w ++ evs
    /\ Forall (fun e => staging_request e = true) evs
    /\ staging w (snd run) /\ images (snd run) = images w
    /\ (articles (snd run) = articles w
        \/ exists a,
             fst run = Ok tt
             /\ articles (snd run) = articles w ++ [a]
             /\ staged (a_status a) = true
             /\ a_bundle a = bundle /\ a_url_name a = url_name html
             /\ a_title a = title html).
Proof.
  intros run. destruct run as [r w'] eqn:Hrun. subst run. cbn [fst snd].
  unfold process_article, query_articles, update_draft, save_article,
    create_article, create_draft, get_ka_id, get_preview_url, index0,
    Article_create in Hrun.
  unfold bind, perform, ret, raise in Hrun. cbn in Hrun.
  crunch Hrun.
  all: inversion Hrun; subst; clear Hrun; new_events.
  all: split; [ repeat constructor | ].
  all: split; [ repeat split | ]; split; [ reflexivity | ].
  all: cbn; try (left; reflexivity).
  all: right; eexists; split; [ reflexivity | ]; split; [ reflexivity | ].
  all: cbn; repeat split; reflexivity.
Qed.

(** [archive] asks for the online version to be archived only once the
    draft copy is out of the way: no deletion is requested after the
    change of status, and when the deletion of the draft is refused - the
    request fails, or its answer is not 204 - no change of status is
    requested.  It asks for at most one deletion, it leaves the tables
    alone, and it ends well exactly when the change of status to archived
    was accepted. *)
Theorem archive_deletes_draft_first (ka_id kav_id : string) (w : World Env) :
  let run := archive ka_id kav_id w in
  exists evs,
    log (snd run) = log w ++ evs
    /\ quiet w (snd run)
    /\ (List.length (filter is_delete evs) <= 1)%nat
    /\ none_after is_delete (is_status_patch kav_id "archived") evs = true
    /\ (existsb delete_refused evs = true ->
        existsb (is_status_patch kav_id "archived") evs = false)
    /\ (fst run = Ok tt
        <-> existsb (status_patch_accepted kav_id "archived") evs = true).
Proof.
  intros run. destruct run as [r w'] eqn:Hrun. subst run. cbn [fst snd].
  unfold archive, delete, set_publish_status, index0 in Hrun.
  unfold bind, perform, ret, raise in Hrun. cbn in Hrun.
  crunch Hrun.
  all: inversion Hrun; subst; clear Hrun; new_events.
  all: split; [ repeat split | ].
  all: cbn; unfold answered; rewrite ?String.eqb_refl; cbn.
  all: repeat match goal with
         | E : (_ =? NO_CONTENT) = _ |- _ => rewrite E
         end; cbn.
  all: split; [ lia | ].
  all: split; [ reflexivity | ].
  all: split; [ intros Hd; try discriminate; reflexivity | ].
  all: split; intros Hx; try discriminate; try reflexivity.
Qed.

(** [publish_draft] puts a version online only after it has pushed the
    body: a run without the push of the body changes nothing in the
    store, and a request to change the status to online comes after the
    push of the body.  The status code of the push is not looked
    at: once the push is answered, whatever the code, the change of
    status is requested.  The call leaves the tables alone, and it ends
    well exactly when the change of status was accepted. *)
Theorem publish_draft_pushes_body_first (kav_id : string) (w : World Env) :
  let run := publish_draft settings kav_id w in
  exists evs,
    log (snd run) = log w ++ evs
    /\ quiet w (snd run)
    /\ (existsb (is_body_push kav_id) evs = false -> mutations evs = [])
    /\ comes_first (is_body_push kav_id) (is_status_patch kav_id "online") evs = true
    /\ (existsb body_push_answered evs = true ->
        existsb (is_status_patch kav_id "online") evs = true)
    /\ (fst run = Ok tt
        <-> existsb (status_patch_accepted kav_id "online") evs = true).
Proof.
  intros run. destruct run as [r w'] eqn:Hrun. subst run. cbn [fst snd].
  unfold publish_draft, set_publish_status, getitem in Hrun.
  unfold bind, perform, ret, raise in Hrun. cbn in Hrun.
  crunch Hrun.
  all: inversion Hrun; subst; clear Hrun; new_events.
  all: split; [ repeat split | ].
  all: cbn; unfold answered; rewrite ?String.eqb_refl; cbn.
  all: repeat match goal with
         | E : (_ =? NO_CONTENT) = _ |- _ => rewrite E
         end; cbn.
  all: split; [ intros Hd; try discriminate; reflexivity | ].
  all: split; [ reflexivity | ].
  all: split; [ intros Hd; try discriminate; reflexivity | ].
  all: split; intros Hx; try discriminate; try reflexivity.
Qed.

(** The data [publish_draft] pushes: the body under the body field, the
    body again under the text index field when one is configured, and
    nothing else. *)
Theorem publish_data_fields (body : string) :
  Py.dict_get (publish_data settings body) (SALESFORCE_ARTICLE_BODY_FIELD settings)
    = Some body
  /\ (forall field,
        SALESFORCE_ARTICLE_TEXT_INDEX_FIELD settings = Some field ->
        Py.dict_get (publish_data settings body) field = Some body)
  /\ (forall k v,
        Py.dict_get (publish_data settings body) k = Some v ->
        v = body
        /\ (k = SALESFORCE_ARTICLE_BODY_FIELD settings
            \/ SALESFORCE_ARTICLE_TEXT_INDEX_FIELD settings = Some k)).
Proof.
  unfold publish_data.
  destruct (SALESFORCE_ARTICLE_TEXT_INDEX_FIELD settings) as [field |].
  - split; [ | split ].
    + rewrite dict_get_set. cbn. rewrite String.eqb_refl.
      now destruct (String.eqb _ field).
    + intros f [= <-]. rewrite dict_get_set. now rewrite String.eqb_refl.
    + intros k v. rewrite dict_get_set. cbn.
      destruct (String.eqb_spec k field) as [-> | Hne].
      * intros [= <-]. split; [ reflexivity | now right ].
      * destruct (String.eqb_spec k (SALESFORCE_ARTICLE_BODY_FIELD settings))
          as [-> | Hne']; [ | discriminate ].
        intros [= <-]. split; [ reflexivity | now left ].
  - cbn. rewrite String.eqb_refl. split; [ reflexivity | ].
    split; [ discriminate | ].
    intros k v.
    destruct (String.eqb_spec k (SALESFORCE_ARTICLE_BODY_FIELD settings))
      as [-> | Hne]; [ | discriminate ].
    intros [= <-]. split; [ reflexivity | now left ].
Qed.

End ArticleStore.

(** ** The messages do not depend on the order of enumeration *)

(** A sorted list is determined by its elements. *)
Lemma sorted_unique (l l' : list string) :
  StronglySorted str_le l -> StronglySorted str_le l' -> Permutation l l' ->
  l = l'.
Proof.
  revert l'. induction l as [| x l IH]; intros l' Hs Hs' Hp.
  - apply Permutation_nil in Hp. now subst.
  - destruct l' as [| y l'];
      [ apply Permutation_sym, Permutation_nil in Hp; discriminate | ].
    apply StronglySorted_inv in Hs. destruct Hs as [Hl Hx].
    apply StronglySorted_inv in Hs'. destruct Hs' as [Hl' Hy].
    rewrite Forall_forall in Hx, Hy.
    assert (Hxy : x = y).
    { pose proof (Permutation_in x Hp (or_introl eq_refl)) as Hin.
      pose proof (Permutation_in y (Permutation_sym Hp) (or_introl eq_refl)) as Hin'.
      destruct Hin as [Heq | Hin]; [ now symmetry | ].
      destruct Hin' as [Heq | Hin']; [ exact Heq | ].
      apply String.leb_antisym; [ now apply Hx | now apply Hy ]. }
    subst y. f_equal. apply IH; try assumption.
    now apply Permutation_cons_inv with x.
Qed.

Lemma sorted_permutation (l l' : list string) :
  Permutation l l' -> Py.sorted l = Py.sorted l'.
Proof.
  intros Hp. apply sorted_unique; try apply sorted_sorted.
  apply perm_trans with l; [ apply sorted_perm | ].
  apply perm_trans with l'; [ exact Hp | apply Permutation_sym, sorted_perm ].
Qed.

Lemma filter_permutation {A} (p : A -> bool) (l l' : list A) :
  Permutation l l' -> Permutation (filter p l) (filter p l').
Proof.
  induction 1 as [| x l l' Hp IH | x y l | l l' l'' H1 IH1 H2 IH2]; cbn.
  - constructor.
  - destruct (p x); [ now constructor | exact IH ].
  - destruct (p x), (p y); try apply Permutation_refl. apply perm_swap.
  - now apply perm_trans with (filter p l').
Qed.

(** The keys of a grouping are the keys of its elements. *)
Lemma in_keys_group {A} (key val : A -> string) (xs : list A)
    (d : Py.dict (list string)) (k : string) :
  In k (Py.keys (fold_left (fun m x => Py.dict_append m (key x) (val x)) xs d))
  <-> In k (Py.keys d) \/ In k (map key xs).
Proof.
  revert d. induction xs as [| x xs IH]; intros d; cbn [fold_left map In].
  - tauto.
  - rewrite IH. clear IH.
    assert (Hk : In k (Py.keys (Py.dict_append d (key x) (val x)))
                 <-> In k (Py.keys d) \/ key x = k).
    { unfold Py.dict_append.
      destruct (Py.dict_get d (key x)) as [vs |] eqn:E.
      - assert (Hin : In (key x) (Py.keys d)).
        { destruct (in_dec string_dec (key x) (Py.keys d)) as [Hin | Hout];
            [ exact Hin | ].
          apply dict_get_keys in Hout. congruence. }
        rewrite (keys_set d (key x) _ Hin). split; [ tauto | ].
        intros [Hd | <-]; assumption.
      - unfold Py.keys. rewrite map_app, in_app_iff. cbn. tauto. }
    rewrite Hk. tauto.
Qed.

(** Two groupings of the same elements list the same entries. *)
Lemma group_permutation {A} (key val : A -> string) (xs ys : list A) :
  Permutation xs ys ->
  let d := fold_left (fun m x => Py.dict_append m (key x) (val x)) xs [] in
  let d' := fold_left (fun m x => Py.dict_append m (key x) (val x)) ys [] in
  Py.sorted (Py.keys d) = Py.sorted (Py.keys d')
  /\ forall k, Permutation (paths_of d k) (paths_of d' k).
Proof.
  intros Hp d d'. split.
  - apply sorted_permutation. apply NoDup_Permutation.
    + apply group_nodup. constructor.
    + apply group_nodup. constructor.
    + intros k. unfold d, d'. rewrite !in_keys_group.
      split; (intros [Hk | Hk]; [ now left | right ]).
      * apply (Permutation_in k (Permutation_map key Hp) Hk).
      * apply (Permutation_in k (Permutation_map key (Permutation_sym Hp)) Hk).
  - intros k. unfold d, d'. rewrite !paths_of_group. cbn.
    apply Permutation_map. now apply filter_permutation.
Qed.

Lemma url_report_permutation (d d' : Py.dict (list string)) :
  Py.sorted (Py.keys d) = Py.sorted (Py.keys d') ->
  (forall k, Permutation (paths_of d k) (paths_of d' k)) ->
  url_report d = url_report d'.
Proof.
  intros Hk Hp. unfold url_report. rewrite <- Hk. clear Hk.
  induction (Py.sorted (Py.keys d)) as [| k ks IH]; cbn; [ reflexivity | ].
  rewrite (Permutation_length (Hp k)).
  destruct (List.length (paths_of d' k) =? 1)%nat; cbn; [ exact IH | ].
  now rewrite IH, (sorted_permutation _ _ (Hp k)).
Qed.

Lemma image_report_permutation (d d' : Py.dict (list string)) :
  Py.sorted (Py.keys d) = Py.sorted (Py.keys d') ->
  (forall k, Permutation (paths_of d k) (paths_of d' k)) ->
  image_report d = image_report d'.
Proof.
  intros Hk Hp. unfold image_report. rewrite <- Hk. clear Hk.
  apply map_ext. intros k. now rewrite (sorted_permutation _ _ (Hp k)).
Qed.

(** The check of the slugs gives the same verdict and the same message
    in whatever order [os.walk] lists the files. *)
Theorem url_duplicates_any_order `{Py.Str} (files files' : list (string * HTML)) :
  Permutation files files' ->
  has_duplicates (build_url_map files) = has_duplicates (build_url_map files')
  /\ url_duplicates_msg (build_url_map files)
     = url_duplicates_msg (build_url_map files').
Proof.
  intros Hp.
  destruct (group_permutation (fun f : string * HTML => Py.lower (url_name (snd f)))
              fst files files' Hp) as [Hk Hpaths].
  cbn zeta in Hk, Hpaths. fold (build_url_map files) in Hk, Hpaths.
  fold (build_url_map files') in Hk, Hpaths.
  split.
  - apply eq_true_iff_eq. rewrite !has_duplicates_iff
      by (unfold build_url_map; apply group_nodup; constructor).
    split; intros (k & Hlen); exists k.
    + now rewrite <- (Permutation_length (Hpaths k)).
    + now rewrite (Permutation_length (Hpaths k)).
  - rewrite !url_duplicates_msg_render. f_equal.
    now apply url_report_permutation.
Qed.

(** The check of the images gives the same verdict and the same message
    in whatever order the set of images is iterated. *)
Theorem image_duplicates_any_order `{Py.Str} (images images' : list string) :
  Permutation images images' ->
  snd (build_image_map images) = snd (build_image_map images')
  /\ image_duplicates_msg (fst (build_image_map images))
     = image_duplicates_msg (fst (build_image_map images')).
Proof.
  intros Hp.
  destruct (group_permutation (fun image => Py.lower (Py.basename image))
              (fun image => image) images images' Hp) as [Hk Hpaths].
  cbn zeta in Hk, Hpaths.
  assert (Hempty : snd (@nil (string * list string), false) = true
                   <-> exists b, (1 < List.length
                                        (paths_of (fst (@nil (string * list string), false)) b))%nat).
  { cbn. split; [ discriminate | intros (b & Hb); cbn in Hb; lia ]. }
  unfold build_image_map. split.
  - apply eq_true_iff_eq.
    rewrite (image_flag images _ Hempty), (image_flag images' _ Hempty).
    rewrite !image_map_group. cbn [fst].
    split; intros (k & Hlen); exists k.
    + now rewrite <- (Permutation_length (Hpaths k)).
    + now rewrite (Permutation_length (Hpaths k)).
  - rewrite !image_duplicates_msg_render. f_equal.
    rewrite !image_map_group. cbn [fst].
    now apply image_report_permutation.
Qed.

(** ** Sets of images *)

Lemma mem_in (x : string) (s : list string) : Py.mem x s = true <-> In x s.
Proof.
  induction s as [| y s IH]; cbn.
  - split; [ discriminate | tauto ].
  - rewrite orb_true_iff, IH, String.eqb_eq. split; intros [Hx | Hx]; auto.
Qed.

Lemma set_add_in (x y : string) (s : list string) :
  In y (Py.set_add x s) <-> In y s \/ y = x.
Proof.
  unfold Py.set_add. destruct (Py.mem x s) eqn:E.
  - apply mem_in in E. split; [ tauto | ]. intros [Hy | ->]; assumption.
  - rewrite in_app_iff. cbn. split.
    + intros [Hy | [<- | []]]; [ now left | now right ].
    + intros [Hy | ->]; [ now left | right; now left ].
Qed.

Lemma set_add_nodup (x : string) (s : list string) :
  NoDup s -> NoDup (Py.set_add x s).
Proof.
  intros Hnd. unfold Py.set_add. destruct (Py.mem x s) eqn:E; [ exact Hnd | ].
  apply (NoDup_Add (Add_app x s [])). rewrite app_nil_r. split; [ exact Hnd | ].
  intros Hin. apply mem_in in Hin. congruence.
Qed.

Lemma add_all_set (ps s : list string) :
  NoDup s ->
  NoDup (fold_left (fun s p => Py.set_add p s) ps s)
  /\ forall y, In y (fold_left (fun s p => Py.set_add p s) ps s)
               <-> In y s \/ In y ps.
Proof.
  revert s. induction ps as [| p ps IH]; intros s Hnd; cbn.
  - split; [ exact Hnd | tauto ].
  - destruct (IH (Py.set_add p s) (set_add_nodup p s Hnd)) as [Hnd' Hin].
    split; [ exact Hnd' | ].
    intros y. rewrite Hin, set_add_in. split; intros H; intuition auto.
Qed.

Lemma collect_images_from (files : list (string * HTML)) (s : list string) :
  NoDup s ->
  let images :=
    fold_left
      (fun images f =>
         fold_left (fun s p => Py.set_add p s) (image_paths (snd f)) images)
      files s in
  NoDup images
  /\ forall p, In p images
               <-> In p s \/ exists f, In f files /\ In p (image_paths (snd f)).
Proof.
  revert s. induction files as [| f files IH]; intros s Hnd; cbn.
  - split; [ exact Hnd | ]. intros p. split; [ tauto | ].
    intros [Hp | (f & [] & _)]. exact Hp.
  - destruct (add_all_set (image_paths (snd f)) s Hnd) as [Hnd' Hin].
    destruct (IH _ Hnd') as [Hnd'' Hin'].
    split; [ exact Hnd'' | ].
    intros p. rewrite Hin', Hin. split.
    + intros [[Hp | Hp] | (g & Hg & Hp)].
      * now left.
      * right. exists f. split; [ now left | exact Hp ].
      * right. exists g. split; [ now right | exact Hp ].
    + intros [Hp | (g & [<- | Hg] & Hp)].
      * left. now left.
      * left. now right.
      * right. now exists g.
Qed.

(** [images] is a set: it holds every image path some document refers
    to, once. *)
Theorem collect_images_is_a_set (files : list (string * HTML)) :
  NoDup (collect_images files)
  /\ forall p, In p (collect_images files)
               <-> exists f, In f files /\ In p (image_paths (snd f)).
Proof.
  destruct (collect_images_from files [] (NoDup_nil _)) as [Hnd Hin].
  split; [ exact Hnd | ].
  intros p. unfold collect_images. rewrite Hin. cbn. tauto.
Qed.

(** ** Strings *)

Lemma take_append (id suffix : string) :
  Py.take (String.length id) (id ++ suffix)%string = id.
Proof.
  unfold Py.take. induction id as [| c id IH]; cbn.
  - now destruct suffix.
  - now rewrite IH.
Qed.

Lemma take_all (id : string) : Py.take (String.length id) id = id.
Proof.
  rewrite <- (append_nil_r id) at 2. apply take_append.
Qed.

Lemma startswith_append (p s : string) : Py.startswith (p ++ s)%string p = true.
Proof.
  unfold Py.startswith. induction p as [| c p IH]; cbn.
  - now destruct s.
  - now rewrite Ascii.eqb_refl || (destruct (ascii_dec c c); [ exact IH | congruence ]).
Qed.

Section Previews.

Context {Env : Type} `{Remote Env} `{HtmlOps} {py_str : Py.Str}.
Variable settings : Settings.

(** The preview address is built from the first fifteen characters of
    the article id: the eighteen character form of an id and its fifteen
    character form give the same address. *)
Theorem preview_url_of_long_id (id suffix : string) (online : bool)
    (w : World Env) :
  String.length id = 15%nat ->
  get_preview_url settings (Some (id ++ suffix)%string) online w
  = get_preview_url settings (Some id) online w.
Proof.
  intros Hlen. unfold get_preview_url.
  rewrite <- Hlen, take_append, take_all. reflexivity.
Qed.

(** ** Images to delete *)

Lemma dict_has_group {A} (key val : A -> string) (xs : list A) (k : string) :
  Py.dict_has (fold_left (fun m x => Py.dict_append m (key x) (val x)) xs []) k
  = existsb (fun x => String.eqb (key x) k) xs.
Proof.
  apply eq_true_iff_eq. rewrite existsb_exists. unfold Py.dict_has.
  split.
  - intros Hhas.
    assert (Hin : In k (map key xs)).
    { destruct (in_dec string_dec k (map key xs)) as [Hin | Hout]; [ exact Hin | ].
      exfalso.
      assert (Hnone : Py.dict_get
                        (fold_left (fun m x => Py.dict_append m (key x) (val x)) xs [])
                        k = None).
      { apply dict_get_keys. rewrite in_keys_group. intros [[] | Hk]. now apply Hout. }
      rewrite Hnone in Hhas. discriminate. }
    apply in_map_iff in Hin. destruct Hin as (x & <- & Hx).
    exists x. split; [ exact Hx | apply String.eqb_refl ].
  - intros (x & Hx & Hk). apply String.eqb_eq in Hk.
    destruct (Py.dict_get _ k) eqn:E; [ reflexivity | ].
    exfalso. apply dict_get_keys in E. apply E. rewrite in_keys_group. right.
    rewrite <- Hk. now apply in_map.
Qed.

Lemma record_deleted_images_loop (bundle : Z) (image_map : Py.dict (list string))
    (keys : list string) (w : World Env) :
  for_each keys (fun key =>
    if negb (Py.startswith key (AWS_S3_DRAFT_DIR settings))
       && negb (Py.dict_has image_map (Py.lower key))
    then Image_create {| i_bundle := bundle; i_filename := key;
                         i_status := STATUS_DELETED |}
    else ret tt) w
  = (Ok tt,
     mkWorld (remote w) (log w) (articles w)
       (images w
        ++ map (deleted_image_row bundle)
             (filter (fun key =>
                        negb (Py.startswith key (AWS_S3_DRAFT_DIR settings))
                        && negb (Py.dict_has image_map (Py.lower key))) keys))
       (bundles w) (webhooks w) (jobs w) (clock w)).
Proof.
  revert w. induction keys as [| key keys IH]; intros w; cbn [for_each filter map].
  - rewrite app_nil_r. now destruct w.
  - unfold bind.
    destruct (negb (Py.startswith key (AWS_S3_DRAFT_DIR settings))
              && negb (Py.dict_has image_map (Py.lower key))).
    + unfold Image_create at 1. rewrite IH. cbn. now rewrite <- app_assoc.
    + unfold ret at 1. apply IH.
Qed.

(** The stored objects [_process_bundle] records for deletion are those
    whose key does not start with the draft directory and whose key, in
    lower case, is the lowered basename of no image of the bundle: one
    DELETED row each, for this bundle, in the order of the listing.  The
    key is compared as it is, not by its basename.  The rows are written
    as the listing yields the keys: when the listing ends early on an
    exception, the rows of the keys it has yielded are there and the
    exception is raised; when the listing cannot be started, no row is
    written. *)
Theorem deleted_images_recorded (bundle : Z) (paths : list string)
    (w : World Env) :
  let run := record_deleted_images settings bundle (fst (build_image_map paths)) w in
  match respond S3IterObjects (remote w) with
  | (Ok (keys, ending), _) =>
      fst run = match ending with Some e => Raise e | None => Ok tt end
      /\ images (snd run)
         = images w
           ++ map (deleted_image_row bundle) (filter (obsolete_key settings paths) keys)
      /\ articles (snd run) = articles w
  | (Raise e, _) =>
      fst run = Raise e /\ images (snd run) = images w
      /\ articles (snd run) = articles w
  end.
Proof.
  intros run. subst run. unfold record_deleted_images, bind, perform.
  destruct (respond S3IterObjects (remote w)) as [[[keys ending] | e] env];
    [ | repeat split ].
  cbn [fst snd]. rewrite record_deleted_images_loop.
  assert (Hrows :
    filter (fun key =>
              negb (Py.startswith key (AWS_S3_DRAFT_DIR settings))
              && negb (Py.dict_has (fst (build_image_map paths)) (Py.lower key))) keys
    = filter (obsolete_key settings paths) keys).
  { apply filter_ext. intros key. unfold obsolete_key.
    unfold build_image_map. rewrite image_map_group. cbn [fst].
    now rewrite (dict_has_group (fun image => Py.lower (Py.basename image))
                   (fun image => image)). }
  destruct ending as [e |]; cbn; rewrite Hrows; repeat split.
Qed.

(** ** Images uploaded for the previews *)

Lemma unchanged_images_missing (aim : Py.dict (list string)) (imgs : list Image)
    (arts : list Article) (a : Article) (acc : list string) :
  find (fun a => negb (Py.dict_has aim (a_url_name a))) arts = Some a ->
  fold_left
    (fun acc article =>
       match acc with
       | Raise e => Raise e
       | Ok unchanged =>
           match Py.dict_get aim (a_url_name article) with
           | None => Raise (KeyError (a_url_name article))
           | Some paths =>
               Ok (fold_left
                     (fun s image =>
                        if existsb (fun i => String.eqb (i_filename i) (Py.basename image)) imgs
                        then s else Py.set_add image s)
                     paths unchanged)
           end
       end)
    arts (Ok acc)
  = Raise (KeyError (a_url_name a)).
Proof.
  revert acc. induction arts as [| x arts IH]; intros acc; cbn; [ discriminate | ].
  unfold Py.dict_has.
  destruct (Py.dict_get aim (a_url_name x)) as [paths |] eqn:E; cbn.
  - apply IH.
  - intros [= <-]. clear IH.
    induction arts as [| y arts IH]; cbn; [ reflexivity | exact IH ].
Qed.

(** A staged article row of the bundle whose document is not among the
    files at hand - a row an earlier run of the bundle has left - makes the
    upload of the unchanged images end on a KeyError for its slug, before
    anything is uploaded. *)
Theorem upload_unchanged_images_unknown_document (bundle : Z)
    (aim : Py.dict (list string)) (w : World Env) (a : Article) :
  find (fun a => negb (Py.dict_has aim (a_url_name a)))
    (staged_articles bundle (articles w)) = Some a ->
  upload_unchanged_images settings bundle aim w
  = (Raise (KeyError (a_url_name a)), w).
Proof.
  intros Hfind.
  unfold upload_unchanged_images, bind, bundle_articles, bundle_images.
  unfold unchanged_images. unfold staged_articles in Hfind.
  now rewrite (unchanged_images_missing aim _ _ a [] Hfind).
Qed.

Lemma uploads_run (unchanged : list string) (w w' : World Env) (r : Result unit) :
  for_each unchanged
    (fun image =>
       perform (S3UploadImage image
                  (AWS_S3_DRAFT_DIR settings ++ Py.basename image)%string)) w
  = (r, w') ->
  exists evs,
    log w' = log w ++ evs
    /\ quiet w w'
    /\ Forall (fun e =>
                 preview_upload settings e = true
                 /\ exists key,
                      upload_key e = Some key
                      /\ forall paths, obsolete_key settings paths key = false)
         evs.
Proof.
  revert w. induction unchanged as [| image unchanged IH]; intros w Hrun;
    cbn [for_each] in Hrun.
  - injection Hrun as <- <-. exists []. rewrite app_nil_r.
    split; [ reflexivity | ]. split; [ apply quiet_refl | constructor ].
  - unfold bind, perform at 1 in Hrun.
    assert (Hshape : forall u : Result unit,
              (fun e =>
                 preview_upload settings e = true
                 /\ exists key,
                      upload_key e = Some key
                      /\ forall paths, obsolete_key settings paths key = false)
                (Ev (S3UploadImage image
                       (AWS_S3_DRAFT_DIR settings ++ Py.basename image)%string) u)).
    { intros u. cbn. rewrite String.eqb_refl. split; [ reflexivity | ].
      eexists. split; [ reflexivity | ].
      intros paths. unfold obsolete_key. now rewrite startswith_append. }
    destruct (respond _ (remote w)) as [[u | e] env].
    + destruct (IH _ Hrun) as (evs & Hlog & Hq & Hall).
      eexists. split; [ rewrite Hlog; cbn [log]; rewrite <- app_assoc; reflexivity | ].
      split; [ eapply quiet_trans; [ | exact Hq ]; repeat split | ].
      constructor; [ apply Hshape | exact Hall ].
    + injection Hrun as <- <-.
      eexists. split; [ cbn; reflexivity | ]. split; [ repeat split | ].
      constructor; [ apply Hshape | constructor ].
Qed.

(** Every request of the upload of the unchanged images writes an image
    under the draft directory, by its basename: a key the list of the
    objects to delete never holds.  The tables are left alone. *)
Theorem previews_go_to_the_draft_directory (bundle : Z)
    (aim : Py.dict (list string)) (w : World Env) :
  let run := upload_unchanged_images settings bundle aim w in
  exists evs,
    log (snd run) = log w ++ evs
    /\ quiet w (snd run)
    /\ Forall (fun e =>
                 preview_upload settings e = true
                 /\ exists key,
                      upload_key e = Some key
                      /\ forall paths, obsolete_key settings paths key = false)
         evs.
Proof.
  intros run. destruct run as [r w'] eqn:Hrun. subst run. cbn [snd].
  unfold upload_unchanged_images, bind, bundle_articles, bundle_images in Hrun.
  destruct (unchanged_images aim _ _) as [unchanged | e].
  - now apply (uploads_run unchanged w w' r).
  - injection Hrun as <- <-. exists []. rewrite app_nil_r.
    split; [ reflexivity | ]. split; [ apply quiet_refl | constructor ].
Qed.

End Previews.

(** ** The unchanged images *)

Lemma add_unchanged (imgs : list Image) (paths s : list string) :
  NoDup s ->
  let s' := fold_left
              (fun s image =>
                 if existsb (fun i => String.eqb (i_filename i) (Py.basename image)) imgs
                 then s else Py.set_add image s)
              paths s in
  NoDup s'
  /\ forall p, In p s' <-> In p s \/ (In p paths /\ has_row imgs p = false).
Proof.
  revert s. induction paths as [| image paths IH]; intros s Hnd; cbn.
  - split; [ exact Hnd | ]. intros p. tauto.
  - fold (has_row imgs image). destruct (has_row imgs image) eqn:E.
    + destruct (IH s Hnd) as [Hnd' Hin]. split; [ exact Hnd' | ].
      intros p. rewrite Hin. split; [ tauto | ].
      intros [Hp | ([<- | Hp] & Hrow)]; [ tauto | congruence | tauto ].
    + destruct (IH _ (set_add_nodup image s Hnd)) as [Hnd' Hin].
      split; [ exact Hnd' | ].
      intros p. rewrite Hin, set_add_in. split.
      * intros [[Hp | ->] | (Hp & Hrow)]; [ tauto | | tauto ].
        right. split; [ now left | exact E ].
      * intros [Hp | ([<- | Hp] & Hrow)]; tauto.
Qed.

Lemma unchanged_images_from (aim : Py.dict (list string)) (imgs : list Image)
    (arts : list Article) (s l : list string) :
  fold_left
    (fun acc article =>
       match acc with
       | Raise e => Raise e
       | Ok unchanged =>
           match Py.dict_get aim (a_url_name article) with
           | None => Raise (KeyError (a_url_name article))
           | Some paths =>
               Ok (fold_left
                     (fun s image =>
                        if existsb (fun i => String.eqb (i_filename i) (Py.basename image)) imgs
                        then s else Py.set_add image s)
                     paths unchanged)
           end
       end)
    arts (Ok s) = Ok l ->
  NoDup s ->
  NoDup l
  /\ forall p,
       In p l
       <-> In p s
           \/ exists a paths,
                In a arts /\ Py.dict_get aim (a_url_name a) = Some paths
                /\ In p paths /\ has_row imgs p = false.
Proof.
  revert s. induction arts as [| a arts IH]; intros s Hrun Hnd; cbn in Hrun.
  - injection Hrun as <-. split; [ exact Hnd | ].
    intros p. split; [ tauto | ]. intros [Hp | (a & paths & [] & _)]. exact Hp.
  - destruct (Py.dict_get aim (a_url_name a)) as [paths |] eqn:E.
    + destruct (add_unchanged imgs paths s Hnd) as [Hnd' Hin].
      destruct (IH _ Hrun Hnd') as [Hl Hinl].
      split; [ exact Hl | ].
      intros p. rewrite Hinl, Hin. split.
      * intros [[Hp | (Hp & Hrow)] | (a' & paths' & Ha' & Hg & Hp & Hrow)].
        -- now left.
        -- right. exists a, paths. repeat split; auto. now left.
        -- right. exists a', paths'. repeat split; auto. now right.
      * intros [Hp | (a' & paths' & [<- | Ha'] & Hg & Hp & Hrow)].
        -- left. now left.
        -- left. right. rewrite E in Hg. injection Hg as <-. now split.
        -- right. exists a', paths'. now repeat split.
    + exfalso. clear IH. induction arts as [| x arts IH]; cbn in Hrun;
        [ discriminate | now apply IH ].
Qed.

(** The images uploaded for the previews, when the choice ends well: the
    images of the documents whose article row of the bundle is NEW or
    CHANGED, as far as no image row of the bundle carries their basename;
    each once. *)
Theorem unchanged_images_chosen (aim : Py.dict (list string))
    (arts : list Article) (imgs : list Image) (unchanged : list string) :
  unchanged_images aim arts imgs = Ok unchanged ->
  NoDup unchanged
  /\ forall image,
       In image unchanged
       <-> exists article paths,
             In article arts /\ staged (a_status article) = true
             /\ Py.dict_get aim (a_url_name article) = Some paths
             /\ In image paths /\ has_row imgs image = false.
Proof.
  intros Hrun. unfold unchanged_images in Hrun.
  destruct (unchanged_images_from aim imgs _ [] unchanged Hrun (NoDup_nil _))
    as [Hnd Hin].
  split; [ exact Hnd | ].
  intros image. rewrite Hin. split.
  - intros [[] | (a & paths & Ha & Hg & Hp & Hrow)].
    apply filter_In in Ha. destruct Ha as [Ha Hst].
    exists a, paths. now repeat split.
  - intros (a & paths & Ha & Hst & Hg & Hp & Hrow).
    right. exists a, paths. repeat split; auto.
    apply filter_In. now split.
Qed.

(** ** Staging only adds rows *)

Lemma grows_refl {Env} (pk : Z) (w : World Env) : grows pk w w.
Proof.
  split; exists []; rewrite app_nil_r; split; try reflexivity; constructor.
Qed.

Lemma grows_trans {Env} (pk : Z) (a b c : World Env) :
  grows pk a b -> grows pk b c -> grows pk a c.
Proof.
  intros [(la & Ha & Hla) (li & Hi & Hli)] [(la' & Ha' & Hla') (li' & Hi' & Hli')].
  split.
  - exists (la ++ la'). rewrite Ha', Ha, app_assoc. split; [ reflexivity | ].
    apply Forall_app. now split.
  - exists (li ++ li'). rewrite Hi', Hi, app_assoc. split; [ reflexivity | ].
    apply Forall_app. now split.
Qed.

Lemma quiet_grows {Env} (pk : Z) (w w' : World Env) : quiet w w' -> grows pk w w'.
Proof.
  intros (Ha & Hi & _). rewrite <- (app_nil_r (articles w)) in Ha.
  rewrite <- (app_nil_r (images w)) in Hi.
  split; eexists; (split; [ eassumption | constructor ]).
Qed.

Section Growth.

Context {Env : Type} `{Remote Env} `{HtmlOps} {py_str : Py.Str}.
Variable settings : Settings.

Lemma process_article_grows (html : HTML) (bundle : Z) :
  keeps (grows bundle) (process_article settings html bundle).
Proof.
  intros w r w' Hrun.
  unfold process_article, query_articles, update_draft, save_article,
    create_article, create_draft, get_ka_id, get_preview_url, index0,
    Article_create in Hrun.
  unfold bind, perform, ret, raise in Hrun. cbn in Hrun.
  crunch Hrun.
  all: inversion Hrun; subst; clear Hrun.
  all: split; cbn;
    first [ exists []; rewrite app_nil_r; split; [ reflexivity | constructor ]
          | eexists; split; [ reflexivity | repeat constructor ] ].
Qed.

Lemma stage_bundle_grows (bundle : Bundle) (files : list (string * HTML)) :
  keeps (grows (b_pk bundle)) (stage_bundle settings bundle files).
Proof.
  pose proof (@grows_refl Env (b_pk bundle)) as Hrefl.
  pose proof (@grows_trans Env (b_pk bundle)) as Htrans.
  assert (Hperform : forall X (c : call X), keeps (grows (b_pk bundle)) (perform c)).
  { intros X c w r w' Hrun. apply quiet_grows. exact (perform_quiet _ _ _ _ Hrun). }
  unfold stage_bundle.
  apply keeps_bind; [ exact Htrans | apply Hperform | intros _ ].
  apply keeps_bind; [ exact Htrans | apply Hperform | intros _ ].
  destruct (has_duplicates _); [ now apply keeps_raise | ].
  destruct (build_image_map _) as [image_map [|]]; [ now apply keeps_raise | ].
  apply keeps_bind; [ exact Htrans | | intros _ ].
  { unfold record_deleted_articles, get_articles.
    apply keeps_bind; [ exact Htrans | | intros online ].
    - apply keeps_bind; [ exact Htrans | apply Hperform | intros a ].
      now apply keeps_ret.
    - apply keeps_for_each; [ exact Hrefl | exact Htrans | ].
      intros article w r w' Hrun.
      unfold record_deleted_article, bind, get_preview_url, ret, Article_create in Hrun.
      destruct (negb _) in Hrun; injection Hrun as <- <-;
        [ | apply Hrefl ].
      split; cbn;
        first [ exists []; rewrite app_nil_r; split; [ reflexivity | constructor ]
              | eexists; split; [ reflexivity | repeat constructor ] ]. }
  apply keeps_bind; [ exact Htrans | | intros _ ].
  { unfold record_deleted_images.
    apply keeps_bind; [ exact Htrans | apply Hperform | intros objects ].
    apply keeps_bind; [ exact Htrans | | intros _ ].
    - apply keeps_for_each; [ exact Hrefl | exact Htrans | ].
      intros key w r w' Hrun. unfold Image_create, ret in Hrun.
      destruct (_ && _) in Hrun; injection Hrun as <- <-; [ | apply Hrefl ].
      split; cbn;
        first [ exists []; rewrite app_nil_r; split; [ reflexivity | constructor ]
              | eexists; split; [ reflexivity | repeat constructor ] ].
    - destruct (snd objects); [ now apply keeps_raise | now apply keeps_ret ]. }
  apply keeps_bind; [ exact Htrans | | intros _ ].
  { apply keeps_for_each; [ exact Hrefl | exact Htrans | ].
    intros f. apply process_article_grows. }
  apply keeps_bind; [ exact Htrans | | intros _ ].
  { apply keeps_for_each; [ exact Hrefl | exact Htrans | ].
    intros image w r w' Hrun.
    unfold s3_process_image, bind, perform, Image_create, ret in Hrun.
    crunch Hrun.
    all: inversion Hrun; subst; clear Hrun.
    all: split; cbn;
      first [ exists []; rewrite app_nil_r; split; [ reflexivity | constructor ]
            | eexists; split; [ reflexivity | repeat constructor ] ]. }
  intros w r w' Hrun. apply quiet_grows.
  unfold upload_unchanged_images, bind, bundle_articles, bundle_images in Hrun.
  destruct (unchanged_images _ _ _) as [unchanged | e].
  - now destruct (uploads_run settings unchanged w w' r Hrun) as (evs & _ & Hq & _).
  - injection Hrun as <- <-. apply quiet_refl.
Qed.

Lemma _process_bundle_grows (bundle : Bundle) (files : list (string * HTML)) :
  keeps (grows (b_pk bundle)) (_process_bundle settings bundle files).
Proof.
  pose proof (@grows_refl Env (b_pk bundle)) as Hrefl.
  pose proof (@grows_trans Env (b_pk bundle)) as Htrans.
  unfold _process_bundle.
  apply keeps_bind; [ exact Htrans | apply stage_bundle_grows | intros _ ].
  apply keeps_bind; [ exact Htrans | | intros arts ].
  { intros w r w' [= <- <-]. apply Hrefl. }
  apply keeps_bind; [ exact Htrans | | intros imgs ].
  { intros w r w' [= <- <-]. apply Hrefl. }
  destruct (_ && _)%nat; [ now apply keeps_raise | ].
  intros w r w' [= <- <-].
  split; exists []; cbn; rewrite app_nil_r; split; try reflexivity; constructor.
Qed.

Lemma filter_none {A} (p : A -> bool) (l : list A) :
  Forall (fun x => p x = false) l -> filter p l = [].
Proof.
  induction 1 as [| x l Hx Hl IH]; cbn; [ reflexivity | now rewrite Hx ].
Qed.

(** Whatever its outcome, [_process_bundle] removes no decision row and
    changes none: the rows it writes are added after those there were,
    and all of them belong to its bundle.  So the rows of every other
    bundle are as they were. *)
Theorem staging_only_adds_rows (bundle : Bundle) (files : list (string * HTML))
    (w : World Env) :
  let w' := snd (_process_bundle settings bundle files w) in
  (exists arts,
     articles w' = articles w ++ arts
     /\ Forall (fun a => a_bundle a = b_pk bundle) arts)
  /\ (exists imgs,
        images w' = images w ++ imgs
        /\ Forall (fun i => i_bundle i = b_pk bundle) imgs)
  /\ forall pk,
       pk <> b_pk bundle ->
       articles_of pk (articles w') = articles_of pk (articles w)
       /\ images_of pk (images w') = images_of pk (images w).
Proof.
  intros w'. subst w'.
  destruct (_process_bundle settings bundle files w) as [r w'] eqn:Hrun.
  cbn [snd].
  destruct (_process_bundle_grows bundle files _ _ _ Hrun)
    as [(arts & Ha & Harts) (imgs & Hi & Himgs)].
  split; [ now exists arts | ]. split; [ now exists imgs | ].
  intros pk Hpk. rewrite Ha, Hi. unfold articles_of, images_of.
  rewrite !filter_app.
  rewrite (filter_none (fun a => a_bundle a =? pk) arts),
    (filter_none (fun i => i_bundle i =? pk) imgs), !app_nil_r.
  - split; reflexivity.
  - eapply Forall_impl; [ | exact Himgs ]. cbn. intros i ->.
    apply Z.eqb_neq. congruence.
  - eapply Forall_impl; [ | exact Harts ]. cbn. intros a ->.
    apply Z.eqb_neq. congruence.
Qed.

End Growth.

(** ** The jobs *)

Lemma save_twice (b1 b2 : Bundle) (bs : list Bundle) :
  b_pk b2 = b_pk b1 ->
  map (fun r => if b_pk r =? b_pk b2 then b2 else r)
    (map (fun r => if b_pk r =? b_pk b1 then b1 else r) bs)
  = map (fun r => if b_pk r =? b_pk b1 then b2 else r) bs.
Proof.
  intros Hpk. rewrite map_map. apply map_ext. intros r. rewrite Hpk.
  destruct (b_pk r =? b_pk b1) eqn:E; [ | now rewrite E ].
  now rewrite Z.eqb_refl.
Qed.

Section Jobs.

Context {Env : Type} `{Remote Env} `{HtmlOps} {py_str : Py.Str}.
Variable settings : Settings.

(** The job [process_bundle].  For a key without bundle it raises
    DoesNotExist and changes nothing.  Otherwise it ends as
    [_process_bundle] does on the claimed bundle: an exception of staging
    is raised again as it is, and queue admission is put on the queue.
    When staging ends well the bundle is in DRAFT with the time of the
    claim, the other bundles are as they were, some decision row of the
    bundle exists, and no job is queued: nothing happens until the
    publication is asked for. *)
Theorem process_bundle_outcome (pk : Z) (files : list (string * HTML))
    (w : World Env) :
  let run := process_bundle settings pk files w in
  match find (fun r => b_pk r =? pk) (bundles w) with
  | None => run = (Raise DoesNotExist, w)
  | Some b =>
      let processing :=
        with_time_processed (with_status b STATUS_PROCESSING) (clock w) in
      let inner :=
        _process_bundle settings processing files (snd (Bundle_save processing w)) in
      fst run = fst inner
      /\ match fst inner with
         | Ok _ =>
             bundles (snd run)
             = map (fun r => if b_pk r =? pk
                             then with_status processing STATUS_DRAFT else r)
                 (bundles w)
             /\ jobs (snd run) = jobs w
             /\ (articles_of pk (articles (snd run)) <> []
                 \/ images_of pk (images (snd run)) <> [])
         | Raise _ => jobs (snd run) = jobs w ++ [ProcessQueue]
         end
  end.
Proof.
  intros run. subst run.
  unfold process_bundle, bind, Bundle_get.
  destruct (find (fun r => b_pk r =? pk) (bundles w)) as [b |] eqn:Hfind;
    [ | reflexivity ].
  pose proof (find_some _ _ Hfind) as [_ Hpk]. apply Z.eqb_eq in Hpk.
  unfold now. cbn iota beta.
  set (processing := with_time_processed (with_status b STATUS_PROCESSING) (clock w)).
  cbn zeta.
  set (w0 := snd (Bundle_save processing w)).
  change (Bundle_save processing w) with (Ok tt, w0). cbn iota.
  unfold try_except.
  destruct (_process_bundle settings processing files w0) as [[u | e] w1] eqn:Hin;
    cbn [fst snd].
  - split; [ reflexivity | ].
    unfold _process_bundle, bind in Hin.
    destruct (stage_bundle settings processing files w0) as [[u0 | e0] w2] eqn:Hst;
      [ | discriminate ].
    pose proof (stage_bundle_staging settings processing files _ _ _ Hst)
      as (Hb & _ & Hj & _).
    unfold bundle_articles, bundle_images in Hin.
    destruct ((List.length (articles_of (b_pk processing) (articles w2)) =? 0)%nat
              && (List.length (images_of (b_pk processing) (images w2)) =? 0)%nat)
      eqn:Etest; [ discriminate | ].
    injection Hin as _ <-. unfold Bundle_save. cbn [snd bundles jobs articles images].
    split; [ | split ].
    + rewrite Hb. unfold w0. cbn.
      rewrite (save_twice processing (with_status processing STATUS_DRAFT));
        [ | reflexivity ].
      cbn. now rewrite Hpk.
    + rewrite Hj. reflexivity.
    + change (b_pk processing) with (b_pk b) in Etest. rewrite Hpk in Etest.
      apply andb_false_iff in Etest. destruct Etest as [E | E];
        [ left | right ]; intros Hnil; rewrite Hnil in E; discriminate.
  - split; [ reflexivity | ].
    unfold set_error, Bundle_save, delay, raise. cbn.
    unfold _process_bundle, bind in Hin.
    destruct (stage_bundle settings processing files w0) as [[u0 | e0] w2] eqn:Hst.
    + pose proof (stage_bundle_staging settings processing files _ _ _ Hst)
        as (_ & _ & Hj & _).
      unfold bundle_articles, bundle_images in Hin.
      destruct (_ && _)%nat in Hin; [ | discriminate ].
      injection Hin as _ <-. now rewrite Hj.
    + pose proof (stage_bundle_staging settings processing files _ _ _ Hst)
        as (_ & _ & Hj & _).
      injection Hin as _ <-. now rewrite Hj.
Qed.

(** The job [publish_drafts].  For a key without bundle it raises
    DoesNotExist and changes nothing.  Otherwise it ends as
    [_publish_drafts] does on the bundle set to PUBLISHING; whatever the
    outcome it leaves the decision rows as they are and puts queue
    admission on the queue exactly once.  When the run ends well the
    bundle is PUBLISHED with the current time as its publication time and
    the other bundles are as they were; when it fails the publication
    time of the bundle is not set ([set_error], as it is modelled, records
    the status and the text). *)
Theorem publish_drafts_outcome (pk : Z) (w : World Env) :
  let run := publish_drafts settings pk w in
  match find (fun r => b_pk r =? pk) (bundles w) with
  | None => run = (Raise DoesNotExist, w)
  | Some b =>
      let publishing := with_status b STATUS_PUBLISHING in
      let inner := _publish_drafts settings publishing (snd (Bundle_save publishing w)) in
      fst run = fst inner
      /\ jobs (snd run) = jobs w ++ [ProcessQueue]
      /\ articles (snd run) = articles w /\ images (snd run) = images w
      /\ match fst inner with
         | Ok _ =>
             bundles (snd run)
             = map (fun r => if b_pk r =? pk
                             then with_time_published
                                    (with_status publishing STATUS_PUBLISHED) (clock w)
                             else r)
                 (bundles w)
         | Raise _ =>
             forall r, In r (bundles (snd run)) -> b_pk r = pk ->
               b_time_published r = b_time_published b
         end
  end.
Proof.
  intros run. subst run.
  unfold publish_drafts, bind, Bundle_get.
  destruct (find (fun r => b_pk r =? pk) (bundles w)) as [b |] eqn:Hfind;
    [ | reflexivity ].
  pose proof (find_some _ _ Hfind) as [_ Hpk]. apply Z.eqb_eq in Hpk.
  cbn iota beta.
  set (publishing := with_status b STATUS_PUBLISHING).
  cbn zeta.
  set (w0 := snd (Bundle_save publishing w)).
  change (Bundle_save publishing w) with (Ok tt, w0). cbn iota.
  unfold try_except.
  destruct (_publish_drafts settings publishing w0) as [[u | e] w1] eqn:Hin;
    cbn [fst snd].
  all: destruct (publish_run settings publishing _ _ _ Hin)
    as (evs & _ & (Ha & Hi & Hb & _ & Hj & Hc) & _).
  - destruct u. unfold now, Bundle_save, delay. cbn.
    split; [ reflexivity | ]. split; [ now rewrite Hj | ].
    split; [ exact Ha | ]. split; [ exact Hi | ].
    rewrite Hb. unfold w0. cbn. rewrite Hc. unfold w0. cbn.
    rewrite (save_twice publishing
               (with_time_published (with_status publishing STATUS_PUBLISHED) (clock w)));
      [ | reflexivity ].
    cbn. now rewrite Hpk.
  - unfold set_error, Bundle_save, delay, raise. cbn.
    split; [ reflexivity | ]. split; [ now rewrite Hj | ].
    split; [ exact Ha | ]. split; [ exact Hi | ].
    intros r Hr Hrpk. rewrite Hb in Hr. unfold w0 in Hr. cbn in Hr.
    rewrite map_map in Hr. apply in_map_iff in Hr.
    destruct Hr as (r0 & Hr0 & _). cbn in Hr0.
    destruct (b_pk r0 =? b_pk b) eqn:E.
    + cbn in Hr0. rewrite Z.eqb_refl in Hr0. now subst r.
    + rewrite E in Hr0. subst r. apply Z.eqb_neq in E. congruence.
Qed.

(** Queue admission asks the object store for two things and nothing
    else of anyone: the connection, then the sweep of the draft images.
    The sweep is asked for as soon as the connection is made, before the
    bundle table is looked at: a bundle in PROCESSING, DRAFT or
    PUBLISHING does not hold it back.  Without the sweep nothing is
    started, and the tables other than the queue do not move. *)
Theorem process_queue_sweeps_first (w : World Env) :
  let run := @process_queue Env _ w in
  exists evs,
    log (snd run) = log w ++ evs
    /\ Forall (fun e => storage_request e = true) evs
    /\ articles (snd run) = articles w /\ images (snd run) = images w
    /\ bundles (snd run) = bundles w /\ webhooks (snd run) = webhooks w
    /\ (is_ok (fst (respond S3Connect (remote w))) = true ->
        existsb is_sweep evs = true)
    /\ (existsb is_sweep evs = false -> jobs (snd run) = jobs w).
Proof.
  intros run. destruct run as [r w'] eqn:Hrun. subst run. cbn [fst snd].
  unfold process_queue, all_bundles, delay in Hrun.
  unfold bind, perform, ret in Hrun. cbn in Hrun.
  crunch Hrun.
  all: inversion Hrun; subst; clear Hrun; new_events.
  all: split; [ repeat constructor | ].
  all: cbn; do 4 (split; [ reflexivity | ]).
  all: split; intros Hx; try discriminate; reflexivity.
Qed.

End Jobs.

Section WebhookJob.

Context {Env : Type}.
Variable loads : string -> Result Py.json.

(** The job [process_webhook] writes nothing before it can no longer
    fail.  For a key without webhook it raises DoesNotExist; when the
    body is not JSON it raises what the decoder raised; when it raises on
    a field that a payload lacks, it does so before the bundle is looked
    up.  In each case no table has moved.  When it ends well the webhook
    is resolved: its row carries a status. *)
Theorem process_webhook_all_or_nothing (pk : Z) (w : World Env) :
  let run := process_webhook loads pk w in
  match find (fun x => w_pk x =? pk) (webhooks w) with
  | None => run = (Raise DoesNotExist, w)
  | Some hook =>
      match loads (w_body hook) with
      | Raise e => run = (Raise e, w)
      | Ok _ =>
          match fst run with
          | Raise _ => snd run = w
          | Ok _ =>
              exists b s,
                find (fun x => w_pk x =? pk) (webhooks (snd run))
                = Some (resolve hook b s)
          end
      end
  end.
Proof.
  intros run. subst run.
  unfold process_webhook, bind, Webhook_get.
  destruct (find (fun x => w_pk x =? pk) (webhooks w)) as [hook |] eqn:Hfind;
    [ | reflexivity ].
  pose proof (find_some _ _ Hfind) as [_ Hpk]. apply Z.eqb_eq in Hpk.
  unfold json_loads.
  destruct (loads (w_body hook)) as [data | e]; [ | reflexivity ].
  cbn iota beta.
  destruct (dita_ot_success data w) as [[success | e] w1] eqn:Hs.
  - assert (w1 = w).
    { unfold dita_ot_success, bind, json_getitem, getitem, ret, raise in Hs.
      repeat match type of Hs with
             | context [match ?x with _ => _ end] =>
                 lazymatch x with
                 | context [match _ with _ => _ end] => fail
                 | _ => destruct x
                 end
             end; congruence. }
    subst w1. destruct success.
    + unfold json_getitem, getitem, bind, raise, ret, Bundle_get_or_create.
      destruct data as [| | | | | items]; cbn; try reflexivity.
      destruct (Py.dict_get items "event_data") as [event_data |]; cbn;
        [ | reflexivity ].
      destruct event_data as [| | | | | fields]; cbn; try reflexivity.
      destruct (Py.dict_get fields "output-uuid") as [output_uuid |]; cbn;
        [ | reflexivity ].
      destruct (Py.dict_get items "resource_id") as [resource_id |]; cbn;
        [ | reflexivity ].
      destruct (bundle_for output_uuid (bundles w)) as [b |]; cbn.
      * destruct (is_complete b); cbn.
        -- eexists _, _. rewrite Hpk.
           apply (find_saved_twice (resolve hook _ _) pk _ hook Hfind Hpk).
        -- eexists _, _. rewrite Hpk.
           apply (find_saved (resolve hook _ _) pk _ hook Hfind Hpk).
      * eexists _, _. rewrite Hpk.
        apply (find_saved_twice (resolve hook _ _) pk _ hook Hfind Hpk).
    + unfold ret. cbn. eexists _, _. rewrite Hpk.
      apply (find_saved (resolve hook _ _) pk _ hook Hfind Hpk).
  - cbn.
    unfold dita_ot_success, bind, json_getitem, getitem, ret, raise in Hs.
    repeat match type of Hs with
           | context [match ?x with _ => _ end] =>
               lazymatch x with
               | context [match _ with _ => _ end] => fail
               | _ => destruct x
               end
           end; congruence.
Qed.

End WebhookJob.

(** ** The address of a bundle *)

Lemma append_cancel_l (a b c : string) : (a ++ b = a ++ c)%string -> b = c.
Proof.
  induction a as [| x a IH]; cbn; [ tauto | ].
  intros [= Heq]. now apply IH.
Qed.

Lemma length_append (a b : string) :
  String.length (a ++ b)%string = (String.length a + String.length b)%nat.
Proof. induction a as [| x a IH]; cbn; [ reflexivity | now rewrite IH ]. Qed.

Lemma append_cancel_r (a b s : string) : (a ++ s = b ++ s)%string -> a = b.
Proof.
  revert b. induction a as [| x a IH]; intros [| y b] Heq; cbn in Heq.
  - reflexivity.
  - exfalso. apply (f_equal String.length) in Heq.
    cbn in Heq. rewrite length_append in Heq. lia.
  - exfalso. apply (f_equal String.length) in Heq.
    cbn in Heq. rewrite length_append in Heq. lia.
  - injection Heq as -> Heq. f_equal. now apply IH.
Qed.

(** On one easyDITA instance, bundles with different ids are downloaded
    from different addresses. *)
Theorem bundle_url_determines_id (instance id id' : string) :
  EasyditaBundle_url instance id = EasyditaBundle_url instance id' <-> id = id'.
Proof.
  split; [ | now intros -> ].
  unfold EasyditaBundle_url. intros Heq.
  apply append_cancel_l in Heq. apply append_cancel_l in Heq.
  now apply append_cancel_r in Heq.
Qed.

(** ** The queue after a publish job *)

Lemma none_active_after (f1 f2 : Bundle -> Bundle) (bs : list Bundle) :
  (forall r, In r bs -> active (b_status (f2 (f1 r))) = false) ->
  existsb (fun b => active (b_status b)) (map f2 (map f1 bs)) = false.
Proof.
  intros Hall. induction bs as [| r bs IH]; cbn; [ reflexivity | ].
  rewrite (Hall r (or_introl eq_refl)). apply IH.
  intros r' Hr'. apply Hall. now right.
Qed.

Section Unblock.

Context {Env : Type} `{Remote Env} `{HtmlOps} {py_str : Py.Str}.
Variable settings : Settings.

(** When the bundle a publish job is about is the only one that is
    PROCESSING, DRAFT or PUBLISHING, none is once the job has ended, well
    (the bundle is PUBLISHED) or not (it is in ERROR, as [set_error] is
    modelled): the admission the job has put on the queue finds the queue
    open. *)
Theorem publish_drafts_opens_the_queue (pk : Z) (w : World Env) (b : Bundle) :
  find (fun r => b_pk r =? pk) (bundles w) = Some b ->
  (forall r, In r (bundles w) -> active (b_status r) = true -> b_pk r = pk) ->
  let run := publish_drafts settings pk w in
  existsb (fun r => active (b_status r)) (bundles (snd run)) = false
  /\ jobs (snd run) = jobs w ++ [ProcessQueue].
Proof.
  intros Hfind Honly run. subst run.
  pose proof (find_some _ _ Hfind) as [_ Hpk]. apply Z.eqb_eq in Hpk.
  unfold publish_drafts, bind, Bundle_get. rewrite Hfind. cbn iota beta.
  set (publishing := with_status b STATUS_PUBLISHING).
  cbn zeta.
  set (w0 := snd (Bundle_save publishing w)).
  change (Bundle_save publishing w) with (Ok tt, w0). cbn iota.
  unfold try_except.
  destruct (_publish_drafts settings publishing w0) as [[u | e] w1] eqn:Hin.
  all: destruct (publish_run settings publishing _ _ _ Hin)
    as (evs & _ & (_ & _ & Hb & _ & Hj & Hc) & _).
  - unfold now, Bundle_save, delay. cbn.
    split; [ | now rewrite Hj ].
    rewrite Hb. unfold w0. cbn [snd Bundle_save bundles].
    apply none_active_after. intros r Hr. cbn.
    destruct (Z.eqb_spec (b_pk r) (b_pk b)) as [Heq | Hne]; cbn.
    + now rewrite Z.eqb_refl.
    + destruct (Z.eqb_spec (b_pk r) (b_pk b)) as [Heq | _]; [ contradiction | ].
      destruct (active (b_status r)) eqn:E; [ | reflexivity ].
      exfalso. apply Hne. rewrite Hpk. now apply Honly.
  - unfold set_error, Bundle_save, delay, raise. cbn.
    split; [ | now rewrite Hj ].
    rewrite Hb. unfold w0. cbn [snd Bundle_save bundles].
    apply none_active_after. intros r Hr. cbn.
    destruct (Z.eqb_spec (b_pk r) (b_pk b)) as [Heq | Hne]; cbn.
    + now rewrite Z.eqb_refl.
    + destruct (Z.eqb_spec (b_pk r) (b_pk b)) as [Heq | _]; [ contradiction | ].
      destruct (active (b_status r)) eqn:E; [ | reflexivity ].
      exfalso. apply Hne. rewrite Hpk. now apply Honly.
Qed.

End Unblock.

(** ** Instances *)

Section Instances7.

#[local] Existing Instance Fake.str.

(** The three files of [Fake.colliding], listed backwards. *)
Lemma url_duplicates_any_order_witness :
  let files := Fake.colliding in
  has_duplicates (build_url_map files) = has_duplicates (build_url_map (rev files))
  /\ url_duplicates_msg (build_url_map files)
     = url_duplicates_msg (build_url_map (rev files)).
Proof.
  intros files.
  apply (url_duplicates_any_order files (rev files)). apply Permutation_rev.
Defined.

(** Three images, two of them with one basename, iterated backwards. *)
Lemma image_duplicates_any_order_witness :
  let images := ["/b/x/logo.png"; "/b/x/map.png"; "/b/z/Logo.png"] in
  snd (build_image_map images) = snd (build_image_map (rev images))
  /\ image_duplicates_msg (fst (build_image_map images))
     = image_duplicates_msg (fst (build_image_map (rev images))).
Proof.
  intros images.
  apply (image_duplicates_any_order images (rev images)). apply Permutation_rev.
Defined.

(** An id of eighteen characters and its first fifteen. *)
Lemma preview_url_of_long_id_witness :
  let w := Fake.world Fake.empty_store [] in
  String.length "kA0360000008OQx" = 15%nat
  /\ get_preview_url Fake.settings (Some "kA0360000008OQxCAM") true w
     = get_preview_url Fake.settings (Some "kA0360000008OQx") true w.
Proof.
  intros w. split; [ reflexivity | ].
  exact (preview_url_of_long_id Fake.settings "kA0360000008OQx" "CAM" true w eq_refl).
Defined.

(** A bucket with [Logo.PNG], [old.png] and a draft, and a bundle whose
    one image is [/b/img/logo.png]: [Logo.PNG] is that image, whatever the
    case of the letters, the draft is no production object, and [old.png]
    alone is recorded for deletion. *)
Lemma deleted_images_recorded_witness :
  let w := Fake.world Fake.capitals [] in
  let run :=
    record_deleted_images Fake.settings 1
      (fst (build_image_map ["/b/img/logo.png"])) w in
  Fake.s3_keys (remote w) = ["Logo.PNG"; "old.png"; "draft/new.png"]
  /\ fst run = Ok tt
  /\ images (snd run)
     = [{| i_bundle := 1; i_filename := "old.png"; i_status := STATUS_DELETED |}].
Proof.
  intros w run.
  pose proof (@deleted_images_recorded Fake.Store Fake.store_remote Fake.str
                Fake.settings 1 ["/b/img/logo.png"] w) as Hrows.
  vm_compute in Hrows. destruct Hrows as (Hok & Himgs & _).
  split; [ reflexivity | ].
  split; [ vm_compute; exact Hok | vm_compute; exact Himgs ].
Defined.

(** Bundle 1 is staged again, now without the document [old-page] that
    an earlier run has left a NEW row for. *)
Lemma upload_unchanged_images_unknown_document_witness :
  let left_over :=
    {| a_bundle := 1; a_ka_id := "kaB"; a_kav_id := "kavB";
       a_preview_url := ""; a_status := STATUS_NEW; a_title := "Old page";
       a_url_name := "old-page" |} in
  let w := mkWorld Fake.published [] [left_over] [] [Fake.bundle 1 STATUS_PROCESSING 5]
             [] [] 100 in
  let aim := build_article_image_map Fake.incoming_files in
  upload_unchanged_images Fake.settings 1 aim w = (Raise (KeyError "old-page"), w).
Proof.
  intros left_over w aim.
  exact (@upload_unchanged_images_unknown_document Fake.Store Fake.store_remote
           Fake.settings 1 aim w left_over eq_refl).
Defined.

(** Two documents, one of them NEW with two images, one of which has a
    row: the other image is the one to upload. *)
Lemma unchanged_images_chosen_witness :
  let aim := [("faq", ["/b/img/logo.png"; "/b/img/map.png"]); ("intro", ["/b/img/x.png"])] in
  let arts :=
    [{| a_bundle := 1; a_ka_id := "kaA"; a_kav_id := "kavA"; a_preview_url := "";
        a_status := STATUS_NEW; a_title := "FAQ"; a_url_name := "faq" |};
     {| a_bundle := 1; a_ka_id := "kaB"; a_kav_id := "kavB"; a_preview_url := "";
        a_status := STATUS_DELETED; a_title := "Intro"; a_url_name := "intro" |}] in
  let imgs := [{| i_bundle := 1; i_filename := "logo.png"; i_status := STATUS_CHANGED |}] in
  unchanged_images aim arts imgs = Ok ["/b/img/map.png"]
  /\ NoDup ["/b/img/map.png"]
  /\ forall image,
       In image ["/b/img/map.png"]
       <-> exists article paths,
             In article arts /\ staged (a_status article) = true
             /\ Py.dict_get aim (a_url_name article) = Some paths
             /\ In image paths /\ has_row imgs image = false.
Proof.
  intros aim arts imgs.
  split; [ reflexivity | ].
  exact (unchanged_images_chosen aim arts imgs ["/b/img/map.png"] eq_refl).
Defined.

(** The staged bundle 1 is the one bundle in the way; published, it is
    not any more. *)
Lemma publish_drafts_opens_the_queue_witness :
  let run := publish_drafts Fake.settings 1 Fake.drafted in
  existsb (fun r => active (b_status r)) (bundles Fake.drafted) = true
  /\ existsb (fun r => active (b_status r)) (bundles (snd run)) = false
  /\ jobs (snd run) = jobs Fake.drafted ++ [ProcessQueue].
Proof.
  intros run.
  pose (row := {| b_pk := 1; b_easydita_id := Py.JStr "uuid1";
                  b_easydita_resource_id := Py.JNull; b_status := STATUS_DRAFT;
                  b_time_queued := 5; b_time_processed := Some 100;
                  b_time_published := None; b_error_message := EmptyString |}).
  assert (Hb : bundles Fake.drafted = [row]) by (vm_compute; reflexivity).
  split; [ rewrite Hb; reflexivity | ].
  apply (@publish_drafts_opens_the_queue Fake.Store Fake.store_remote
           Fake.html_ops Fake.settings 1 Fake.drafted row).
  - rewrite Hb. reflexivity.
  - rewrite Hb. intros r [<- | []] _. reflexivity.
Defined.

End Instances7.
